(** * bag3_analog: RDAC layout assembler and differential high-pass filter

    A shallow embedding of the two generators of the repository,

    - [src/bag3_analog/layout/rdac.py]        ([RDAC.draw_layout]) and
    - [src/bag3_analog/schematic/high_pass_diff.py]
                                ([bag3_analog__high_pass_diff.design]),

    together with the properties stated about them.

    Both generators are glue code over the BAG framework: they never read
    back what they have written, they only issue calls that mutate the
    layout or schematic owned by the framework.  A generator is therefore
    embedded as a computation in a writer-with-errors monad: its value is
    the ordered trace of the mutating framework calls it has issued,
    together with either a Python exception or a result.  A trace is kept
    when an exception is raised, as Python keeps the mutations done before
    a [raise].  The framework's read-only services (grid queries, pin
    look-ups, track manager) are parameters of the embedding. *)

From Stdlib Require Import ZArith List String Ascii Bool Lia DecimalString.
Import ListNotations.
Open Scope string_scope.
Open Scope list_scope.
Open Scope Z_scope.

(** [s + t] on Python strings. *)
Infix "+s" := String.append (at level 60, right associativity).

(* ===================================================================== *)
(** ** Python prelude *)
(* ===================================================================== *)

Module Py.

(** The exceptions of a run.  [FrameworkError] stands for whatever the
    framework raises when a pin that is looked up does not exist; the
    others are raised by the generators' own statements. *)
Inductive exn : Type :=
| AssertionError (msg : string)
| ValueError (msg : string)
| TypeError (msg : string)
| IndexError (msg : string)
| AttributeError (msg : string)
| FrameworkError (msg : string).

Definition not_assertion (e : exn) : Prop :=
  match e with AssertionError _ => False | _ => True end.

(** [str(n)] for a Python int. *)
Definition str_of_Z (n : Z) : string := NilZero.string_of_int (Z.to_int n).

(** [range(n)]: empty when [n <= 0]. *)
Definition range (n : Z) : list Z := map Z.of_nat (seq 0 (Z.to_nat n)).

(** [1 << n]: Python raises [ValueError] on a negative shift count. *)
Definition lshift1 (n : Z) : exn + Z :=
  if n <? 0 then inl (ValueError "negative shift count") else inr (Z.shiftl 1 n).

(** [xs[i]] for a list and a non-negative literal index. *)
Definition index {A : Type} (xs : list A) (i : nat) : exn + A :=
  match nth_error xs i with
  | Some x => inr x
  | None => inl (IndexError "list index out of range")
  end.

(** A Python [float] literal, kept as mantissa and decimal exponent
    ([mant * 10^expo]); no arithmetic is ever done on it. *)
Record pyfloat : Type := { mant : Z; expo : Z }.

(** A [str] compared with an [int]: values of these two types are never
    equal in Python, so [s != n] is [True] whatever [s] and [n] are. *)
Definition str_ne_int (s : string) (n : Z) : bool := true.

Section Writer.
Context {E : Type}.

(** Trace of framework calls, and the exception or the value. *)
Definition M (A : Type) : Type := (list E * (exn + A))%type.

Definition ret {A} (a : A) : M A := ([], inr a).
Definition raise {A} (e : exn) : M A := ([], inl e).
Definition emit (ev : E) : M unit := ([ev], inr tt).
Definition lift {A} (r : exn + A) : M A := ([], r).

Definition bind {A B} (m : M A) (f : A -> M B) : M B :=
  match m with
  | (t, inl e) => (t, inl e)
  | (t, inr a) => (t ++ fst (f a), snd (f a))
  end.

(** [for x in xs: body(x)] *)
Fixpoint for_ {A} (xs : list A) (body : A -> M unit) : M unit :=
  match xs with
  | [] => ret tt
  | x :: xs' => bind (body x) (fun _ => for_ xs' body)
  end.

(** [acc = []; for x in xs: acc.append(body(x))] *)
Fixpoint collect {A B} (xs : list A) (body : A -> M B) : M (list B) :=
  match xs with
  | [] => ret []
  | x :: xs' =>
      bind (body x) (fun y => bind (collect xs' body) (fun ys => ret (y :: ys)))
  end.

Definition trace {A} (m : M A) : list E := fst m.
Definition outcome {A} (m : M A) : exn + A := snd m.

(** [m], if it raises, raises an exception that satisfies [Q]. *)
Definition raises_only {A} (Q : exn -> Prop) (m : M A) : Prop :=
  match outcome m with
  | inl e => Q e
  | inr _ => True
  end.
End Writer.

Arguments M : clear implicits.

Declare Scope py_scope.
Delimit Scope py_scope with py.
Notation "x <- m ;; k" := (bind m (fun x => k))
  (at level 61, m at next level, right associativity) : py_scope.
Notation "' pat <- m ;; k" := (bind m (fun x => match x with pat => k end))
  (at level 61, pat pattern, m at next level, right associativity) : py_scope.
Notation "m ;; k" := (bind m (fun _ => k))
  (at level 61, right associativity) : py_scope.

End Py.

(* ===================================================================== *)
(** ** Differential high-pass filter schematic generator
       ([schematic/high_pass_diff.py]) *)
(* ===================================================================== *)

Module HPD.
Import Py.
Local Open Scope py_scope.

(** [ndum: Union[int, Tuple[int, int]]]; the code also lets a tuple of
    three entries through, whose last entry is [connect_mid]. *)
Inductive pyobj : Type :=
| PInt (n : Z)
| PBool (b : bool).

Inductive ndum_t : Type :=
| NdumInt (n : Z)
| NdumTuple (t : list pyobj).

(** [cap_val: Union[float, Tuple[float, float, float, float]]].  Nothing
    checks the annotation: a tuple of any length can be passed, and so
    can a number that is not a [float], such as the int in [cap_val=1]. *)
Inductive pynum : Type :=
| NumInt (n : Z)
| NumFloat (f : pyfloat).

Inductive cap_val_t : Type :=
| CapFloat (c : pyfloat)
| CapInt (n : Z)
| CapTuple (t : list pynum).

(** The arguments of [design]. *)
Record Params : Type := {
  l : Z;
  w : Z;
  intent : string;
  nser : Z;
  ndum : ndum_t;
  res_in_info : option (Z * Z * Z);
  res_out_info : option (Z * Z * Z);
  sub_name : string;
  bias_diff : bool;
  connect_res_to_cap_res_metal : bool;
  connect_dum_to_sub : bool;
  cap_val : cap_val_t;
  extracted : bool
}.

(** [get_default_param_values], for the parameters that have a default. *)
Definition default_params (l w : Z) (intent : string) (nser : Z) (ndum : ndum_t)
  : Params :=
  {| l := l; w := w; intent := intent; nser := nser; ndum := ndum;
     res_in_info := None;
     res_out_info := None;
     sub_name := "VDD";
     bias_diff := true;
     connect_res_to_cap_res_metal := true;
     connect_dum_to_sub := false;
     cap_val := CapFloat {| mant := 1; expo := -9 |};
     extracted := false |}.

(** [unit_params = dict(l=l, w=w, intent=intent)] *)
Record UnitParams : Type := { u_l : Z; u_w : Z; u_intent : string }.

(** The mutating calls [design] issues on the schematic ([Module] API of
    the framework), in the order of their arguments in the source. *)
Inductive Call : Type :=
| RenamePin (old_pin new_pin : string)
| RemovePin (pin : string)
| RemoveInstance (inst_name : string)
| DesignResistor (inst_name : string) (unit_params : UnitParams)
    (nser npar : pyobj) (plus minus mid bulk : string)
    (connect_mid : option pyobj)
| InstDesign (inst_name : string) (layer w l : Z)
| ArrayInstance (inst_name : string) (inst_name_list : list string)
| SetParam (inst_name : string) (key : string) (val : string)
| ReconnectInstance (inst_name : string) (term_net : list (string * string)).

Definition rename_pin (o n : string) : M Call unit := emit (RenamePin o n).
Definition remove_pin (p : string) : M Call unit := emit (RemovePin p).
Definition remove_instance (n : string) : M Call unit := emit (RemoveInstance n).
Definition design_resistor (inst_name : string) (u : UnitParams)
    (nser npar : pyobj) (plus minus mid bulk : string)
    (connect_mid : option pyobj) : M Call unit :=
  emit (DesignResistor inst_name u nser npar plus minus mid bulk connect_mid).
Definition inst_design (n : string) (layer w l : Z) : M Call unit :=
  emit (InstDesign n layer w l).
Definition array_instance (n : string) (ns : list string) : M Call unit :=
  emit (ArrayInstance n ns).
Definition set_param (n k v : string) : M Call unit := emit (SetParam n k v).
Definition reconnect_instance (n : string) (tn : list (string * string))
  : M Call unit := emit (ReconnectInstance n tn).

(** [zip] of three lists. *)
Fixpoint zip3 {A B C} (xs : list A) (ys : list B) (zs : list C)
  : list (A * B * C) :=
  match xs, ys, zs with
  | x :: xs', y :: ys', z :: zs' => (x, y, z) :: zip3 xs' ys' zs'
  | _, _, _ => []
  end.

(** [a, b, c = t] *)
Definition unpack3 {A} (t : list A) : exn + (A * A * A) :=
  match t with
  | [a; b; c] => inr (a, b, c)
  | _ :: _ :: _ :: _ :: _ =>
      inl (ValueError "too many values to unpack (expected 3)")
  | _ =>
      inl (ValueError ("not enough values to unpack (expected 3, got "
                       +s str_of_Z (Z.of_nat (List.length t)) +s ")"))
  end.

(** [a, b, c, d = t] *)
Definition unpack4 {A} (t : list A) : exn + (A * A * A * A) :=
  match t with
  | [a; b; c; d] => inr (a, b, c, d)
  | _ :: _ :: _ :: _ :: _ :: _ =>
      inl (ValueError "too many values to unpack (expected 4)")
  | _ =>
      inl (ValueError ("not enough values to unpack (expected 4, got "
                       +s str_of_Z (Z.of_nat (List.length t)) +s ")"))
  end.

(** [not t] for a tuple: true exactly for the empty tuple. *)
Definition py_not_tuple {A} (t : list A) : bool :=
  match t with [] => true | _ => false end.

Section Design.
(** [bag.math.float_to_si_string], a helper of the framework: it turns
    a number into its [str] with an SI prefix. *)
Variable float_to_si_string : pynum -> string.

(** Lines 108-113: bias pins. *)
Definition design_bias (p : Params) : M Call (string * string) :=
  if bias_diff p then
    ret ("biasp", "biasn")
  else
    rename_pin "biasp" "bias" ;;
    remove_pin "biasn" ;;
    ret ("bias", "bias").

(** Lines 102-106: the prefix of the nets the series resistors drive. *)
Definition res_out_conn_pfx (p : Params) : string :=
  let has_res_out := match res_out_info p with Some _ => true | None => false end in
  let connect_res_to_cap_res_metal :=
    connect_res_to_cap_res_metal p && has_res_out in
  if connect_res_to_cap_res_metal then "nc_" else "".

(** Lines 115-123: series resistors. *)
Definition design_res (p : Params) (bias_p bias_n : string) : M Call unit :=
  let res_name_info :=
    [ ("XRESP", res_out_conn_pfx p +s "outp", bias_p);
      ("XRESN", res_out_conn_pfx p +s "outn", bias_n) ] in
  let unit_params := {| u_l := l p; u_w := w p; u_intent := intent p |} in
  for_ res_name_info (fun '(inst_name, out_name, bias_name) =>
    design_resistor inst_name unit_params (PInt (nser p)) (PInt 1)
      out_name bias_name (out_name +s "_x") (sub_name p) None).

(** Lines 125-139: dummy resistors. *)
Definition design_dum (p : Params) (bias_p bias_n : string) : M Call unit :=
  let unit_params := {| u_l := l p; u_w := w p; u_intent := intent p |} in
  let dum_names := ["XRESPD"; "XRESND"] in
  let dum_conns :=
    if connect_dum_to_sub p then [sub_name p; sub_name p] else [bias_p; bias_n] in
  let dum_mid_conns_pfx :=
    if String.eqb (nth 0 dum_conns "") (nth 1 dum_conns "")
    then [sub_name p +s "_p"; sub_name p +s "_n"] else dum_conns in
  let ndum1 :=
    match ndum p with
    | NdumInt n => [PInt n; PInt 1]
    | NdumTuple t => t
    end in
  let ndum2 :=
    if Nat.eqb (List.length ndum1) 2 then ndum1 ++ [PBool true] else ndum1 in
  '(ndum_par, ndum_ser, dum_connect_mid) <- lift (unpack3 ndum2) ;;
  for_ (zip3 dum_names dum_conns dum_mid_conns_pfx) (fun '(name, conn, mid_pfx) =>
    if py_not_tuple ndum2 then
      remove_instance name
    else
      design_resistor name unit_params ndum_ser ndum_par conn conn
        (mid_pfx +s "_dum_x") (sub_name p) (Some dum_connect_mid)).

(** Lines 141-154: metal resistors. *)
Definition design_mres (p : Params) : M Call unit :=
  match res_in_info p with
  | Some (lay, wd, len) =>
      inst_design "XMRESP1" lay wd len ;;
      inst_design "XMRESN1" lay wd len
  | None =>
      remove_instance "XMRESP1" ;;
      remove_instance "XMRESN1"
  end ;;
  match res_out_info p with
  | Some (lay, wd, len) =>
      inst_design "XMRESP2" lay wd len ;;
      inst_design "XMRESN2" lay wd len
  | None =>
      remove_instance "XMRESP2" ;;
      remove_instance "XMRESN2"
  end.

(** Lines 167-169: the values that [for c in cap_val] runs over, once a
    single float has been made a tuple.  An int is not a [float] and is
    left as it is; iterating over it raises [TypeError]. *)
Definition cap_val_items (cv : cap_val_t) : exn + list pynum :=
  match cv with
  | CapFloat c => inr [NumFloat c; NumInt 0; NumInt 0; NumInt 0]
  | CapInt _ => inl (TypeError "'int' object is not iterable")
  | CapTuple t => inr t
  end.

(** Lines 171-177: the variants of one capacitor instance, as
    [(name, value, plus net, minus net)]. *)
Definition cap_info_list (p : Params) (cc cpb cpi cpo : string)
    (inst_name in_name out_name bias_name cc_pfx : string)
  : list (string * string * string * string) :=
  [(inst_name +s "C", cc, cc_pfx +s in_name, cc_pfx +s out_name)]
  ++ (if str_ne_int cpb 0 then [(inst_name +s "PB", cpb, bias_name, sub_name p)] else [])
  ++ (if str_ne_int cpi 0 then [(inst_name +s "PI", cpi, in_name, sub_name p)] else [])
  ++ (if str_ne_int cpo 0 then [(inst_name +s "PO", cpo, out_name, sub_name p)] else []).

(** Lines 156-182: capacitors. *)
Definition design_cap (p : Params) (bias_p bias_n : string) : M Call unit :=
  let has_res_in := match res_in_info p with Some _ => true | None => false end in
  let has_res_out := match res_out_info p with Some _ => true | None => false end in
  let cap_in_conn_pfx := if has_res_in then "nc_" else "" in
  let cap_out_conn_pfx := if has_res_out then "nc_" else "" in
  let cap_name_info :=
    [ ("XCAPP", "inp", "outp", bias_p, cap_in_conn_pfx);
      ("XCAPN", "inn", "outn", bias_n, cap_out_conn_pfx) ] in
  if extracted p then
    for_ cap_name_info (fun _name_info =>
      remove_instance (fst (fst (fst (fst _name_info)))))
  else
    cap_val1 <- lift (cap_val_items (cap_val p)) ;;
    '(cc, cpb, cpi, cpo) <- lift (unpack4 (map float_to_si_string cap_val1)) ;;
    for_ cap_name_info (fun '(inst_name, in_name, out_name, bias_name, cc_pfx) =>
      let cil := cap_info_list p cc cpb cpi cpo
                   inst_name in_name out_name bias_name cc_pfx in
      let cap_names := map (fun ci => fst (fst (fst ci))) cil in
      array_instance inst_name cap_names ;;
      for_ cil (fun '(cap_name, param_val, plus_conn, minus_conn) =>
        set_param cap_name "c" param_val ;;
        reconnect_instance cap_name
          [("PLUS", plus_conn); ("MINUS", minus_conn)])).

(** [bag3_analog__high_pass_diff.design] *)
Definition design (p : Params) : M Call unit :=
  '(bias_p, bias_n) <- design_bias p ;;
  design_res p bias_p bias_n ;;
  design_dum p bias_p bias_n ;;
  design_mres p ;;
  design_cap p bias_p bias_n ;;
  rename_pin "BULK" (sub_name p).

End Design.

(** *** The schematic the calls act on

    The cell view is created by the framework from the netlist template
    [netlist_info/high_pass_diff.yaml]; the generator then edits it.  For
    statements about the finished schematic, the pins and the instance
    names of the cell view are followed through the calls, with the
    framework's contract for each: [rename_pin] renames a pin and
    [remove_pin] deletes one; [remove_instance] deletes an instance and
    [array_instance] replaces one by its named copies.  The other calls
    work on an instance in place and are taken to keep its name. *)
Record Schematic : Type := {
  sch_pins : list string;
  sch_insts : list string
}.

Definition apply_call (s : Schematic) (c : Call) : Schematic :=
  match c with
  | RenamePin o n =>
      {| sch_pins := map (fun x => if String.eqb x o then n else x) (sch_pins s);
         sch_insts := sch_insts s |}
  | RemovePin x =>
      {| sch_pins := filter (fun y => negb (String.eqb y x)) (sch_pins s);
         sch_insts := sch_insts s |}
  | RemoveInstance i =>
      {| sch_pins := sch_pins s;
         sch_insts := filter (fun y => negb (String.eqb y i)) (sch_insts s) |}
  | ArrayInstance i names =>
      {| sch_pins := sch_pins s;
         sch_insts :=
           flat_map (fun y => if String.eqb y i then names else [y]) (sch_insts s) |}
  | _ => s
  end.

Definition apply_calls (s : Schematic) (t : list Call) : Schematic :=
  fold_left apply_call t s.

(** The schematic left behind by [design] on the cell view [tmpl]. *)
Definition designed (f2s : pynum -> string) (tmpl : Schematic) (p : Params)
  : Schematic :=
  apply_calls tmpl (trace (design f2s p)).

(** Selectors on traces. *)
Definition is_remove_of (name : string) (c : Call) : bool :=
  match c with RemoveInstance i => String.eqb i name | _ => false end.

Definition is_pin_call (c : Call) : bool :=
  match c with RenamePin _ _ | RemovePin _ => true | _ => false end.

Definition is_array (c : Call) : bool :=
  match c with ArrayInstance _ _ => true | _ => false end.

Definition is_design_resistor_of (name : string) (c : Call) : bool :=
  match c with
  | DesignResistor i _ _ _ _ _ _ _ _ => String.eqb i name
  | _ => false
  end.

Definition array_names_of (name : string) (t : list Call) : list (list string) :=
  flat_map (fun c => match c with
                     | ArrayInstance i ns => if String.eqb i name then [ns] else []
                     | _ => []
                     end) t.

(** [ndum] as its annotation and the unpacking on line 133 allow it: an
    [int], or a tuple of two or three entries. *)
Definition ndum_ok (p : Params) : bool :=
  match ndum p with
  | NdumInt _ => true
  | NdumTuple t => Nat.eqb (List.length t) 2 || Nat.eqb (List.length t) 3
  end.

(** [cap_val] as its annotation allows it: a [float], or four values. *)
Definition cap_val_ok (p : Params) : bool :=
  match cap_val p with
  | CapFloat _ => true
  | CapInt _ => false
  | CapTuple t => Nat.eqb (List.length t) 4
  end.

(** Number of occurrences of a name. *)
Definition count (x : string) (xs : list string) : nat :=
  List.length (filter (String.eqb x) xs).

(** A rendering of numbers used for concrete runs: zero is ["0"]. *)
Definition f2s_example (x : pynum) : string :=
  match x with
  | NumInt n => str_of_Z n
  | NumFloat f => str_of_Z (mant f) +s "e" +s str_of_Z (expo f)
  end.

(** The cell view of the netlist template, as far as [design] names it. *)
Definition template_example : Schematic :=
  {| sch_pins := ["inp"; "inn"; "outp"; "outn"; "biasp"; "biasn"; "BULK"];
     sch_insts := ["XRESP"; "XRESN"; "XRESPD"; "XRESND";
                   "XMRESP1"; "XMRESN1"; "XMRESP2"; "XMRESN2";
                   "XCAPP"; "XCAPN"] |}.

(** A parameter set with every optional part switched on and a capacitor
    with parasitics, for post-extraction netlists. *)
Definition extracted_example : Params :=
  {| l := 10; w := 2; intent := "standard"; nser := 4;
     ndum := NdumTuple [PInt 2; PInt 1];
     res_in_info := Some (3, 1, 2);
     res_out_info := Some (3, 1, 2);
     sub_name := "VSS";
     bias_diff := false;
     connect_res_to_cap_res_metal := true;
     connect_dum_to_sub := false;
     cap_val := CapTuple [NumFloat {| mant := 1; expo := -9 |};
                          NumFloat {| mant := 2; expo := -15 |};
                          NumInt 0;
                          NumFloat {| mant := 3; expo := -15 |}];
     extracted := true |}.


(** [extracted_example] with the substrate net called [biasn]. *)
Definition common_mode_sub_biasn : Params :=
  {| l := 10; w := 2; intent := "standard"; nser := 4;
     ndum := NdumTuple [PInt 2; PInt 1];
     res_in_info := Some (3, 1, 2);
     res_out_info := Some (3, 1, 2);
     sub_name := "biasn";
     bias_diff := false;
     connect_res_to_cap_res_metal := true;
     connect_dum_to_sub := false;
     cap_val := cap_val extracted_example;
     extracted := true |}.

(** The number of pins that line 184 turns into pins [x]: the pins
    [BULK] of the cell view, when the run gets as far as line 184 and
    [sub_name] is [x]; none otherwise. *)
Definition bulk_renamed_to (f2s : pynum -> string) (tmpl : Schematic)
    (p : Params) (x : string) : nat :=
  match outcome (design f2s p) with
  | inr _ =>
      if String.eqb (sub_name p) x then count "BULK" (sch_pins tmpl) else 0%nat
  | inl _ => 0%nat
  end.

End HPD.

(* ===================================================================== *)
(** ** RDAC layout assembler ([layout/rdac.py]) *)
(* ===================================================================== *)

Module RDAC.
Import Py.
Local Open Scope py_scope.

(** *** Values of the framework *)

(** Enumerations of [pybag.enum], each in a module of its name. *)
Module Orientation.
Inductive t : Type := R0 | R90 | R180 | R270 | MX | MXR90 | MY | MYR90.
End Orientation.

Module RoundMode.
Inductive t : Type := LESS | LESS_EQ | NEAREST | GREATER_EQ | GREATER | NONE.
End RoundMode.

Module MinLenMode.
Inductive t : Type := LOWER | MIDDLE | UPPER | NONE.
End MinLenMode.

Module Direction.
Inductive t : Type := LOWER | UPPER.
End Direction.

Module PinMode.
Inductive t : Type := ALL | LOWER | MIDDLE | UPPER.
End PinMode.

(** [pybag.core.BBox(xl, yl, xh, yh)] and the attributes the generator
    reads: width, height, and the middle of the horizontal extent. *)
Record BBox : Type := { xl : Z; yl : Z; xh : Z; yh : Z }.

Definition bbox_w (b : BBox) : Z := xh b - xl b.
Definition bbox_h (b : BBox) : Z := yh b - yl b.
Definition bbox_xm (b : BBox) : Z := (xl b + xh b) / 2.

(** [pybag.core.Transform(dx, dy, mode)]; [dx], [dy] default to [0] and
    [mode] to [R0]. *)
Record Transform : Type := { dx : Z; dy : Z; mode : Orientation.t }.

(** The image of a point, then of a box, under a transform: the
    orientation acts first, the translation second. *)
Definition orient_pt (o : Orientation.t) (x y : Z) : Z * Z :=
  match o with
  | Orientation.R0 => (x, y)
  | Orientation.R90 => (- y, x)
  | Orientation.R180 => (- x, - y)
  | Orientation.R270 => (y, - x)
  | Orientation.MX => (x, - y)
  | Orientation.MXR90 => (y, x)
  | Orientation.MY => (- x, y)
  | Orientation.MYR90 => (- y, - x)
  end.

Definition transform_bbox (t : Transform) (b : BBox) : BBox :=
  let '(x0, y0) := orient_pt (mode t) (xl b) (yl b) in
  let '(x1, y1) := orient_pt (mode t) (xh b) (yh b) in
  {| xl := dx t + Z.min x0 x1; yl := dy t + Z.min y0 y1;
     xh := dx t + Z.max x0 x1; yh := dy t + Z.max y0 y1 |}.

(** [TrackID(layer_id, track_idx, width, num, pitch)]; track indices are
    kept as integers. *)
Record TrackID : Type := {
  tid_layer : Z; tid_index : Z; tid_width : Z; tid_num : Z; tid_pitch : Z
}.

(** [TrackID(layer_id, track_idx, width)], one track. *)
Definition TrackID1 (layer idx width : Z) : TrackID :=
  {| tid_layer := layer; tid_index := idx; tid_width := width;
     tid_num := 1; tid_pitch := 0 |}.

(** A [WireArray]: its tracks and its extent along them. *)
Record WireArray : Type := { track_id : TrackID; lower : Z; upper : Z }.

(** The two masters the generator instantiates, and what it reads of
    them.  [ResLadder] and [RDACDecoder] are generators of their own. *)
Inductive MasterKind : Type := ResLadder | RDACDecoder.

Record ResMaster : Type := {
  res_bound_box : BBox;
  core_coord0 : Z
}.

Record DecMaster : Type := {
  dec_bound_box : BBox;
  pg_coord0 : Z;
  top_layer : Z
}.

(** A placed instance. *)
Record Instance : Type := { inst_master : MasterKind; inst_xform : Transform }.

(** The services of the framework that [draw_layout] reads from: the
    masters made by [new_template], the routing grid, the template's own
    helpers, the track manager, the pins of instances, and the wires that
    a connection creates. *)
Record Framework : Type := {
  res_master : ResMaster;
  dec_master : DecMaster;
  (* self.grid *)
  get_lay_purp_list : Z -> list (string * string);
  get_size_pitch : Z -> Z * Z;
  coord_to_track : Z -> Z -> option RoundMode.t -> Z;
  (* TemplateBase; [bound_box_of_size] is [self.bound_box] once
     [set_size_from_bound_box] has been called *)
  find_track_width : Z -> Z -> Z;
  bound_box_of_size : Z -> BBox -> bool -> BBox;
  connect_to_tracks_warr :
    list WireArray -> TrackID -> option MinLenMode.t ->
    option Z -> option Z -> WireArray;
  (* self._tr_manager *)
  get_next_track : Z -> Z -> string -> string -> Z -> Z;
  get_width : Z -> string -> Z;
  spread_wires : Z -> list string -> Z -> Z -> string * string -> list Z;
  (* PyLayInstance.get_pin, for a pin that is a box and for one that is
     a wire; [None] when the instance has no such pin *)
  get_pin_bbox : Instance -> string -> option BBox;
  get_pin_warr : Instance -> string -> option Z -> option WireArray;
  get_all_port_pins : Instance -> string -> list WireArray;
  (* WireArray *)
  warr_iter : WireArray -> list WireArray;
  middle : WireArray -> Z
}.

(** [self.params], as far as [draw_layout] reads them, with the entries
    of [dec_params] it looks up. *)
Record Params : Type := {
  num_dec : Z;
  num_sel_row : Z;
  num_sel_col : Z
}.

(** *** Calls that change the layout *)

Inductive Call : Type :=
| AddInstance (master : MasterKind) (xform : Transform)
| SetSizeFromBoundBox (top_layer_id : Z) (bbox : BBox) (round_up : bool)
| AddWires (layer track_idx lower upper width : Z)
| AddPin (net_name : string) (wires : list WireArray)
    (mode : option PinMode.t) (connect : bool)
| ConnectBBoxToTrackWires (d : Direction.t) (lay_purp : string * string)
    (bbox : BBox) (track_wires : WireArray)
| ConnectToTracks (wires : list WireArray) (tid : TrackID)
    (min_len_mode : option MinLenMode.t) (track_lower track_upper : option Z)
| SetSchParams (num_dec : Z).

Section Generator.
Variable fw : Framework.

Definition add_instance (m : MasterKind) (x : Transform) : M Call Instance :=
  emit (AddInstance m x) ;;
  ret {| inst_master := m; inst_xform := x |}.

Definition set_size_from_bound_box (top : Z) (b : BBox) (round_up : bool)
  : M Call BBox :=
  emit (SetSizeFromBoundBox top b round_up) ;;
  ret (bound_box_of_size fw top b round_up).

Definition add_wires (layer tidx lo hi width : Z) : M Call WireArray :=
  emit (AddWires layer tidx lo hi width) ;;
  ret {| track_id := TrackID1 layer tidx width; lower := lo; upper := hi |}.

Definition add_pin (name : string) (ws : list WireArray)
    (mode : option PinMode.t) (connect : bool) : M Call unit :=
  emit (AddPin name ws mode connect).

Definition connect_bbox_to_track_wires (d : Direction.t)
    (lp : string * string) (b : BBox) (tw : WireArray) : M Call unit :=
  emit (ConnectBBoxToTrackWires d lp b tw).

Definition connect_to_tracks (ws : list WireArray) (tid : TrackID)
    (mlm : option MinLenMode.t) (tl tu : option Z) : M Call WireArray :=
  emit (ConnectToTracks ws tid mlm tl tu) ;;
  ret (connect_to_tracks_warr fw ws tid mlm tl tu).

(** [inst.get_pin(name)], as a box or as a wire. *)
Definition inst_pin_bbox (i : Instance) (name : string) : M Call BBox :=
  match get_pin_bbox fw i name with
  | Some b => ret b
  | None => raise (FrameworkError name)
  end.

Definition inst_pin_warr (i : Instance) (name : string) (layer : option Z)
  : M Call WireArray :=
  match get_pin_warr fw i name layer with
  | Some b => ret b
  | None => raise (FrameworkError name)
  end.

(** [inst.bound_box] *)
Definition inst_bound_box (i : Instance) : BBox :=
  transform_bbox (inst_xform i)
    match inst_master i with
    | ResLadder => res_bound_box (res_master fw)
    | RDACDecoder => dec_bound_box (dec_master fw)
    end.

(** [dec1_inst.get_pin(...)] when [dec1_inst] may be [None]. *)
Definition the_inst (i : option Instance) : M Call Instance :=
  match i with
  | Some d => ret d
  | None => raise (AttributeError "'NoneType' object has no attribute 'get_pin'")
  end.

(** The name of one bit of a bus pin, [f'{pfx}<{idx}>']. *)
Definition bit_name (pfx : string) (idx : Z) : string :=
  pfx +s "<" +s str_of_Z idx +s ">".

(** Lines 63-67: the layers. *)
Definition xxm_layer : Z := top_layer (dec_master fw).
Definition yym_layer : Z := xxm_layer + 1.
Definition ym_layer : Z := xxm_layer - 1.
Definition xm_layer : Z := ym_layer - 1.
Definition vm_layer : Z := xm_layer - 1.

(** What the placement leaves for the routing. *)
Record Placed : Type := {
  dec1_inst : option Instance;
  dec0_inst : Instance;
  res_inst : Instance;
  dec_list : list Instance;
  bound_box : BBox
}.

(** Line 93: the vertical offset of the resistor ladder. *)
Definition off_y : Z :=
  pg_coord0 (dec_master fw) - core_coord0 (res_master fw)
  - snd (get_size_pitch fw xxm_layer).

(** Lines 77-78 and 89: the messages of the two errors. *)
Definition assert_msg : string :=
  "These generator assumes RDACDecoder passgates start higher than ResLadder core.".

Definition num_dec_msg (p : Params) : string :=
  "num_dec=" +s str_of_Z (num_dec p) +s " is not supported yet. Use 1 or 2.".

(** Lines 70-97: placement. *)
Definition placement (p : Params) : M Call Placed :=
  let res_w := bbox_w (res_bound_box (res_master fw)) in
  let res_h := bbox_h (res_bound_box (res_master fw)) in
  let res_coord0 := core_coord0 (res_master fw) in
  let dec_w := bbox_w (dec_bound_box (dec_master fw)) in
  let dec_h := bbox_h (dec_bound_box (dec_master fw)) in
  let dec_coord0 := pg_coord0 (dec_master fw) in
  let w_pitch := fst (get_size_pitch fw xxm_layer) in
  let h_pitch := snd (get_size_pitch fw xxm_layer) in
  let tot_w := res_w + num_dec p * dec_w in
  (if res_coord0 <? dec_coord0 then ret tt
   else raise (AssertionError assert_msg)) ;;
  '(dec1_inst, start_x, dec_list) <-
    (if num_dec p =? 2 then
       dec1_inst <- add_instance RDACDecoder
                      {| dx := dec_w; dy := 0; mode := Orientation.MY |} ;;
       ret (Some dec1_inst, dec_w, [dec1_inst])
     else if num_dec p =? 1 then
       ret (None, 0, [])
     else
       raise (ValueError (num_dec_msg p))) ;;
  dec0_inst <- add_instance RDACDecoder
                 {| dx := start_x + res_w; dy := 0; mode := Orientation.R0 |} ;;
  let dec_list := dec_list ++ [dec0_inst] in
  let off_y := dec_coord0 - res_coord0 - h_pitch in
  res_inst <- add_instance ResLadder
                {| dx := start_x; dy := off_y; mode := Orientation.R0 |} ;;
  let tot_h := Z.max dec_h (res_h + off_y) in
  bb <- set_size_from_bound_box yym_layer
          {| xl := 0; yl := 0; xh := tot_w; yh := tot_h |} true ;;
  ret {| dec1_inst := dec1_inst; dec0_inst := dec0_inst;
         res_inst := res_inst; dec_list := dec_list; bound_box := bb |}.

(** Lines 100-115: the select signals. *)
Definition export_sel (p : Params) (pl : Placed) : M Call unit :=
  let num_sel := num_sel_col p + num_sel_row p in
  _sel <- inst_pin_bbox (dec0_inst pl) "sel<0>" ;;
  let w_sel_vm := find_track_width fw vm_layer (bbox_w _sel) in
  for_ (range num_sel) (fun idx =>
    _sel0 <- inst_pin_bbox (dec0_inst pl) (bit_name "sel" idx) ;;
    let _vm_tidx0 := coord_to_track fw vm_layer (bbox_xm _sel0) None in
    _sel0_warr <- add_wires vm_layer _vm_tidx0 0 (yh _sel0) w_sel_vm ;;
    if num_dec p =? 2 then
      add_pin (bit_name "sel0" idx) [_sel0_warr] (Some PinMode.LOWER) false ;;
      d1 <- the_inst (dec1_inst pl) ;;
      _sel1 <- inst_pin_bbox d1 (bit_name "sel" idx) ;;
      let _vm_tidx1 := coord_to_track fw vm_layer (bbox_xm _sel1) None in
      _sel1_warr <- add_wires vm_layer _vm_tidx1 0 (yh _sel1) w_sel_vm ;;
      add_pin (bit_name "sel1" idx) [_sel1_warr] (Some PinMode.LOWER) false
    else
      add_pin (bit_name "sel" idx) [_sel0_warr] (Some PinMode.LOWER) false).

(** Lines 117-130: the outputs. *)
Definition export_out (p : Params) (pl : Placed) : M Call unit :=
  _out0 <- inst_pin_bbox (dec0_inst pl) "out" ;;
  let w_out_ym := find_track_width fw ym_layer (bbox_w _out0) in
  let _ym_tidx0 := coord_to_track fw ym_layer (bbox_xm _out0) None in
  _out0_warr <- add_wires ym_layer _ym_tidx0 (yl _out0) (yh (bound_box pl))
                  w_out_ym ;;
  if num_dec p =? 2 then
    add_pin "out0" [_out0_warr] (Some PinMode.UPPER) false ;;
    d1 <- the_inst (dec1_inst pl) ;;
    _out1 <- inst_pin_bbox d1 "out" ;;
    let _ym_tidx1 := coord_to_track fw ym_layer (bbox_xm _out1) None in
    _out1_warr <- add_wires ym_layer _ym_tidx1 (yl _out1) (yh (bound_box pl))
                    w_out_ym ;;
    add_pin "out1" [_out1_warr] (Some PinMode.UPPER) false
  else
    add_pin "out" [_out0_warr] (Some PinMode.UPPER) false.

(** Lines 134-138: one tap of the resistor ladder to the decoder
    inputs of the same index. *)
Definition connect_tap (p : Params) (pl : Placed)
    (vm_lp : string * string) (idx : Z) : M Call unit :=
  b0 <- inst_pin_bbox (dec0_inst pl) (bit_name "in" idx) ;;
  r0 <- inst_pin_warr (res_inst pl) (bit_name "out" idx) None ;;
  connect_bbox_to_track_wires Direction.LOWER vm_lp b0 r0 ;;
  if num_dec p =? 2 then
    d1 <- the_inst (dec1_inst pl) ;;
    b1 <- inst_pin_bbox d1 (bit_name "in" idx) ;;
    r1 <- inst_pin_warr (res_inst pl) (bit_name "out" idx) None ;;
    connect_bbox_to_track_wires Direction.LOWER vm_lp b1 r1
  else ret tt.

(** Lines 132-138: resistor ladder outputs to decoder inputs. *)
Definition connect_ladder (p : Params) (pl : Placed)
    (vm_lp : string * string) (num_in : Z) : M Call unit :=
  for_ (range num_in) (connect_tap p pl vm_lp).

(** Lines 156-158: the wire on [xxm_layer] made for one wire of a
    supply of the resistor ladder. *)
Definition sup_xxm_warr (w_sup_xxm : Z) (tid : TrackID)
    (warr_single : WireArray) : WireArray :=
  let _ym := connect_to_tracks_warr fw [warr_single] tid
               (Some MinLenMode.MIDDLE) None None in
  let _xxm_tidx :=
    coord_to_track fw xxm_layer (middle fw _ym) (Some RoundMode.NEAREST) in
  connect_to_tracks_warr fw [_ym] (TrackID1 xxm_layer _xxm_tidx w_sup_xxm)
    None None None.

(** Lines 153-158: one supply of the resistor ladder, from its pins up
    to [xxm_layer]. *)
Definition res_sup_to_xxm (w_sup_xxm : Z) (tid : TrackID)
    (sup_xm : list WireArray) : M Call (list WireArray) :=
  collect (flat_map (warr_iter fw) sup_xm) (fun warr_single =>
    _ym <- connect_to_tracks [warr_single] tid (Some MinLenMode.MIDDLE)
             None None ;;
    let _xxm_tidx :=
      coord_to_track fw xxm_layer (middle fw _ym) (Some RoundMode.NEAREST) in
    connect_to_tracks [_ym] (TrackID1 xxm_layer _xxm_tidx w_sup_xxm)
      None None None).

(** Lines 140-172: the supplies of the resistor ladder, up to
    [yym_layer].  Returns the two top wires and the tracks left free on
    either side. *)
Definition res_supplies (pl : Placed)
  : M Call (WireArray * WireArray * Z * Z) :=
  let res_vss_xm := get_all_port_pins fw (res_inst pl) "VSS" in
  let res_vdd_xm := get_all_port_pins fw (res_inst pl) "VDD" in
  v0 <- lift (index res_vdd_xm 0) ;;
  let vdd_ym_lidx :=
    coord_to_track fw ym_layer (lower v0) (Some RoundMode.GREATER_EQ) in
  let vss_ym_lidx := get_next_track fw ym_layer vdd_ym_lidx "sup" "sup" 1 in
  v0' <- lift (index res_vdd_xm 0) ;;
  let vdd_ym_ridx :=
    coord_to_track fw ym_layer (upper v0') (Some RoundMode.LESS_EQ) in
  let vss_ym_ridx := get_next_track fw ym_layer vdd_ym_ridx "sup" "sup" (-1) in
  let w_sup_ym := get_width fw ym_layer "sup" in
  let w_sup_xxm := get_width fw xxm_layer "sup" in
  let vdd_ym_tid :=
    {| tid_layer := ym_layer; tid_index := vdd_ym_lidx; tid_width := w_sup_ym;
       tid_num := 2; tid_pitch := vdd_ym_ridx - vdd_ym_lidx |} in
  let vss_ym_tid :=
    {| tid_layer := ym_layer; tid_index := vss_ym_lidx; tid_width := w_sup_ym;
       tid_num := 2; tid_pitch := vss_ym_ridx - vss_ym_lidx |} in
  res_vss_xxm <- res_sup_to_xxm w_sup_xxm vss_ym_tid res_vss_xm ;;
  res_vdd_xxm <- res_sup_to_xxm w_sup_xxm vdd_ym_tid res_vdd_xm ;;
  x0 <- lift (index res_vdd_xxm 0) ;;
  let vdd_yym_lidx :=
    coord_to_track fw yym_layer (lower x0) (Some RoundMode.GREATER) in
  x0' <- lift (index res_vdd_xxm 0) ;;
  let vdd_yym_ridx :=
    coord_to_track fw yym_layer (upper x0') (Some RoundMode.LESS) in
  let yym_locs1 :=
    spread_wires fw yym_layer ["sup"; "sup"; "sup"] vdd_yym_lidx vdd_yym_ridx
      ("sup", "sup") in
  let w_sup_yym := get_width fw yym_layer "sup" in
  let yh := yh (bound_box pl) in
  vdd0 <- connect_to_tracks res_vdd_xxm
            {| tid_layer := yym_layer; tid_index := vdd_yym_lidx;
               tid_width := w_sup_yym; tid_num := 2;
               tid_pitch := vdd_yym_ridx - vdd_yym_lidx |}
            None (Some 0) (Some yh) ;;
  loc1 <- lift (index yym_locs1 1) ;;
  vss0 <- connect_to_tracks res_vss_xxm (TrackID1 yym_layer loc1 w_sup_yym)
            None (Some 0) (Some yh) ;;
  let avail_lidx := get_next_track fw yym_layer vdd_yym_lidx "sup" "sup" (-1) in
  let avail_ridx := get_next_track fw yym_layer vdd_yym_ridx "sup" "sup" 1 in
  ret (vdd0, vss0, avail_lidx, avail_ridx).

(** Lines 175-191: the supplies of one decoder, up to [yym_layer]. *)
Definition dec_supplies (pl : Placed) (avail_lidx avail_ridx : Z)
    (inst : Instance) : M Call (WireArray * WireArray) :=
  let w_sup_yym := get_width fw yym_layer "sup" in
  let yh := yh (bound_box pl) in
  '(yym_locs, vdd_tidx, vss_tidx) <-
    (if bbox_xm (inst_bound_box inst) >? bbox_xm (inst_bound_box (res_inst pl))
     then
       let yym_ridx :=
         coord_to_track fw yym_layer (xh (inst_bound_box inst))
           (Some RoundMode.LESS) in
       let yym_locs :=
         spread_wires fw yym_layer ["sup"; "sup"; "sup"; "sup"]
           avail_ridx yym_ridx ("sup", "sup") in
       vss_tidx <- lift (index yym_locs 0) ;;
       vdd_tidx <- lift (index yym_locs 1) ;;
       ret (yym_locs, vdd_tidx, vss_tidx)
     else
       let yym_lidx :=
         coord_to_track fw yym_layer (xl (inst_bound_box inst))
           (Some RoundMode.GREATER) in
       let yym_locs :=
         spread_wires fw yym_layer ["sup"; "sup"; "sup"; "sup"]
           yym_lidx avail_lidx ("sup", "sup") in
       vdd_tidx <- lift (index yym_locs 0) ;;
       vss_tidx <- lift (index yym_locs 1) ;;
       ret (yym_locs, vdd_tidx, vss_tidx)) ;;
  vdd_pin <- inst_pin_warr inst "VDD" (Some xxm_layer) ;;
  l2 <- lift (index yym_locs 2) ;;
  l0 <- lift (index yym_locs 0) ;;
  vdd <- connect_to_tracks [vdd_pin]
           {| tid_layer := yym_layer; tid_index := vdd_tidx;
              tid_width := w_sup_yym; tid_num := 2; tid_pitch := l2 - l0 |}
           None (Some 0) (Some yh) ;;
  vss_pin <- inst_pin_warr inst "VSS" (Some xxm_layer) ;;
  l2' <- lift (index yym_locs 2) ;;
  l0' <- lift (index yym_locs 0) ;;
  vss <- connect_to_tracks [vss_pin]
           {| tid_layer := yym_layer; tid_index := vss_tidx;
              tid_width := w_sup_yym; tid_num := 2; tid_pitch := l2' - l0' |}
           None (Some 0) (Some yh) ;;
  ret (vdd, vss).

(** Lines 140-194: all supplies, and the two supply pins. *)
Definition route_supplies (pl : Placed) : M Call unit :=
  '(vdd0, vss0, avail_lidx, avail_ridx) <- res_supplies pl ;;
  decs <- collect (dec_list pl) (dec_supplies pl avail_lidx avail_ridx) ;;
  let vdd_yym := vdd0 :: map fst decs in
  let vss_yym := vss0 :: map snd decs in
  add_pin "VDD" vdd_yym None true ;;
  add_pin "VSS" vss_yym None true.

(** Lines 99-201: routing, and the schematic parameters. *)
Definition routing (p : Params) (pl : Placed) (vm_lp : string * string)
    (num_in : Z) : M Call unit :=
  export_sel p pl ;;
  export_out p pl ;;
  connect_ladder p pl vm_lp num_in ;;
  route_supplies pl ;;
  emit (SetSchParams (num_dec p)).

(** [RDAC.draw_layout] *)
Definition draw_layout (p : Params) : M Call unit :=
  let num_sel := num_sel_col p + num_sel_row p in
  num_in <- lift (lshift1 num_sel) ;;
  vm_lp <- lift (index (get_lay_purp_list fw vm_layer) 0) ;;
  pl <- placement p ;;
  routing p pl vm_lp num_in.

End Generator.

(** *** The layout that the placement makes

    The instances and the bounding box that [placement] hands to the
    routing when [num_dec] is 1 or 2, as functions of the parameters. *)
Section Placed.
Variable fw : Framework.
Variable p : Params.

Definition res_w : Z := bbox_w (res_bound_box (res_master fw)).
Definition res_h : Z := bbox_h (res_bound_box (res_master fw)).
Definition dec_w : Z := bbox_w (dec_bound_box (dec_master fw)).
Definition dec_h : Z := bbox_h (dec_bound_box (dec_master fw)).
Definition h_pitch : Z := snd (get_size_pitch fw (xxm_layer fw)).
Definition start_x : Z := if num_dec p =? 2 then dec_w else 0.
Definition tot_w : Z := res_w + num_dec p * dec_w.
Definition tot_h : Z := Z.max dec_h (res_h + off_y fw).

Definition placed_dec1 : Instance :=
  {| inst_master := RDACDecoder;
     inst_xform := {| dx := dec_w; dy := 0; mode := Orientation.MY |} |}.
Definition placed_dec0 : Instance :=
  {| inst_master := RDACDecoder;
     inst_xform := {| dx := start_x + res_w; dy := 0; mode := Orientation.R0 |} |}.
Definition placed_res : Instance :=
  {| inst_master := ResLadder;
     inst_xform := {| dx := start_x; dy := off_y fw; mode := Orientation.R0 |} |}.

Definition placed_decs : list Instance :=
  (if num_dec p =? 2 then [placed_dec1] else []) ++ [placed_dec0].

Definition placed : Placed :=
  {| dec1_inst := if num_dec p =? 2 then Some placed_dec1 else None;
     dec0_inst := placed_dec0;
     res_inst := placed_res;
     dec_list := placed_decs;
     bound_box :=
       bound_box_of_size fw (yym_layer fw)
         {| xl := 0; yl := 0; xh := tot_w; yh := tot_h |} true |}.

Definition placement_calls : list Call :=
  (if num_dec p =? 2
   then [AddInstance RDACDecoder (inst_xform placed_dec1)] else [])
  ++ [ AddInstance RDACDecoder (inst_xform placed_dec0);
       AddInstance ResLadder (inst_xform placed_res);
       SetSizeFromBoundBox (yym_layer fw)
         {| xl := 0; yl := 0; xh := tot_w; yh := tot_h |} true ].

Definition num_sel : Z := num_sel_col p + num_sel_row p.

(** The parameter sets on which [draw_layout] gets through the routing
    of the signals: the select-bit count is not negative, the layer of
    the select wires has a layer-purpose pair, the geometric
    precondition holds, [num_dec] is supported, and the sub-blocks have
    the pins that are looked up. *)
Record valid_signals : Prop := {
  v_num_sel : 0 <= num_sel;
  v_lay_purp : get_lay_purp_list fw (vm_layer fw) <> [];
  v_coord : core_coord0 (res_master fw) < pg_coord0 (dec_master fw);
  v_num_dec : num_dec p = 1 \/ num_dec p = 2;
  v_sel0 : get_pin_bbox fw placed_dec0 "sel<0>" <> None;
  v_sel : forall d idx, In d placed_decs -> 0 <= idx < num_sel ->
          get_pin_bbox fw d (bit_name "sel" idx) <> None;
  v_out : forall d, In d placed_decs -> get_pin_bbox fw d "out" <> None;
  v_in : forall d idx, In d placed_decs -> 0 <= idx < 2 ^ num_sel ->
         get_pin_bbox fw d (bit_name "in" idx) <> None;
  v_res_out : forall idx, 0 <= idx < 2 ^ num_sel ->
         get_pin_warr fw placed_res (bit_name "out" idx) None <> None
}.

(** The parameter sets on which the supplies can be routed as well: the
    resistor ladder has a [VDD] wire, the track manager gives one
    location per wire asked for, and every decoder has its supply pins
    on [xxm_layer]. *)
Record valid_supplies : Prop := {
  v_res_vdd :
    flat_map (warr_iter fw) (get_all_port_pins fw placed_res "VDD") <> [];
  v_spread : forall layer types lo hi sp,
    List.length (spread_wires fw layer types lo hi sp) = List.length types;
  v_sup : forall d, In d placed_decs ->
    get_pin_warr fw d "VDD" (Some (xxm_layer fw)) <> None
    /\ get_pin_warr fw d "VSS" (Some (xxm_layer fw)) <> None
}.

(** A master's box has its lower left corner at the origin. *)
Definition at_origin (b : BBox) : Prop :=
  xl b = 0 /\ yl b = 0 /\ 0 <= xh b /\ 0 <= yh b.

(** [v] is the top wire of supply [name] of the resistor ladder: the
    wire of a connection, among the calls [t], of as many wires as the
    ladder has for that supply. *)
Definition ladder_supply (name : string) (t : list Call) (v : WireArray)
  : Prop :=
  exists srcs tid,
    v = connect_to_tracks_warr fw srcs tid None (Some 0)
          (Some (yh (bound_box placed)))
    /\ In (ConnectToTracks srcs tid None (Some 0)
             (Some (yh (bound_box placed)))) t
    /\ List.length srcs =
       List.length (flat_map (warr_iter fw)
                      (get_all_port_pins fw placed_res name)).

(** [v] is the top wire of supply [name] of the decoder [d]: the wire
    of a connection, among the calls [t], of the decoder's pin [name] on
    [xxm_layer]. *)
Definition decoder_supply (name : string) (t : list Call) (d : Instance)
    (v : WireArray) : Prop :=
  exists pin tid,
    get_pin_warr fw d name (Some (xxm_layer fw)) = Some pin
    /\ v = connect_to_tracks_warr fw [pin] tid None (Some 0)
             (Some (yh (bound_box placed)))
    /\ In (ConnectToTracks [pin] tid None (Some 0)
             (Some (yh (bound_box placed)))) t.

(** A valid parameter set: generation runs to its end. *)
Definition valid_params : Prop := valid_signals /\ valid_supplies.
End Placed.

(** *** Reading a trace *)

(** The instances placed, in order. *)
Definition instances (t : list Call) : list Instance :=
  flat_map (fun c => match c with
                     | AddInstance m x => [{| inst_master := m; inst_xform := x |}]
                     | _ => []
                     end) t.

(** The names of the pins added, in order. *)
Definition pin_names (t : list Call) : list string :=
  flat_map (fun c => match c with
                     | AddPin n _ _ _ => [n]
                     | _ => []
                     end) t.

(** The [add_pin] calls for one name. *)
Definition pins_named (name : string) (t : list Call) : list Call :=
  filter (fun c => match c with
                   | AddPin n _ _ _ => String.eqb n name
                   | _ => false
                   end) t.

Definition is_decoder (i : Instance) : bool :=
  match inst_master i with RDACDecoder => true | ResLadder => false end.

(** Kinds of calls. *)
Definition is_add_instance (c : Call) : bool :=
  match c with AddInstance _ _ => true | _ => false end.

Definition is_add_pin (c : Call) : bool :=
  match c with AddPin _ _ _ _ => true | _ => false end.

Definition is_connect_to_tracks (c : Call) : bool :=
  match c with ConnectToTracks _ _ _ _ _ => true | _ => false end.

Definition is_connect_bbox (c : Call) : bool :=
  match c with ConnectBBoxToTrackWires _ _ _ _ => true | _ => false end.

(** *** A concrete framework, for runs on concrete parameters *)

Definition warr_example (layer : Z) : WireArray :=
  {| track_id := TrackID1 layer 0 1; lower := 0; upper := 10 |}.

Definition fw_example (core pg : Z) : Framework :=
  {| res_master :=
       {| res_bound_box := {| xl := 0; yl := 0; xh := 100; yh := 80 |};
          core_coord0 := core |};
     dec_master :=
       {| dec_bound_box := {| xl := 0; yl := 0; xh := 60; yh := 120 |};
          pg_coord0 := pg;
          top_layer := 6 |};
     get_lay_purp_list := fun layer => [("met" +s str_of_Z layer, "drawing")];
     get_size_pitch := fun layer => if layer <=? 6 then (4, 4) else (8, 8);
     coord_to_track := fun _ c _ => c / 2;
     find_track_width := fun _ _ => 1;
     bound_box_of_size := fun _ b _ =>
       {| xl := xl b; yl := yl b;
          xh := 8 * ((xh b + 7) / 8); yh := 8 * ((yh b + 7) / 8) |};
     connect_to_tracks_warr := fun ws tid _ tl tu =>
       {| track_id := tid;
          lower := match tl with Some v => v | None => 0 end;
          upper := match tu with Some v => v | None => 10 end |};
     get_next_track := fun _ idx _ _ up => idx + up;
     get_width := fun _ _ => 1;
     spread_wires := fun _ types lo _ _ =>
       map (fun k => lo + Z.of_nat k) (seq 0 (List.length types));
     get_pin_bbox := fun inst _ =>
       Some (transform_bbox (inst_xform inst)
               {| xl := 10; yl := 0; xh := 12; yh := 20 |});
     get_pin_warr := fun _ _ layer =>
       Some (warr_example (match layer with Some v => v | None => 3 end));
     get_all_port_pins := fun _ _ => [warr_example 4];
     warr_iter := fun w => [w];
     middle := fun w => (lower w + upper w) / 2 |}.

Definition params_example (n : Z) : Params :=
  {| num_dec := n; num_sel_row := 1; num_sel_col := 1 |}.

End RDAC.

(* ===================================================================== *)
(** ** Further views of the two generators *)
(* ===================================================================== *)

From Stdlib Require DecimalZ DecimalPos.

Module HPDViews.
Import Py HPD.


(** A parameter set with another [cap_val]. *)
Definition with_cap_val (p : Params) (cv : cap_val_t) : Params :=
  {| l := l p; w := w p; intent := intent p; nser := nser p; ndum := ndum p;
     res_in_info := res_in_info p; res_out_info := res_out_info p;
     sub_name := sub_name p; bias_diff := bias_diff p;
     connect_res_to_cap_res_metal := connect_res_to_cap_res_metal p;
     connect_dum_to_sub := connect_dum_to_sub p;
     cap_val := cv; extracted := extracted p |}.

(** The instance a call works on, if any. *)
Definition call_inst (c : Call) : option string :=
  match c with
  | RemoveInstance i | DesignResistor i _ _ _ _ _ _ _ _ | InstDesign i _ _ _
  | ArrayInstance i _ | SetParam i _ _ | ReconnectInstance i _ => Some i
  | RenamePin _ _ | RemovePin _ => None
  end.

Definition acts_on (name : string) (c : Call) : bool :=
  match call_inst c with
  | Some i => String.eqb i name
  | None => false
  end.

(** The instance name that a call takes out of the schematic: an
    instance that is removed, or replaced by copies under other names. *)
Definition retired_by (c : Call) : option string :=
  match c with
  | RemoveInstance i => Some i
  | ArrayInstance i names => if existsb (String.eqb i) names then None else Some i
  | _ => None
  end.

(** No call works on an instance that an earlier call has retired. *)
Fixpoint no_use_after_retire (t : list Call) : bool :=
  match t with
  | [] => true
  | c :: t' =>
      match retired_by c with
      | Some i => forallb (fun c' => negb (acts_on i c')) t'
      | None => true
      end && no_use_after_retire t'
  end.

(** Every value set and every reconnection is on a copy made by an
    earlier [array_instance]; [made] are the copies made so far. *)
Fixpoint edits_on_copies (made : list string) (t : list Call) : bool :=
  match t with
  | [] => true
  | ArrayInstance _ names :: t' => edits_on_copies (names ++ made) t'
  | SetParam i _ _ :: t' | ReconnectInstance i _ :: t' =>
      existsb (String.eqb i) made && edits_on_copies made t'
  | _ :: t' => edits_on_copies made t'
  end.

(** The call works on one of the instances [names]. *)
Definition in_footprint (names : list string) (c : Call) : bool :=
  match call_inst c with
  | Some i => existsb (String.eqb i) names
  | None => false
  end.

Definition res_names : list string := ["XRESP"; "XRESN"].
Definition dum_names : list string := ["XRESPD"; "XRESND"].
Definition mres_names : list string :=
  ["XMRESP1"; "XMRESN1"; "XMRESP2"; "XMRESN2"].
Definition cap_names : list string :=
  ["XCAPP"; "XCAPN";
   "XCAPPC"; "XCAPPPB"; "XCAPPPI"; "XCAPPPO";
   "XCAPNC"; "XCAPNPB"; "XCAPNPI"; "XCAPNPO"].


Definition is_mres_call (c : Call) : bool :=
  acts_on "XMRESP1" c || acts_on "XMRESN1" c
  || acts_on "XMRESP2" c || acts_on "XMRESN2" c.

Definition is_dummy_call (c : Call) : bool :=
  acts_on "XRESPD" c || acts_on "XRESND" c.



(** Lines 157-158: the prefixes of the nets of the main capacitors. *)
Definition cap_in_conn_pfx (p : Params) : string :=
  match res_in_info p with Some _ => "nc_" | None => "" end.

Definition cap_out_conn_pfx (p : Params) : string :=
  match res_out_info p with Some _ => "nc_" | None => "" end.

(** A parameter set with differential bias, an output metal resistor and
    dummies tied to the substrate. *)
Definition differential_example : Params :=
  {| l := 10; w := 2; intent := "standard"; nser := 4;
     ndum := NdumTuple [PInt 2; PInt 3];
     res_in_info := None;
     res_out_info := Some (3, 1, 2);
     sub_name := "VSS";
     bias_diff := true;
     connect_res_to_cap_res_metal := true;
     connect_dum_to_sub := true;
     cap_val := CapTuple [NumFloat {| mant := 1; expo := -9 |};
                          NumFloat {| mant := 2; expo := -15 |};
                          NumInt 0;
                          NumFloat {| mant := 3; expo := -15 |}];
     extracted := false |}.

End HPDViews.

Module RDACViews.
Import Py RDAC.

Definition is_set_size (c : Call) : bool :=
  match c with SetSizeFromBoundBox _ _ _ => true | _ => false end.

Definition is_sch_params (c : Call) : bool :=
  match c with SetSchParams _ => true | _ => false end.

Definition is_supply_pin (c : Call) : bool :=
  match c with
  | AddPin n _ _ _ => String.eqb n "VDD" || String.eqb n "VSS"
  | _ => false
  end.

(** A supply pin, or the schematic parameters: what a run ends with. *)
Definition is_final_call (c : Call) : bool :=
  is_supply_pin c || is_sch_params c.

(** A computation that ends normally only with the two supply pins and
    the schematic parameters as its last calls, and that has made none of
    these calls when it raises. *)
Definition all_or_nothing (n : Z) (x : M Call unit) : Prop :=
  (outcome x = inr tt ->
   exists pre vdd vss,
     trace x = pre ++ [AddPin "VDD" vdd None true;
                       AddPin "VSS" vss None true;
                       SetSchParams n]
     /\ existsb is_final_call pre = false)
  /\ (forall e, outcome x = inl e -> existsb is_final_call (trace x) = false).

(** Box [b] lies inside box [o]. *)
Definition inside (b o : BBox) : Prop :=
  xl o <= xl b /\ xh b <= xh o /\ yl o <= yl b /\ yh b <= yh o.

(** The wires added, in order, and the wires of the pins that are added
    with a pin mode (the signal pins), in order. *)
Definition added_wires (t : list Call) : list WireArray :=
  flat_map (fun c => match c with
                     | AddWires layer tidx lo hi width =>
                         [{| track_id := TrackID1 layer tidx width;
                             lower := lo; upper := hi |}]
                     | _ => []
                     end) t.

Definition signal_pin_wires (t : list Call) : list WireArray :=
  flat_map (fun c => match c with
                     | AddPin _ ws (Some _) _ => ws
                     | _ => []
                     end) t.

(** Wires and signal pins go together. *)
Definition wires_pair_up (t : list Call) : Prop :=
  added_wires t = signal_pin_wires t.

(** A call that adds neither a wire nor a signal pin. *)
Definition no_wire_no_signal_pin (c : Call) : Prop :=
  match c with
  | AddWires _ _ _ _ _ => False
  | AddPin _ _ (Some _) _ => False
  | _ => True
  end.

(** Where a wire may lie: a select wire, on [vm_layer] from coordinate
    zero, or an output wire, on [ym_layer] up to the top of the layout. *)
Definition wire_in_place (fw : Framework) (p : Params) (c : Call) : Prop :=
  match c with
  | AddWires layer _ lo hi _ =>
      (layer = top_layer (dec_master fw) - 3 /\ lo = 0)
      \/ (layer = top_layer (dec_master fw) - 1
          /\ hi = yh (bound_box (placed fw p)))
  | _ => True
  end.

(** Lines 177-179 and 182-184: the four supply tracks of a decoder whose
    right edge is at [x], spread from [avail_ridx] up to the track below
    [x]; and of one whose left edge is at [x], spread from the track above
    [x] up to [avail_lidx]. *)
Definition locs_right (fw : Framework) (avail_ridx x : Z) : list Z :=
  spread_wires fw (yym_layer fw) ["sup"; "sup"; "sup"; "sup"] avail_ridx
    (coord_to_track fw (yym_layer fw) x (Some RoundMode.LESS))
    ("sup", "sup").

Definition locs_left (fw : Framework) (avail_lidx x : Z) : list Z :=
  spread_wires fw (yym_layer fw) ["sup"; "sup"; "sup"; "sup"]
    (coord_to_track fw (yym_layer fw) x (Some RoundMode.GREATER))
    avail_lidx ("sup", "sup").

(** Lines 186-191: the two connections of a decoder's supply pins, on
    the tracks [vdd_tidx] and [vss_tidx] of [locs]. *)
Definition supply_connections (fw : Framework) (p : Params)
    (locs : list Z) (vdd_tidx vss_tidx : Z) (vdd_pin vss_pin : WireArray)
  : list Call :=
  [ ConnectToTracks [vdd_pin]
      {| tid_layer := yym_layer fw; tid_index := vdd_tidx;
         tid_width := get_width fw (yym_layer fw) "sup"; tid_num := 2;
         tid_pitch := nth 2 locs 0 - nth 0 locs 0 |}
      None (Some 0) (Some (yh (bound_box (placed fw p))));
    ConnectToTracks [vss_pin]
      {| tid_layer := yym_layer fw; tid_index := vss_tidx;
         tid_width := get_width fw (yym_layer fw) "sup"; tid_num := 2;
         tid_pitch := nth 2 locs 0 - nth 0 locs 0 |}
      None (Some 0) (Some (yh (bound_box (placed fw p)))) ].

(** A framework like [fw_example] whose decoders have no select pin. *)
Definition fw_no_sel (core pg : Z) : Framework :=
  {| res_master := res_master (fw_example core pg);
     dec_master := dec_master (fw_example core pg);
     get_lay_purp_list := get_lay_purp_list (fw_example core pg);
     get_size_pitch := get_size_pitch (fw_example core pg);
     coord_to_track := coord_to_track (fw_example core pg);
     find_track_width := find_track_width (fw_example core pg);
     bound_box_of_size := bound_box_of_size (fw_example core pg);
     connect_to_tracks_warr := connect_to_tracks_warr (fw_example core pg);
     get_next_track := get_next_track (fw_example core pg);
     get_width := get_width (fw_example core pg);
     spread_wires := spread_wires (fw_example core pg);
     get_pin_bbox := fun inst name =>
       if String.prefix "sel" name then None
       else get_pin_bbox (fw_example core pg) inst name;
     get_pin_warr := get_pin_warr (fw_example core pg);
     get_all_port_pins := get_all_port_pins (fw_example core pg);
     warr_iter := warr_iter (fw_example core pg);
     middle := middle (fw_example core pg) |}.

End RDACViews.

(* ===================================================================== *)
(** ** Facts about the writer monad *)
(* ===================================================================== *)

Module PyFacts.
Import Py.

Section Writer.
Context {E : Type}.

Lemma trace_bind {A B} (m : M E A) (f : A -> M E B) :
  trace (bind m f) =
  trace m ++ match outcome m with inr a => trace (f a) | inl _ => [] end.
Proof.
  destruct m as [t [e | a]]; cbn; [now rewrite app_nil_r | reflexivity].
Qed.

Lemma outcome_bind {A B} (m : M E A) (f : A -> M E B) :
  outcome (bind m f) =
  match outcome m with inr a => outcome (f a) | inl e => inl e end.
Proof. destruct m as [t [e | a]]; reflexivity. Qed.

Lemma bind_ret_l {A B} (a : A) (f : A -> M E B) : bind (ret a) f = f a.
Proof. unfold bind, ret. cbn. now destruct (f a). Qed.

Lemma bind_ok {A B} (m : M E A) (f : A -> M E B) t1 a t2 r :
  m = (t1, inr a) -> f a = (t2, r) -> bind m f = (t1 ++ t2, r).
Proof. intros -> H. cbn. now rewrite H. Qed.

(** A loop whose bodies all succeed succeeds, and its trace is the
    concatenation of the traces of its bodies. *)
Lemma for_ok {A} (xs : list A) (body : A -> M E unit) :
  (forall x, In x xs -> outcome (body x) = inr tt) ->
  for_ xs body = (flat_map (fun x => trace (body x)) xs, inr tt).
Proof.
  induction xs as [| x xs IH]; intros Hok; [reflexivity |].
  cbn [for_ flat_map].
  specialize (IH (fun y Hy => Hok y (or_intror Hy))).
  pose proof (Hok x (or_introl eq_refl)) as Hx.
  destruct (body x) as [t [e | []]]; cbn in Hx; [discriminate |].
  unfold bind. rewrite IH. reflexivity.
Qed.

(** Whatever happens, a loop only emits what its bodies emit. *)
Lemma for_trace_forall {A} (P : E -> Prop) (xs : list A) (body : A -> M E unit) :
  (forall x, In x xs -> Forall P (trace (body x))) ->
  Forall P (trace (for_ xs body)).
Proof.
  induction xs as [| x xs IH]; intros Hb; [constructor |].
  cbn [for_]. rewrite trace_bind. apply Forall_app. split.
  - apply Hb. now left.
  - destruct (outcome (body x)); [constructor |].
    apply IH. intros y Hy. apply Hb. now right.
Qed.

Lemma bind_trace_forall {A B} (P : E -> Prop) (m : M E A) (f : A -> M E B) :
  Forall P (trace m) -> (forall a, Forall P (trace (f a))) ->
  Forall P (trace (bind m f)).
Proof.
  intros Hm Hf. rewrite trace_bind. apply Forall_app. split; [assumption |].
  destruct (outcome m); [constructor | apply Hf].
Qed.

Lemma collect_trace_forall {A B} (P : E -> Prop) (xs : list A)
    (body : A -> M E B) :
  (forall x, In x xs -> Forall P (trace (body x))) ->
  Forall P (trace (collect xs body)).
Proof.
  induction xs as [| x xs IH]; intros Hb; [constructor |].
  cbn [collect]. apply bind_trace_forall; [apply Hb; now left |].
  intros y. apply bind_trace_forall.
  - apply IH. intros z Hz. apply Hb. now right.
  - intros ys. constructor.
Qed.

(** The exceptions of a computation are those of its parts. *)
Lemma bind_raises_only {A B} (Q : exn -> Prop) (m : M E A) (f : A -> M E B) :
  raises_only Q m -> (forall a, raises_only Q (f a)) ->
  raises_only Q (bind m f).
Proof.
  unfold raises_only. intros Hm Hf. rewrite outcome_bind.
  destruct (outcome m); [assumption | apply Hf].
Qed.

Lemma for_raises_only {A} (Q : exn -> Prop) (xs : list A)
    (body : A -> M E unit) :
  (forall x, In x xs -> raises_only Q (body x)) ->
  raises_only Q (for_ xs body).
Proof.
  induction xs as [| x xs IH]; intros Hb; [exact I |].
  cbn [for_]. apply bind_raises_only; [apply Hb; now left |].
  intros _. apply IH. intros z Hz. apply Hb. now right.
Qed.

Lemma collect_raises_only {A B} (Q : exn -> Prop) (xs : list A)
    (body : A -> M E B) :
  (forall x, In x xs -> raises_only Q (body x)) ->
  raises_only Q (collect xs body).
Proof.
  induction xs as [| x xs IH]; intros Hb; [exact I |].
  cbn [collect]. apply bind_raises_only; [apply Hb; now left |].
  intros y. apply bind_raises_only.
  - apply IH. intros z Hz. apply Hb. now right.
  - intros ys. exact I.
Qed.

(** A loop whose bodies all succeed returns their values in order. *)
Lemma collect_ok {A B} (xs : list A) (body : A -> M E B) (val : A -> B) :
  (forall x, In x xs -> outcome (body x) = inr (val x)) ->
  collect xs body = (flat_map (fun x => trace (body x)) xs, inr (map val xs)).
Proof.
  induction xs as [| x xs IH]; intros Hok; [reflexivity |].
  cbn [collect flat_map map].
  specialize (IH (fun y Hy => Hok y (or_intror Hy))).
  pose proof (Hok x (or_introl eq_refl)) as Hx.
  destruct (body x) as [t [e | b]]; cbn in Hx; [discriminate |].
  injection Hx as ->. cbn [bind]. rewrite IH. cbn.
  now rewrite app_nil_r.
Qed.

(** A loop whose bodies all succeed, with a relation between each
    item, the value returned for it and the calls made, that still holds
    when more calls are made. *)
Lemma collect_ok_rel {A B} (R : A -> B -> list E -> Prop) (xs : list A)
    (body : A -> M E B) :
  (forall x y t t', R x y t -> incl t t' -> R x y t') ->
  (forall x, In x xs -> exists t y, body x = (t, inr y) /\ R x y t) ->
  exists t ys,
    collect xs body = (t, inr ys)
    /\ Forall2 (fun x y => R x y t) xs ys
    /\ (forall c, In c t -> exists x, In x xs /\ In c (trace (body x))).
Proof.
  intros Hmono. induction xs as [| x xs IH]; intros Hb.
  - exists [], []. repeat split; [constructor | intros c []].
  - destruct (Hb x (or_introl eq_refl)) as (t & y & Hx & HR).
    destruct (IH (fun z Hz => Hb z (or_intror Hz)))
      as (ts & ys & Hc & HF & Hin).
    exists (t ++ ts), (y :: ys). cbn [collect].
    rewrite Hx, Hc. cbn. rewrite app_nil_r.
    split; [reflexivity |]. split.
    + constructor.
      * eapply Hmono; [exact HR | apply incl_appl, incl_refl].
      * eapply Forall2_impl; [| exact HF].
        intros a b Hab. eapply Hmono; [exact Hab | apply incl_appr, incl_refl].
    + intros c Hc'. apply in_app_or in Hc'. destruct Hc' as [Hc' | Hc'].
      * exists x. split; [now left |]. rewrite Hx. exact Hc'.
      * destruct (Hin c Hc') as (z & Hz & Hcz). exists z. split; [now right | exact Hcz].
Qed.
End Writer.

End PyFacts.

(* ===================================================================== *)
(** ** High-pass filter: properties *)
(* ===================================================================== *)

Module HPDFacts.
Import Py HPD PyFacts.
Local Open Scope py_scope.

(** The phases before the capacitors never fail when [ndum] is well
    formed, whatever the other parameters are. *)
Lemma design_dum_ok (p : Params) (bp bn : string) :
  ndum_ok p = true -> outcome (design_dum p bp bn) = inr tt.
Proof.
  unfold ndum_ok, design_dum. intros H.
  destruct (ndum p) as [n | [| a [| b [| c [| d t]]]]]; try discriminate;
    destruct (connect_dum_to_sub p); cbn;
    try destruct (String.eqb _ _); reflexivity.
Qed.

Lemma design_bias_ok (p : Params) :
  outcome (design_bias p) =
  inr (if bias_diff p then ("biasp", "biasn") else ("bias", "bias")).
Proof. unfold design_bias. destruct (bias_diff p); reflexivity. Qed.

Lemma design_res_ok (p : Params) (bp bn : string) :
  outcome (design_res p bp bn) = inr tt.
Proof. reflexivity. Qed.

Lemma design_mres_ok (p : Params) : outcome (design_mres p) = inr tt.
Proof.
  unfold design_mres.
  destruct (res_in_info p) as [[[? ?] ?] |], (res_out_info p) as [[[? ?] ?] |];
    reflexivity.
Qed.

(** The trace of [design], phase by phase, for well-formed [ndum]. *)
Lemma design_trace (f2s : pynum -> string) (p : Params) :
  ndum_ok p = true ->
  let bp := if bias_diff p then "biasp" else "bias" in
  let bn := if bias_diff p then "biasn" else "bias" in
  trace (design f2s p) =
    trace (design_bias p) ++ trace (design_res p bp bn)
    ++ trace (design_dum p bp bn) ++ trace (design_mres p)
    ++ trace (design_cap f2s p bp bn)
    ++ match outcome (design_cap f2s p bp bn) with
       | inr _ => [RenamePin "BULK" (sub_name p)]
       | inl _ => []
       end
  /\ outcome (design f2s p) = outcome (design_cap f2s p bp bn).
Proof.
  intros Hn bp bn. unfold design.
  rewrite trace_bind, outcome_bind, design_bias_ok.
  assert (Hb : (if bias_diff p then ("biasp", "biasn") else ("bias", "bias"))
               = (bp, bn)) by (subst bp bn; destruct (bias_diff p); reflexivity).
  rewrite Hb. cbv beta iota.
  rewrite !trace_bind, !outcome_bind.
  rewrite design_res_ok, design_dum_ok, design_mres_ok by assumption.
  split.
  - destruct (outcome (design_cap f2s p bp bn)) as [e | []]; reflexivity.
  - destruct (outcome (design_cap f2s p bp bn)) as [e | []]; reflexivity.
Qed.

(** *** Selecting calls from a trace *)

Lemma filter_nil_forall (q : Call -> bool) (t : list Call) :
  Forall (fun c => q c = false) t -> filter q t = [].
Proof.
  induction 1 as [| c t Hc _ IH]; [reflexivity |]. cbn. now rewrite Hc.
Qed.

Lemma existsb_false_forall (q : Call -> bool) (t : list Call) :
  Forall (fun c => q c = false) t -> existsb q t = false.
Proof.
  induction 1 as [| c t Hc _ IH]; [reflexivity |]. cbn. now rewrite Hc.
Qed.

(** What each phase can emit. *)
Ltac forall_cbn := cbn; repeat constructor.

Lemma design_bias_forall (P : Call -> Prop) (p : Params) :
  P (RenamePin "biasp" "bias") -> P (RemovePin "biasn") ->
  Forall P (trace (design_bias p)).
Proof. intros. unfold design_bias. destruct (bias_diff p); forall_cbn; assumption. Qed.

Lemma design_dum_forall (P : Call -> Prop) (p : Params) (bp bn : string) :
  (forall u s r a b c d e, P (DesignResistor "XRESPD" u s r a b c d e)) ->
  (forall u s r a b c d e, P (DesignResistor "XRESND" u s r a b c d e)) ->
  Forall P (trace (design_dum p bp bn)).
Proof.
  intros HP HN. unfold design_dum.
  destruct (ndum p) as [n | [| a [| b [| c [| d t]]]]];
    destruct (connect_dum_to_sub p); cbn;
    try destruct (String.eqb _ _); forall_cbn; auto.
Qed.

Lemma design_mres_forall (P : Call -> Prop) (p : Params) :
  (forall n a b c, P (InstDesign n a b c)) ->
  (forall n, In n ["XMRESP1"; "XMRESN1"; "XMRESP2"; "XMRESN2"] ->
             P (RemoveInstance n)) ->
  Forall P (trace (design_mres p)).
Proof.
  intros HD HR. unfold design_mres.
  destruct (res_in_info p) as [[[? ?] ?] |], (res_out_info p) as [[[? ?] ?] |];
    forall_cbn; auto; apply HR; cbn; tauto.
Qed.

Lemma design_cap_forall (P : Call -> Prop) f2s (p : Params) (bp bn : string) :
  (extracted p = true -> P (RemoveInstance "XCAPP") /\ P (RemoveInstance "XCAPN")) ->
  (extracted p = false ->
     (forall n ns, P (ArrayInstance n ns)) /\
     (forall n k v, P (SetParam n k v)) /\
     (forall n tn, P (ReconnectInstance n tn))) ->
  Forall P (trace (design_cap f2s p bp bn)).
Proof.
  intros HT HF. unfold design_cap.
  destruct (extracted p).
  - destruct (HT eq_refl). forall_cbn; assumption.
  - destruct (HF eq_refl) as (HA & HS & HR).
    destruct (cap_val_items (cap_val p)) as [e | items]; [forall_cbn |].
    cbn [lift bind fst snd app].
    destruct (unpack4 (map f2s items)) as [e | [[[cc cpb] cpi] cpo]];
      forall_cbn; auto.
Qed.

(** The calls of [design] are those of its phases. *)
Lemma design_forall (P : Call -> Prop) f2s (p : Params) :
  Forall P (trace (design_bias p)) ->
  (forall bp bn, Forall P (trace (design_res p bp bn))) ->
  (forall bp bn, Forall P (trace (design_dum p bp bn))) ->
  Forall P (trace (design_mres p)) ->
  (forall bp bn, Forall P (trace (design_cap f2s p bp bn))) ->
  P (RenamePin "BULK" (sub_name p)) ->
  Forall P (trace (design f2s p)).
Proof.
  intros Hb Hr Hd Hm Hc Hn. unfold design.
  apply bind_trace_forall; [assumption | intros [bp bn]].
  repeat (apply bind_trace_forall; [auto | intros _]).
  repeat constructor. assumption.
Qed.

(** The first two phases always run to their end. *)
Lemma design_head f2s (p : Params) :
  let bp := if bias_diff p then "biasp" else "bias" in
  let bn := if bias_diff p then "biasn" else "bias" in
  trace (design f2s p) =
    trace (design_bias p) ++ trace (design_res p bp bn)
    ++ trace (design_dum p bp bn ;; design_mres p ;;
              design_cap f2s p bp bn ;; rename_pin "BULK" (sub_name p))%py.
Proof.
  intros bp bn. unfold design.
  rewrite trace_bind, design_bias_ok.
  assert (Hb : (if bias_diff p then ("biasp", "biasn") else ("bias", "bias"))
               = (bp, bn)) by (subst bp bn; destruct (bias_diff p); reflexivity).
  rewrite Hb. cbv beta iota.
  rewrite trace_bind, design_res_ok. reflexivity.
Qed.

Lemma design_tail_forall (P : Call -> Prop) f2s (p : Params) (bp bn : string) :
  Forall P (trace (design_dum p bp bn)) ->
  Forall P (trace (design_mres p)) ->
  Forall P (trace (design_cap f2s p bp bn)) ->
  P (RenamePin "BULK" (sub_name p)) ->
  Forall P (trace (design_dum p bp bn ;; design_mres p ;;
                   design_cap f2s p bp bn ;; rename_pin "BULK" (sub_name p))%py).
Proof.
  intros Hd Hm Hc Hn.
  repeat (apply bind_trace_forall; [assumption | intros _]).
  repeat constructor. assumption.
Qed.

(** With a malformed [ndum] the run ends on line 133, after the series
    resistors. *)
Lemma design_dum_fails (p : Params) (bp bn : string) :
  ndum_ok p = false ->
  exists msg, design_dum p bp bn = ([], inl (ValueError msg)).
Proof.
  unfold ndum_ok, design_dum. intros H.
  destruct (ndum p) as [n | [| a [| b [| c [| d t]]]]]; try discriminate;
    eexists; reflexivity.
Qed.

Lemma design_fails_in_dum (f2s : pynum -> string) (p : Params) :
  ndum_ok p = false ->
  exists msg,
    outcome (design f2s p) = inl (ValueError msg)
    /\ trace (design f2s p) =
         trace (design_bias p)
         ++ trace (design_res p (if bias_diff p then "biasp" else "bias")
                     (if bias_diff p then "biasn" else "bias")).
Proof.
  intros Hn.
  destruct (design_dum_fails p (if bias_diff p then "biasp" else "bias")
              (if bias_diff p then "biasn" else "bias") Hn) as [msg Hd].
  exists msg. split.
  - unfold design. rewrite outcome_bind, design_bias_ok.
    destruct (bias_diff p); cbv beta iota;
      rewrite outcome_bind, design_res_ok, outcome_bind, Hd; reflexivity.
  - pose proof (design_head f2s p) as Hh. cbv zeta in Hh. rewrite Hh.
    rewrite trace_bind, Hd. cbn [trace outcome fst snd].
    now rewrite !app_nil_r.
Qed.

(** *** The schematic after the calls *)

Lemma apply_calls_app (s : Schematic) (t1 t2 : list Call) :
  apply_calls s (t1 ++ t2) = apply_calls (apply_calls s t1) t2.
Proof. unfold apply_calls. apply fold_left_app. Qed.


(** *** Capacitors *)

Lemma design_cap_extracted f2s (p : Params) (bp bn : string) :
  extracted p = true ->
  design_cap f2s p bp bn =
  ([RemoveInstance "XCAPP"; RemoveInstance "XCAPN"], inr tt).
Proof. intros H. unfold design_cap. rewrite H. reflexivity. Qed.

(** Before the capacitors nothing is replicated. *)
Lemma head_no_array (p : Params) (bp bn : string) :
  Forall (fun c => is_array c = false)
    (trace (design_bias p) ++ trace (design_res p bp bn)
     ++ trace (design_dum p bp bn) ++ trace (design_mres p)).
Proof.
  apply Forall_app; split; [apply design_bias_forall; reflexivity |].
  apply Forall_app; split; [forall_cbn |].
  apply Forall_app; split.
  - apply design_dum_forall; reflexivity.
  - apply design_mres_forall; reflexivity.
Qed.






Lemma array_names_of_app (n : string) (t1 t2 : list Call) :
  array_names_of n (t1 ++ t2) = array_names_of n t1 ++ array_names_of n t2.
Proof. unfold array_names_of. apply flat_map_app. Qed.

Lemma array_names_of_nil (n : string) (t : list Call) :
  Forall (fun c => is_array c = false) t -> array_names_of n t = [].
Proof.
  induction 1 as [| c t Hc _ IH]; [reflexivity |].
  unfold array_names_of in *. cbn. rewrite IH.
  destruct c; try discriminate; reflexivity.
Qed.

(** Without [extracted], every well-formed parameter set gets all four
    variants of each capacitor: the values compared with [0] on lines
    172-176 are the strings made on line 169, so each comparison holds. *)
Lemma cap_variants_always_four (f2s : pynum -> string) (p : Params) :
  extracted p = false -> ndum_ok p = true -> cap_val_ok p = true ->
  array_names_of "XCAPP" (trace (design f2s p)) =
    [["XCAPPC"; "XCAPPPB"; "XCAPPPI"; "XCAPPPO"]]
  /\ array_names_of "XCAPN" (trace (design f2s p)) =
    [["XCAPNC"; "XCAPNPB"; "XCAPNPI"; "XCAPNPO"]].
Proof.
  intros Hx Hn Hc.
  destruct (design_trace f2s p Hn) as [Ht _]. rewrite Ht. clear Ht.
  pose proof (head_no_array p (if bias_diff p then "biasp" else "bias")
                (if bias_diff p then "biasn" else "bias")) as Hh.
  apply Forall_app in Hh. destruct Hh as [H1 Hh].
  apply Forall_app in Hh. destruct Hh as [H2 Hh].
  apply Forall_app in Hh. destruct Hh as [H3 H4].
  rewrite !array_names_of_app.
  rewrite (array_names_of_nil "XCAPP" _ H1), (array_names_of_nil "XCAPP" _ H2),
    (array_names_of_nil "XCAPP" _ H3), (array_names_of_nil "XCAPP" _ H4),
    (array_names_of_nil "XCAPN" _ H1), (array_names_of_nil "XCAPN" _ H2),
    (array_names_of_nil "XCAPN" _ H3), (array_names_of_nil "XCAPN" _ H4).
  cbn [app].
  unfold design_cap, cap_val_ok in *. rewrite Hx.
  destruct (cap_val p) as [c | n | [| a [| b [| c [| d [| e t]]]]]];
    try discriminate; cbn;
    destruct (sub_name p); split; reflexivity.
Qed.

(** C7, on the code.  With the default [cap_val=1e-9], a single float and
    hence no parasitic capacitance, and [extracted=False], [design]
    replicates [XCAPP] and [XCAPN] into all four variants each: the
    parasitic variants [PB], [PI] and [PO] are created, with the value
    that [float_to_si_string] gives for [0], and are instances of the
    finished schematic. *)
Theorem single_float_cap_val_makes_four_variants (f2s : pynum -> string) :
  array_names_of "XCAPP"
    (trace (design f2s (default_params 10 2 "standard" 4 (NdumInt 1)))) =
    [["XCAPPC"; "XCAPPPB"; "XCAPPPI"; "XCAPPPO"]]
  /\ array_names_of "XCAPN"
    (trace (design f2s (default_params 10 2 "standard" 4 (NdumInt 1)))) =
    [["XCAPNC"; "XCAPNPB"; "XCAPNPI"; "XCAPNPO"]]
  /\ In (SetParam "XCAPPPB" "c" (f2s (NumInt 0)))
       (trace (design f2s (default_params 10 2 "standard" 4 (NdumInt 1))))
  /\ incl ["XCAPPPB"; "XCAPPPI"; "XCAPPPO"; "XCAPNPB"; "XCAPNPI"; "XCAPNPO"]
       (sch_insts (designed f2s template_example
                     (default_params 10 2 "standard" 4 (NdumInt 1)))).
Proof.
  repeat split; try reflexivity.
  - cbn. tauto.
  - intros x Hx. cbn in *. tauto.
Qed.

(** *** Dummy resistors *)

(** No parameter set makes [design] remove a dummy resistor: when the
    test on line 135 is reached, [ndum] is a tuple of three entries. *)
Lemma dummies_never_removed (f2s : pynum -> string) (p : Params) :
  existsb (is_remove_of "XRESPD") (trace (design f2s p)) = false
  /\ existsb (is_remove_of "XRESND") (trace (design f2s p)) = false.
Proof.
  split; apply existsb_false_forall; apply design_forall; intros;
    try (apply design_bias_forall; reflexivity);
    try (apply design_dum_forall; reflexivity);
    try reflexivity.
  all: try (forall_cbn; fail).
  all: try (apply design_mres_forall; [reflexivity |];
            intros n [<- | [<- | [<- | [<- | []]]]]; reflexivity).
  all: apply design_cap_forall; intros; repeat split; reflexivity.
Qed.

(** C8, on the code.  With [ndum=0] and the defaults elsewhere, [design]
    does not remove [XRESPD] and [XRESND]: it calls [design_resistor] on
    each, with zero resistors in parallel, and [remove_instance] on
    neither.  With the empty tuple, the unpacking on line 133 raises
    [ValueError] and nothing is removed either. *)
Theorem ndum_zero_designs_the_dummies (f2s : pynum -> string) :
  filter (fun c => is_design_resistor_of "XRESPD" c
                   || is_design_resistor_of "XRESND" c)
    (trace (design f2s (default_params 10 2 "standard" 4 (NdumInt 0)))) =
    [ DesignResistor "XRESPD" {| u_l := 10; u_w := 2; u_intent := "standard" |}
        (PInt 1) (PInt 0) "biasp" "biasp" "biasp_dum_x" "VDD" (Some (PBool true));
      DesignResistor "XRESND" {| u_l := 10; u_w := 2; u_intent := "standard" |}
        (PInt 1) (PInt 0) "biasn" "biasn" "biasn_dum_x" "VDD" (Some (PBool true)) ]
  /\ existsb (fun c => is_remove_of "XRESPD" c || is_remove_of "XRESND" c)
       (trace (design f2s (default_params 10 2 "standard" 4 (NdumInt 0)))) = false
  /\ outcome (design f2s (default_params 10 2 "standard" 4 (NdumTuple []))) =
       inl (ValueError "not enough values to unpack (expected 3, got 0)")
  /\ existsb (fun c => is_remove_of "XRESPD" c || is_remove_of "XRESND" c)
       (trace (design f2s (default_params 10 2 "standard" 4 (NdumTuple [])))) = false.
Proof. repeat split; reflexivity. Qed.

(** *** Pins *)

Lemma count_cons (x y : string) (ys : list string) :
  count x (y :: ys) = ((if String.eqb x y then 1 else 0) + count x ys)%nat.
Proof. unfold count. cbn. destruct (String.eqb x y); reflexivity. Qed.

(** Renaming [o] leaves the pins of any other name [x] alone, as long as
    the new name is not [x]. *)
Lemma count_rename_other (x o n : string) (ps : list string) :
  x <> o -> x <> n ->
  count x (map (fun y => if String.eqb y o then n else y) ps) = count x ps.
Proof.
  intros Ho Hn. induction ps as [| y ps IH]; [reflexivity |].
  cbn [map]. rewrite !count_cons, IH. f_equal.
  destruct (String.eqb_spec y o) as [-> | Hy].
  - destruct (String.eqb_spec x n), (String.eqb_spec x o); congruence.
  - reflexivity.
Qed.

(** Renaming [o] to [n] makes of every [o] one more [n]. *)
Lemma count_rename_new (o n : string) (ps : list string) :
  o <> n ->
  count n (map (fun y => if String.eqb y o then n else y) ps) =
  (count o ps + count n ps)%nat.
Proof.
  intros Hon. induction ps as [| y ps IH]; [reflexivity |].
  cbn [map]. rewrite !count_cons, IH.
  destruct (String.eqb_spec y o) as [-> | Hy].
  - rewrite !String.eqb_refl.
    destruct (String.eqb_spec n o); [congruence | lia].
  - destruct (String.eqb_spec o y); [congruence | lia].
Qed.

Lemma count_remove_other (x r : string) (ps : list string) :
  x <> r ->
  count x (filter (fun y => negb (String.eqb y r)) ps) = count x ps.
Proof.
  intros Hr. induction ps as [| y ps IH]; [reflexivity |].
  cbn [filter]. destruct (String.eqb_spec y r) as [-> | Hy]; cbn [negb].
  - rewrite count_cons, IH. destruct (String.eqb_spec x r); [congruence | lia].
  - rewrite !count_cons, IH. reflexivity.
Qed.

Lemma count_remove_same (r : string) (ps : list string) :
  count r (filter (fun y => negb (String.eqb y r)) ps) = 0%nat.
Proof.
  induction ps as [| y ps IH]; [reflexivity |].
  cbn [filter]. destruct (String.eqb_spec y r) as [-> | Hy]; cbn [negb].
  - exact IH.
  - rewrite count_cons, IH. destruct (String.eqb_spec r y); [congruence | lia].
Qed.

(** Calls that only rename [BULK] keep the number of pins of other
    names, when the new name is not one of them. *)
Lemma count_keeps (x sub : string) (t : list Call) : forall s : Schematic,
  x <> "BULK" -> x <> sub ->
  Forall (fun c => is_pin_call c = true -> c = RenamePin "BULK" sub) t ->
  count x (sch_pins (apply_calls s t)) = count x (sch_pins s).
Proof.
  intros s Hb Hs. revert s.
  induction t as [| c t IH]; intros s Ht; [reflexivity |].
  inversion Ht as [| c' t' Hc Ht']; subst.
  change (apply_calls s (c :: t)) with (apply_calls (apply_call s c) t).
  rewrite IH by assumption.
  destruct c; try reflexivity; specialize (Hc eq_refl); try discriminate.
  injection Hc as -> ->. cbn. now apply count_rename_other.
Qed.

(** After the bias pins, the only call on a pin is the last one. *)
Lemma tail_pin_calls f2s (p : Params) (bp bn : string) :
  Forall (fun c => is_pin_call c = true -> c = RenamePin "BULK" (sub_name p))
    (trace (design_dum p bp bn ;; design_mres p ;;
            design_cap f2s p bp bn ;; rename_pin "BULK" (sub_name p))%py).
Proof.
  apply design_tail_forall.
  - apply design_dum_forall; intros; discriminate.
  - apply design_mres_forall; intros; discriminate.
  - apply design_cap_forall; intros; repeat split; intros; discriminate.
  - reflexivity.
Qed.

(** Calls that touch no pin leave the pins as they are. *)
Lemma pins_unchanged (t : list Call) : forall s : Schematic,
  Forall (fun c => is_pin_call c = false) t ->
  sch_pins (apply_calls s t) = sch_pins s.
Proof.
  induction t as [| c t IH]; intros s Ht; [reflexivity |].
  inversion Ht as [| c' t' Hc Ht']; subst.
  change (apply_calls s (c :: t)) with (apply_calls (apply_call s c) t).
  rewrite IH by assumption.
  destruct c; try reflexivity; discriminate.
Qed.

(** Renaming [o] to [n] adds the pins [o] to those of name [n], and
    leaves the number of pins of any other name but [o]. *)
Lemma count_rename_into (x o n : string) (ps : list string) :
  x <> o ->
  count x (map (fun y => if String.eqb y o then n else y) ps) =
  (count x ps + (if String.eqb n x then count o ps else 0))%nat.
Proof.
  intros Hxo. destruct (String.eqb_spec n x) as [-> | Hn].
  - rewrite count_rename_new by congruence. lia.
  - rewrite count_rename_other by congruence. lia.
Qed.

(** After the bias pins, [design] touches a pin only on its last line,
    and only when it gets that far. *)
Lemma design_after_bias f2s (p : Params) :
  exists mid,
    Forall (fun c => is_pin_call c = false) mid
    /\ trace (design f2s p) =
         trace (design_bias p) ++ mid
         ++ match outcome (design f2s p) with
            | inr _ => [RenamePin "BULK" (sub_name p)]
            | inl _ => []
            end.
Proof.
  set (bp := if bias_diff p then "biasp" else "bias").
  set (bn := if bias_diff p then "biasn" else "bias").
  assert (Hres : Forall (fun c => is_pin_call c = false)
                   (trace (design_res p bp bn))) by forall_cbn.
  destruct (ndum_ok p) eqn:Hn.
  - destruct (design_trace f2s p Hn) as [Ht Ho]. fold bp bn in Ht, Ho.
    exists (trace (design_res p bp bn) ++ trace (design_dum p bp bn)
            ++ trace (design_mres p) ++ trace (design_cap f2s p bp bn)).
    split.
    + apply Forall_app; split; [exact Hres |].
      apply Forall_app; split; [apply design_dum_forall; reflexivity |].
      apply Forall_app; split; [apply design_mres_forall; reflexivity |].
      apply design_cap_forall; intros; repeat split; reflexivity.
    + rewrite Ho, Ht, <- !app_assoc. reflexivity.
  - destruct (design_fails_in_dum f2s p Hn) as (msg & Ho & Ht).
    fold bp bn in Ht.
    exists (trace (design_res p bp bn)). split; [exact Hres |].
    rewrite Ho, Ht, app_nil_r. reflexivity.
Qed.

(** C9 as written fails: with [bias_diff=False] and the substrate net
    called [biasn], line 184 renames pin [BULK] to [biasn], and the
    finished schematic has a pin [biasn]. *)
Lemma substrate_named_biasn_leaves_a_biasn_pin :
  bias_diff common_mode_sub_biasn = false
  /\ outcome (design f2s_example common_mode_sub_biasn) = inr tt
  /\ sch_pins (designed f2s_example template_example common_mode_sub_biasn) =
       ["inp"; "inn"; "outp"; "outn"; "bias"; "biasn"]
  /\ count "biasn"
       (sch_pins (designed f2s_example template_example common_mode_sub_biasn))
     = 1%nat.
Proof. repeat split; reflexivity. Qed.

(** C9, amended.  With [bias_diff=False], the first two calls of [design]
    rename pin [biasp] to [bias] and remove pin [biasn]; the series
    resistors [XRESP] and [XRESN] are designed next, both with [bias] as
    their bias net; and of all later calls only the final renaming of
    [BULK] touches a pin.  Hence, on a cell view with one pin [biasp] and
    no pin [bias], the schematic ends with one pin [bias] and no pin
    [biasn], apart from the pins [BULK] that line 184 renames to
    [sub_name]: these come on top when the run gets as far as line 184
    and [sub_name] is [bias] or [biasn]. *)
Theorem common_mode_bias_merges_the_pins_up_to_bulk
    (f2s : pynum -> string) (p : Params) :
  bias_diff p = false ->
  (exists rest,
     trace (design f2s p) =
       RenamePin "biasp" "bias" :: RemovePin "biasn"
       :: DesignResistor "XRESP"
            {| u_l := l p; u_w := w p; u_intent := intent p |}
            (PInt (nser p)) (PInt 1) (res_out_conn_pfx p +s "outp") "bias"
            ((res_out_conn_pfx p +s "outp") +s "_x") (sub_name p) None
       :: DesignResistor "XRESN"
            {| u_l := l p; u_w := w p; u_intent := intent p |}
            (PInt (nser p)) (PInt 1) (res_out_conn_pfx p +s "outn") "bias"
            ((res_out_conn_pfx p +s "outn") +s "_x") (sub_name p) None
       :: rest
     /\ Forall (fun c => is_pin_call c = true ->
                         c = RenamePin "BULK" (sub_name p)) rest)
  /\ forall tmpl : Schematic,
       count "biasp" (sch_pins tmpl) = 1%nat ->
       count "bias" (sch_pins tmpl) = 0%nat ->
       count "bias" (sch_pins (designed f2s tmpl p))
         = (1 + bulk_renamed_to f2s tmpl p "bias")%nat
       /\ count "biasn" (sch_pins (designed f2s tmpl p))
         = bulk_renamed_to f2s tmpl p "biasn".
Proof.
  intros Hb. split.
  - pose proof (design_head f2s p) as Hh. cbv zeta in Hh. rewrite Hb in Hh.
    pose proof (tail_pin_calls f2s p "bias" "bias") as Ht.
    set (rest := trace (design_dum p "bias" "bias" ;; design_mres p ;;
                        design_cap f2s p "bias" "bias" ;;
                        rename_pin "BULK" (sub_name p))%py) in Hh, Ht.
    unfold design_bias in Hh. rewrite Hb in Hh. cbn in Hh.
    exists rest; split; assumption.
  - intros tmpl Hp Hq.
    destruct (design_after_bias f2s p) as (mid & Hmid & Ht).
    unfold designed, bulk_renamed_to. rewrite Ht.
    unfold design_bias. rewrite Hb. cbn [trace fst bind emit ret app
      rename_pin remove_pin].
    change (?a :: ?b :: mid ++ ?c) with ([a; b] ++ mid ++ c).
    rewrite !apply_calls_app.
    set (s1 := apply_calls tmpl [RenamePin "biasp" "bias"; RemovePin "biasn"]).
    assert (H1 : count "bias" (sch_pins s1) = 1%nat).
    { subst s1. unfold apply_calls. cbn [fold_left apply_call sch_pins].
      rewrite count_remove_other by discriminate.
      rewrite count_rename_new by discriminate. lia. }
    assert (H2 : count "biasn" (sch_pins s1) = 0%nat).
    { subst s1. unfold apply_calls. cbn [fold_left apply_call sch_pins].
      apply count_remove_same. }
    assert (H3 : count "BULK" (sch_pins s1) = count "BULK" (sch_pins tmpl)).
    { subst s1. unfold apply_calls. cbn [fold_left apply_call sch_pins].
      rewrite count_remove_other by discriminate.
      now rewrite count_rename_other by discriminate. }
    pose proof (pins_unchanged mid s1 Hmid) as Hs2.
    destruct (outcome (design f2s p)) as [e | u].
    + unfold apply_calls at 1 3. cbn [fold_left]. rewrite Hs2, H1, H2. lia.
    + unfold apply_calls at 1 3. cbn [fold_left apply_call sch_pins].
      rewrite !count_rename_into by discriminate.
      rewrite Hs2, H1, H2, H3. split; reflexivity.
Qed.

(** C9 amended, at a concrete parameter set with common-mode bias. *)
Lemma common_mode_bias_merges_the_pins_up_to_bulk_witness :
  bias_diff extracted_example = false
  /\ count "biasp" (sch_pins template_example) = 1%nat
  /\ count "bias" (sch_pins template_example) = 0%nat
  /\ bulk_renamed_to f2s_example template_example extracted_example "bias"
     = 0%nat
  /\ count "bias"
       (sch_pins (designed f2s_example template_example extracted_example))
     = 1%nat
  /\ count "biasn"
       (sch_pins (designed f2s_example template_example extracted_example))
     = 0%nat.
Proof.
  split; [reflexivity |].
  do 3 (split; [reflexivity |]).
  exact (proj2 (common_mode_bias_merges_the_pins_up_to_bulk f2s_example
                  extracted_example eq_refl) template_example eq_refl eq_refl).
Defined.

(** *** Series resistors *)

(** C10. With [res_out_info=None], whatever [connect_res_to_cap_res_metal]
    is, the one [design_resistor] call on [XRESP] has [outp] as its output
    net and the one on [XRESN] has [outn]: no [nc_] prefix is used. *)
Theorem no_res_out_connects_resistors_to_outputs
    (f2s : pynum -> string) (p : Params) :
  res_out_info p = None ->
  filter (is_design_resistor_of "XRESP") (trace (design f2s p)) =
    [ DesignResistor "XRESP" {| u_l := l p; u_w := w p; u_intent := intent p |}
        (PInt (nser p)) (PInt 1) "outp"
        (if bias_diff p then "biasp" else "bias") "outp_x" (sub_name p) None ]
  /\ filter (is_design_resistor_of "XRESN") (trace (design f2s p)) =
    [ DesignResistor "XRESN" {| u_l := l p; u_w := w p; u_intent := intent p |}
        (PInt (nser p)) (PInt 1) "outn"
        (if bias_diff p then "biasn" else "bias") "outn_x" (sub_name p) None ].
Proof.
  intros Ho.
  pose proof (design_head f2s p) as Hh. cbv zeta in Hh. rewrite Hh. clear Hh.
  assert (Hpfx : res_out_conn_pfx p = "")
    by (unfold res_out_conn_pfx; rewrite Ho, andb_false_r; reflexivity).
  assert (Htail : forall n, n = "XRESP" \/ n = "XRESN" ->
            filter (is_design_resistor_of n)
              (trace (design_dum p (if bias_diff p then "biasp" else "bias")
                        (if bias_diff p then "biasn" else "bias") ;;
                      design_mres p ;;
                      design_cap f2s p (if bias_diff p then "biasp" else "bias")
                        (if bias_diff p then "biasn" else "bias") ;;
                      rename_pin "BULK" (sub_name p))%py) = []).
  { intros n Hn. apply filter_nil_forall. apply design_tail_forall.
    - apply design_dum_forall; intros; destruct Hn as [-> | ->]; reflexivity.
    - apply design_mres_forall; intros; reflexivity.
    - apply design_cap_forall; intros; repeat split; intros; reflexivity.
    - reflexivity. }
  rewrite !filter_app, !Htail by tauto.
  unfold design_res, design_bias. rewrite Hpfx.
  destruct (bias_diff p); split; reflexivity.
Qed.

(** C10, at the defaults, where [connect_res_to_cap_res_metal] is set. *)
Lemma no_res_out_connects_resistors_to_outputs_witness :
  res_out_info (default_params 10 2 "standard" 4 (NdumInt 1)) = None
  /\ connect_res_to_cap_res_metal
       (default_params 10 2 "standard" 4 (NdumInt 1)) = true
  /\ filter (is_design_resistor_of "XRESP")
       (trace (design f2s_example (default_params 10 2 "standard" 4 (NdumInt 1)))) =
     [ DesignResistor "XRESP" {| u_l := 10; u_w := 2; u_intent := "standard" |}
         (PInt 4) (PInt 1) "outp" "biasp" "outp_x" "VDD" None ].
Proof.
  split; [reflexivity |]. split; [reflexivity |].
  exact (proj1 (no_res_out_connects_resistors_to_outputs f2s_example
                  (default_params 10 2 "standard" 4 (NdumInt 1)) eq_refl)).
Defined.

End HPDFacts.

(* ===================================================================== *)
(** ** RDAC: properties *)
(* ===================================================================== *)

Module RDACFacts.
Import Py RDAC PyFacts.
Local Open Scope py_scope.

(** *** Python helpers *)

Lemma in_range (n idx : Z) : In idx (range n) <-> 0 <= idx < n.
Proof.
  unfold range. rewrite in_map_iff. split.
  - intros (k & <- & Hk). apply in_seq in Hk. lia.
  - intros H. exists (Z.to_nat idx). split; [lia |]. apply in_seq. lia.
Qed.

Lemma length_range (n : Z) : List.length (range n) = Z.to_nat n.
Proof. unfold range. now rewrite length_map, length_seq. Qed.

Lemma lshift1_ok (n : Z) : 0 <= n -> lshift1 n = inr (2 ^ n).
Proof.
  intros H. unfold lshift1.
  destruct (Z.ltb_spec n 0); [lia |]. now rewrite Z.shiftl_1_l.
Qed.

Lemma index_0_ok {A} (xs : list A) : xs <> [] -> exists x, index xs 0 = inr x.
Proof. destruct xs as [| x xs]; [congruence | intros _; now exists x]. Qed.

Lemma index_nth {A} (xs : list A) (i : nat) (d : A) :
  (i < List.length xs)%nat -> index xs i = inr (nth i xs d).
Proof.
  intros H. unfold index. now rewrite (nth_error_nth' xs d H).
Qed.

(** *** Placement *)

Lemma placement_assert (fw : Framework) (p : Params) :
  ~ core_coord0 (res_master fw) < pg_coord0 (dec_master fw) ->
  placement fw p = ([], inl (AssertionError assert_msg)).
Proof.
  intros H. unfold placement.
  destruct (Z.ltb_spec (core_coord0 (res_master fw)) (pg_coord0 (dec_master fw)));
    [contradiction | reflexivity].
Qed.

Lemma placement_unsupported (fw : Framework) (p : Params) :
  core_coord0 (res_master fw) < pg_coord0 (dec_master fw) ->
  num_dec p <> 1 -> num_dec p <> 2 ->
  placement fw p = ([], inl (ValueError (num_dec_msg p))).
Proof.
  intros H H1 H2. unfold placement.
  destruct (Z.ltb_spec (core_coord0 (res_master fw)) (pg_coord0 (dec_master fw)));
    [| lia].
  destruct (Z.eqb_spec (num_dec p) 2); [contradiction |].
  destruct (Z.eqb_spec (num_dec p) 1); [contradiction |].
  reflexivity.
Qed.

Lemma placement_ok (fw : Framework) (p : Params) :
  core_coord0 (res_master fw) < pg_coord0 (dec_master fw) ->
  num_dec p = 1 \/ num_dec p = 2 ->
  placement fw p = (placement_calls fw p, inr (placed fw p)).
Proof.
  intros H Hn. unfold placement, placement_calls, placed, placed_decs,
    placed_dec0, placed_dec1, placed_res, start_x, tot_w, tot_h, off_y,
    res_w, res_h, dec_w, dec_h.
  destruct (Z.ltb_spec (core_coord0 (res_master fw)) (pg_coord0 (dec_master fw)));
    [| lia].
  destruct Hn as [-> | ->]; reflexivity.
Qed.

(** *** The head of [draw_layout] *)

(** Whenever [draw_layout] does not get through the placement, it has
    changed nothing. *)
Lemma draw_layout_stops (fw : Framework) (p : Params) (e : exn) :
  placement fw p = ([], inl e) ->
  trace (draw_layout fw p) = []
  /\ exists e', outcome (draw_layout fw p) = inl e'.
Proof.
  intros Hp. unfold draw_layout.
  destruct (lshift1 _) as [e1 | num_in]; [split; [reflexivity | now exists e1] |].
  destruct (index _ 0) as [e2 | vm_lp]; [split; [reflexivity | now exists e2] |].
  cbn. rewrite Hp. cbn. split; [reflexivity | now exists e].
Qed.

(** The error of a run that does not get through the placement is the
    first that lines 61-89 meet: that of the shift on line 61, that of
    the index on line 68, or the one of the placement itself. *)
Lemma draw_layout_stops_first (fw : Framework) (p : Params) (e : exn) :
  placement fw p = ([], inl e) ->
  trace (draw_layout fw p) = []
  /\ exists e',
       outcome (draw_layout fw p) = inl e'
       /\ (num_sel p < 0 -> e' = ValueError "negative shift count")
       /\ (0 <= num_sel p -> get_lay_purp_list fw (vm_layer fw) = [] ->
           e' = IndexError "list index out of range")
       /\ (0 <= num_sel p -> get_lay_purp_list fw (vm_layer fw) <> [] ->
           e' = e).
Proof.
  intros Hp. unfold draw_layout, num_sel, lshift1.
  destruct (Z.ltb_spec (num_sel_col p + num_sel_row p) 0) as [Hs | Hs].
  - split; [reflexivity |]. eexists. split; [reflexivity |].
    split; [reflexivity |]. split; intros; lia.
  - destruct (get_lay_purp_list fw (vm_layer fw)) as [| vm_lp lps] eqn:Hl.
    + split; [reflexivity |]. eexists. split; [reflexivity |].
      split; [intros; lia |]. split; [reflexivity | congruence].
    + cbn. rewrite Hp. cbn. split; [reflexivity |].
      eexists. split; [reflexivity |].
      split; [intros; lia |]. split; [discriminate | reflexivity].
Qed.

(** *** What the phases can emit and raise *)

Ltac unfold_prims :=
  unfold add_instance, set_size_from_bound_box, add_wires, add_pin,
    connect_bbox_to_track_wires, connect_to_tracks, inst_pin_bbox,
    inst_pin_warr, the_inst.

(** Goes through a computation, leaving one goal for each call it can
    emit ([Forall P (trace _)]) or each exception it can raise
    ([raises_only Q _]). *)
Ltac walk :=
  repeat first
    [ apply bind_trace_forall; [ | intros ]
    | apply for_trace_forall; intros
    | apply collect_trace_forall; intros
    | apply bind_raises_only; [ | intros ]
    | apply for_raises_only; intros
    | apply collect_raises_only; intros
    | match goal with
      | |- context [if ?b then _ else _] => destruct b
      | |- context [match ?x with Some _ => _ | None => _ end] => destruct x
      | |- context [match ?x with inl _ => _ | inr _ => _ end] => destruct x
      | |- context [match ?x with (_, _) => _ end] => destruct x
      end
    | progress unfold_prims
    | progress cbn [trace outcome raises_only fst snd emit ret raise lift]
    | apply Forall_nil
    | apply Forall_cons
    | exact I ].

Section Emits.
Variable P : Call -> Prop.
Variable fw : Framework.
Variable p : Params.
Variable pl : Placed.

Lemma export_sel_forall :
  (forall a b c d e, P (AddWires a b c d e)) ->
  (forall n ws m c, P (AddPin n ws m c)) ->
  Forall P (trace (export_sel fw p pl)).
Proof. intros HW HP. unfold export_sel. walk; auto. Qed.

Lemma export_out_forall :
  (forall a b c d e, P (AddWires a b c d e)) ->
  (forall n ws m c, P (AddPin n ws m c)) ->
  Forall P (trace (export_out fw p pl)).
Proof. intros HW HP. unfold export_out. walk; auto. Qed.

Lemma connect_ladder_forall (vm_lp : string * string) (num_in : Z) :
  (forall d lp b w, P (ConnectBBoxToTrackWires d lp b w)) ->
  Forall P (trace (connect_ladder fw p pl vm_lp num_in)).
Proof. intros HC. unfold connect_ladder, connect_tap. walk; auto. Qed.

Lemma route_supplies_forall :
  (forall ws tid m tl tu, P (ConnectToTracks ws tid m tl tu)) ->
  (forall ws, P (AddPin "VDD" ws None true)) ->
  (forall ws, P (AddPin "VSS" ws None true)) ->
  Forall P (trace (route_supplies fw pl)).
Proof.
  intros HC HD HS.
  unfold route_supplies, res_supplies, dec_supplies, res_sup_to_xxm.
  walk; auto.
Qed.
End Emits.

(** Nothing after the placement raises an [AssertionError]. *)
Lemma routing_no_assertion (fw : Framework) (p : Params) (pl : Placed)
    (vm_lp : string * string) (num_in : Z) :
  raises_only not_assertion (routing fw p pl vm_lp num_in).
Proof.
  unfold routing, export_sel, export_out, connect_ladder, connect_tap,
    route_supplies,
    res_supplies, dec_supplies, res_sup_to_xxm, index.
  walk.
Qed.

Lemma placement_no_assertion (fw : Framework) (p : Params) :
  core_coord0 (res_master fw) < pg_coord0 (dec_master fw) ->
  raises_only not_assertion (placement fw p).
Proof.
  intros Hc.
  destruct (Z.eq_dec (num_dec p) 1) as [H1 | H1];
    [rewrite placement_ok by tauto; exact I |].
  destruct (Z.eq_dec (num_dec p) 2) as [H2 | H2];
    [rewrite placement_ok by tauto; exact I |].
  rewrite placement_unsupported by assumption. exact I.
Qed.

Lemma no_assertion_error (fw : Framework) (p : Params) :
  core_coord0 (res_master fw) < pg_coord0 (dec_master fw) ->
  forall msg, outcome (draw_layout fw p) <> inl (AssertionError msg).
Proof.
  intros Hc msg.
  assert (H : raises_only not_assertion (draw_layout fw p)).
  { unfold draw_layout.
    apply bind_raises_only; [unfold lshift1; walk | intros num_in].
    apply bind_raises_only; [unfold index; walk | intros vm_lp].
    apply bind_raises_only; [now apply placement_no_assertion | intros pl].
    apply routing_no_assertion. }
  unfold raises_only in H. intros E. rewrite E in H. exact H.
Qed.

(** C2 as written fails: with an unsupported [num_dec] and a decoder
    reference coordinate not above the ladder's, the error raised is the
    [AssertionError] of line 77, which comes before the test of
    [num_dec], and not a [ValueError]. *)
Lemma unsupported_num_dec_may_raise_assertion :
  num_dec (params_example 3) <> 1
  /\ num_dec (params_example 3) <> 2
  /\ draw_layout (fw_example 31 31) (params_example 3) =
       ([], inl (AssertionError assert_msg))
  /\ ~ (exists msg, outcome (draw_layout (fw_example 31 31) (params_example 3))
                    = inl (ValueError msg)).
Proof.
  split; [discriminate |]. split; [discriminate |]. split; [reflexivity |].
  intros [msg H]. discriminate H.
Qed.

(** C2, amended.  For every [num_dec] other than 1 and 2, [draw_layout]
    raises an error having made no call at all on the layout: no instance
    is placed and no pin is added.  The error is the first that the tests
    of lines 61-89 meet, in this order: the [ValueError] of the shift on
    line 61 when the select-bit count is negative; the [IndexError] of
    line 68 when the layer of the select wires has no layer-purpose pair;
    the [AssertionError] of line 77 when the geometric precondition
    fails; and otherwise the [ValueError] on [num_dec] of line 89. *)
Theorem unsupported_num_dec_raises_the_first_error
    (fw : Framework) (p : Params) :
  num_dec p <> 1 -> num_dec p <> 2 ->
  trace (draw_layout fw p) = []
  /\ exists e,
       outcome (draw_layout fw p) = inl e
       /\ (num_sel p < 0 -> e = ValueError "negative shift count")
       /\ (0 <= num_sel p -> get_lay_purp_list fw (vm_layer fw) = [] ->
           e = IndexError "list index out of range")
       /\ (0 <= num_sel p -> get_lay_purp_list fw (vm_layer fw) <> [] ->
           ~ core_coord0 (res_master fw) < pg_coord0 (dec_master fw) ->
           e = AssertionError assert_msg)
       /\ (0 <= num_sel p -> get_lay_purp_list fw (vm_layer fw) <> [] ->
           core_coord0 (res_master fw) < pg_coord0 (dec_master fw) ->
           e = ValueError (num_dec_msg p)).
Proof.
  intros H1 H2.
  destruct (Z.lt_ge_cases (core_coord0 (res_master fw))
              (pg_coord0 (dec_master fw))) as [Hc | Hc].
  - destruct (draw_layout_stops_first fw p _
                (placement_unsupported fw p Hc H1 H2))
      as (Ht & e & Ho & Hneg & Hidx & Hpl).
    split; [exact Ht |]. exists e. split; [exact Ho |].
    split; [exact Hneg |]. split; [exact Hidx |].
    split; [intros _ _ Hn; contradiction | intros Hs Hl _; auto].
  - assert (Hn : ~ core_coord0 (res_master fw) < pg_coord0 (dec_master fw))
      by lia.
    destruct (draw_layout_stops_first fw p _ (placement_assert fw p Hn))
      as (Ht & e & Ho & Hneg & Hidx & Hpl).
    split; [exact Ht |]. exists e. split; [exact Ho |].
    split; [exact Hneg |]. split; [exact Hidx |].
    split; [intros Hs Hl _; auto | intros _ _ Hlt; contradiction].
Qed.

(** C2 amended, at [num_dec=3] with the precondition holding. *)
Lemma unsupported_num_dec_raises_the_first_error_witness :
  num_dec (params_example 3) <> 1
  /\ num_dec (params_example 3) <> 2
  /\ trace (draw_layout (fw_example 10 31) (params_example 3)) = []
  /\ exists e,
       outcome (draw_layout (fw_example 10 31) (params_example 3)) = inl e
       /\ e = ValueError "num_dec=3 is not supported yet. Use 1 or 2.".
Proof.
  assert (H1 : num_dec (params_example 3) <> 1) by discriminate.
  assert (H2 : num_dec (params_example 3) <> 2) by discriminate.
  assert (Hs : 0 <= num_sel (params_example 3)) by (cbv; discriminate).
  assert (Hl : get_lay_purp_list (fw_example 10 31)
                 (vm_layer (fw_example 10 31)) <> []) by discriminate.
  assert (Hc : core_coord0 (res_master (fw_example 10 31))
               < pg_coord0 (dec_master (fw_example 10 31))) by reflexivity.
  split; [assumption |]. split; [assumption |].
  destruct (unsupported_num_dec_raises_the_first_error (fw_example 10 31)
              (params_example 3) H1 H2) as (Ht & e & Ho & _ & _ & _ & Hv).
  split; [exact Ht |]. exists e. split; [exact Ho |].
  exact (Hv Hs Hl Hc).
Defined.

(** C5 as written fails: with the precondition violated and a negative
    select-bit count, the run ends in the [ValueError] of the shift on
    line 61, before the assertion of line 77 is reached. *)
Lemma violated_precondition_may_raise_value_error :
  ~ core_coord0 (res_master (fw_example 31 31))
    < pg_coord0 (dec_master (fw_example 31 31))
  /\ draw_layout (fw_example 31 31)
       {| num_dec := 1; num_sel_row := -1; num_sel_col := 0 |} =
     ([], inl (ValueError "negative shift count"))
  /\ ~ (exists msg,
          outcome (draw_layout (fw_example 31 31)
                     {| num_dec := 1; num_sel_row := -1; num_sel_col := 0 |})
          = inl (AssertionError msg)).
Proof.
  split; [cbn; lia |]. split; [reflexivity |].
  intros [msg H]. discriminate H.
Qed.

(** C5, amended.  [draw_layout] asserts that the decoder's reference
    coordinate [pg_coord0] lies strictly above the ladder's
    [core_coord0].  When it does not, generation always fails having
    placed nothing: with the [AssertionError] of line 77 when that line
    is reached, with the [ValueError] of the shift on line 61 when the
    select-bit count is negative, and with the [IndexError] of line 68
    when the count is not negative but the select-wire layer has no
    layer-purpose pair.  When the precondition holds, no
    [AssertionError] is raised. *)
Theorem violated_precondition_stops_before_the_placement
    (fw : Framework) (p : Params) :
  (~ core_coord0 (res_master fw) < pg_coord0 (dec_master fw) ->
     trace (draw_layout fw p) = []
     /\ exists e,
          outcome (draw_layout fw p) = inl e
          /\ (num_sel p < 0 -> e = ValueError "negative shift count")
          /\ (0 <= num_sel p -> get_lay_purp_list fw (vm_layer fw) = [] ->
              e = IndexError "list index out of range")
          /\ (0 <= num_sel p -> get_lay_purp_list fw (vm_layer fw) <> [] ->
              e = AssertionError assert_msg))
  /\ (core_coord0 (res_master fw) < pg_coord0 (dec_master fw) ->
      forall msg, outcome (draw_layout fw p) <> inl (AssertionError msg)).
Proof.
  split.
  - intros Hc.
    exact (draw_layout_stops_first fw p _ (placement_assert fw p Hc)).
  - intros Hc msg. apply no_assertion_error. assumption.
Qed.

(** C5 amended, on both sides of the precondition. *)
Lemma violated_precondition_stops_before_the_placement_witness :
  ~ core_coord0 (res_master (fw_example 31 31))
    < pg_coord0 (dec_master (fw_example 31 31))
  /\ trace (draw_layout (fw_example 31 31) (params_example 2)) = []
  /\ (exists e,
        outcome (draw_layout (fw_example 31 31) (params_example 2)) = inl e
        /\ e = AssertionError assert_msg)
  /\ core_coord0 (res_master (fw_example 10 31))
     < pg_coord0 (dec_master (fw_example 10 31))
  /\ outcome (draw_layout (fw_example 10 31) (params_example 2))
     <> inl (AssertionError assert_msg).
Proof.
  assert (Hn : ~ core_coord0 (res_master (fw_example 31 31))
                 < pg_coord0 (dec_master (fw_example 31 31)))
    by (cbn; lia).
  assert (Hs : 0 <= num_sel (params_example 2)) by (cbv; discriminate).
  assert (Hl : get_lay_purp_list (fw_example 31 31)
                 (vm_layer (fw_example 31 31)) <> []) by discriminate.
  assert (Hc : core_coord0 (res_master (fw_example 10 31))
               < pg_coord0 (dec_master (fw_example 10 31))) by reflexivity.
  split; [assumption |].
  destruct (proj1 (violated_precondition_stops_before_the_placement
                     (fw_example 31 31) (params_example 2)) Hn)
    as (Ht & e & Ho & _ & _ & Ha).
  split; [exact Ht |]. split; [exists e; split; [exact Ho | exact (Ha Hs Hl)] |].
  split; [assumption |].
  exact (proj2 (violated_precondition_stops_before_the_placement
                  (fw_example 10 31) (params_example 2)) Hc assert_msg).
Defined.

(** *** The trace of a run that gets through the placement *)

Lemma draw_layout_placed (fw : Framework) (p : Params) :
  0 <= num_sel p ->
  get_lay_purp_list fw (vm_layer fw) <> [] ->
  core_coord0 (res_master fw) < pg_coord0 (dec_master fw) ->
  num_dec p = 1 \/ num_dec p = 2 ->
  exists vm_lp,
    hd_error (get_lay_purp_list fw (vm_layer fw)) = Some vm_lp
    /\ trace (draw_layout fw p) =
         placement_calls fw p
         ++ trace (routing fw p (placed fw p) vm_lp (2 ^ num_sel p))
    /\ outcome (draw_layout fw p) =
         outcome (routing fw p (placed fw p) vm_lp (2 ^ num_sel p)).
Proof.
  intros Hs Hl Hc Hn. unfold draw_layout. unfold num_sel in *.
  rewrite (lshift1_ok _ Hs).
  destruct (get_lay_purp_list fw (vm_layer fw)) as [| vm_lp lps] eqn:E;
    [congruence |].
  exists vm_lp. unfold index. cbn [nth_error hd_error lift bind fst snd app].
  rewrite (placement_ok fw p Hc Hn). cbn [bind fst snd trace outcome].
  auto.
Qed.

Lemma instances_app (t1 t2 : list Call) :
  instances (t1 ++ t2) = instances t1 ++ instances t2.
Proof. unfold instances. apply flat_map_app. Qed.

Lemma instances_nil (t : list Call) :
  Forall (fun c => is_add_instance c = false) t -> instances t = [].
Proof.
  induction 1 as [| c t Hc _ IH]; [reflexivity |].
  unfold instances in *. cbn. rewrite IH.
  destruct c; try discriminate; reflexivity.
Qed.

Lemma routing_forall (P : Call -> Prop) (fw : Framework) (p : Params)
    (pl : Placed) (vm_lp : string * string) (num_in : Z) :
  (forall a b c d e, P (AddWires a b c d e)) ->
  (forall n ws m c, P (AddPin n ws m c)) ->
  (forall d lp b w, P (ConnectBBoxToTrackWires d lp b w)) ->
  (forall ws tid m tl tu, P (ConnectToTracks ws tid m tl tu)) ->
  (forall n, P (SetSchParams n)) ->
  Forall P (trace (routing fw p pl vm_lp num_in)).
Proof.
  intros HW HP HB HT HS. unfold routing.
  apply bind_trace_forall; [now apply export_sel_forall | intros _].
  apply bind_trace_forall; [now apply export_out_forall | intros _].
  apply bind_trace_forall; [now apply connect_ladder_forall | intros _].
  apply bind_trace_forall; [apply route_supplies_forall; auto | intros _].
  repeat constructor. apply HS.
Qed.

(** The instances of the layout are those of the placement. *)
Lemma draw_layout_instances (fw : Framework) (p : Params) :
  0 <= num_sel p ->
  get_lay_purp_list fw (vm_layer fw) <> [] ->
  core_coord0 (res_master fw) < pg_coord0 (dec_master fw) ->
  num_dec p = 1 \/ num_dec p = 2 ->
  instances (trace (draw_layout fw p)) = placed_decs fw p ++ [placed_res fw p].
Proof.
  intros Hs Hl Hc Hn.
  destruct (draw_layout_placed fw p Hs Hl Hc Hn) as (vm_lp & _ & Ht & _).
  rewrite Ht, instances_app.
  rewrite (instances_nil (trace (routing _ _ _ _ _)))
    by (apply routing_forall; reflexivity).
  rewrite app_nil_r. unfold placement_calls, placed_decs.
  destruct (num_dec p =? 2); reflexivity.
Qed.

(** C3 as written fails: the ladder's reference coordinate, once shifted
    by [off_y], does not line up with the decoder's.  On this layout the
    ladder is shifted by 17, its reference 10 comes to 27, and the
    decoder's is 31: one vertical pitch (4) of the decoder's top layer
    higher.  Nor is 27 on a pitch of that layer or of the layer above,
    the coarsest one used. *)
Lemma ladder_reference_is_one_pitch_low :
  instances (trace (draw_layout (fw_example 10 31) (params_example 1))) =
    [ {| inst_master := RDACDecoder;
         inst_xform := {| dx := 100; dy := 0; mode := Orientation.R0 |} |};
      {| inst_master := ResLadder;
         inst_xform := {| dx := 0; dy := 17; mode := Orientation.R0 |} |} ]
  /\ off_y (fw_example 10 31) = 17
  /\ core_coord0 (res_master (fw_example 10 31)) + 17
     <> pg_coord0 (dec_master (fw_example 10 31))
  /\ pg_coord0 (dec_master (fw_example 10 31))
     - (core_coord0 (res_master (fw_example 10 31)) + 17)
     = snd (get_size_pitch (fw_example 10 31) (xxm_layer (fw_example 10 31)))
  /\ (core_coord0 (res_master (fw_example 10 31)) + 17)
       mod snd (get_size_pitch (fw_example 10 31) (xxm_layer (fw_example 10 31)))
     <> 0
  /\ (core_coord0 (res_master (fw_example 10 31)) + 17)
       mod snd (get_size_pitch (fw_example 10 31) (yym_layer (fw_example 10 31)))
     <> 0.
Proof. repeat split; try reflexivity; cbv; discriminate. Qed.

(** C3, amended.  When the placement is reached and passes its two
    tests, the instances are, in this order: for [num_dec=2] a decoder
    mirrored about the vertical axis and moved right by its width; a
    decoder moved right of the ladder; and the ladder, at [start_x]
    ([0], or the decoder width for [num_dec=2]) and moved up by
    [off_y = pg_coord0 - core_coord0 - h_pitch], with [h_pitch] the
    vertical pitch for the decoder's top layer.  So the ladder's reference
    coordinate comes exactly one such pitch below the decoder's; nothing
    is snapped.  With the master boxes at the origin, the blocks abut
    along the horizontal axis, from [0] to the total width. *)
Theorem blocks_abut_and_ladder_is_one_pitch_low (fw : Framework) (p : Params) :
  0 <= num_sel p ->
  get_lay_purp_list fw (vm_layer fw) <> [] ->
  core_coord0 (res_master fw) < pg_coord0 (dec_master fw) ->
  num_dec p = 1 \/ num_dec p = 2 ->
  instances (trace (draw_layout fw p)) =
    (if num_dec p =? 2
     then [ {| inst_master := RDACDecoder;
               inst_xform := {| dx := dec_w fw; dy := 0;
                                mode := Orientation.MY |} |} ]
     else [])
    ++ [ {| inst_master := RDACDecoder;
            inst_xform := {| dx := start_x fw p + res_w fw; dy := 0;
                             mode := Orientation.R0 |} |};
         {| inst_master := ResLadder;
            inst_xform := {| dx := start_x fw p; dy := off_y fw;
                             mode := Orientation.R0 |} |} ]
  /\ off_y fw =
       pg_coord0 (dec_master fw) - core_coord0 (res_master fw) - h_pitch fw
  /\ core_coord0 (res_master fw) + off_y fw =
       pg_coord0 (dec_master fw) - h_pitch fw
  /\ (at_origin (res_bound_box (res_master fw)) ->
      at_origin (dec_bound_box (dec_master fw)) ->
      xl (inst_bound_box fw (placed_res fw p)) = start_x fw p
      /\ xh (inst_bound_box fw (placed_res fw p))
         = xl (inst_bound_box fw (placed_dec0 fw p))
      /\ xh (inst_bound_box fw (placed_dec0 fw p)) = tot_w fw p
      /\ (num_dec p = 1 -> start_x fw p = 0)
      /\ (num_dec p = 2 ->
            xl (inst_bound_box fw (placed_dec1 fw)) = 0
            /\ xh (inst_bound_box fw (placed_dec1 fw))
               = xl (inst_bound_box fw (placed_res fw p)))).
Proof.
  intros Hs Hl Hc Hn.
  split; [| split; [| split]].
  - rewrite (draw_layout_instances fw p Hs Hl Hc Hn).
    unfold placed_decs, placed_dec1, placed_dec0, placed_res.
    destruct (num_dec p =? 2); reflexivity.
  - reflexivity.
  - unfold off_y, h_pitch. lia.
  - intros (Hrx & Hry & Hrw & Hrh) (Hdx & Hdy & Hdw & Hdh).
    unfold inst_bound_box, transform_bbox, placed_res, placed_dec0,
      placed_dec1, tot_w, start_x, res_w, dec_w, bbox_w.
    cbn [inst_xform inst_master mode dx dy orient_pt xl xh yl yh].
    rewrite Hrx, Hdx.
    destruct Hn as [-> | ->]; cbn [Z.eqb Pos.eqb];
      repeat split; try lia; intros; try lia; repeat split; lia.
Qed.

(** C3 amended, for two decoders on the example layout. *)
Lemma blocks_abut_and_ladder_is_one_pitch_low_witness :
  0 <= num_sel (params_example 2)
  /\ get_lay_purp_list (fw_example 10 31) (vm_layer (fw_example 10 31)) <> []
  /\ core_coord0 (res_master (fw_example 10 31))
     < pg_coord0 (dec_master (fw_example 10 31))
  /\ (num_dec (params_example 2) = 1 \/ num_dec (params_example 2) = 2)
  /\ instances (trace (draw_layout (fw_example 10 31) (params_example 2))) =
       [ {| inst_master := RDACDecoder;
            inst_xform := {| dx := 60; dy := 0; mode := Orientation.MY |} |};
         {| inst_master := RDACDecoder;
            inst_xform := {| dx := 160; dy := 0; mode := Orientation.R0 |} |};
         {| inst_master := ResLadder;
            inst_xform := {| dx := 60; dy := 17; mode := Orientation.R0 |} |} ].
Proof.
  assert (Hs : 0 <= num_sel (params_example 2)) by (cbv; discriminate).
  assert (Hl : get_lay_purp_list (fw_example 10 31)
                 (vm_layer (fw_example 10 31)) <> []) by discriminate.
  assert (Hc : core_coord0 (res_master (fw_example 10 31))
               < pg_coord0 (dec_master (fw_example 10 31))) by reflexivity.
  assert (Hn : num_dec (params_example 2) = 1 \/ num_dec (params_example 2) = 2)
    by (right; reflexivity).
  do 4 (split; [assumption |]).
  exact (proj1 (blocks_abut_and_ladder_is_one_pitch_low (fw_example 10 31)
                  (params_example 2) Hs Hl Hc Hn)).
Defined.

(** *** Signals: select bits, outputs, ladder taps *)

Lemma pin_names_app (t1 t2 : list Call) :
  pin_names (t1 ++ t2) = pin_names t1 ++ pin_names t2.
Proof. unfold pin_names. apply flat_map_app. Qed.

Lemma pin_names_nil (t : list Call) :
  Forall (fun c => is_add_pin c = false) t -> pin_names t = [].
Proof.
  induction 1 as [| c t Hc _ IH]; [reflexivity |].
  unfold pin_names in *. cbn. rewrite IH.
  destruct c; try discriminate; reflexivity.
Qed.

(** A loop whose bodies succeed, read through a selector of calls. *)
Lemma for_ok_sel {A B} (sel : list Call -> list B)
    (Happ : forall t1 t2, sel (t1 ++ t2) = sel t1 ++ sel t2)
    (Hnil : sel [] = [])
    (xs : list A) (body : A -> M Call unit) (out : A -> list B) :
  (forall x, In x xs -> outcome (body x) = inr tt /\ sel (trace (body x)) = out x) ->
  outcome (for_ xs body) = inr tt
  /\ sel (trace (for_ xs body)) = flat_map out xs.
Proof.
  induction xs as [| x xs IH]; intros Hb; [split; [reflexivity | exact Hnil] |].
  destruct (Hb x (or_introl eq_refl)) as [Ho Hs].
  destruct (IH (fun y Hy => Hb y (or_intror Hy))) as [IHo IHs].
  cbn [for_ flat_map]. rewrite outcome_bind, trace_bind, Ho, Happ, Hs, IHs.
  split; [assumption | reflexivity].
Qed.

Lemma inst_pin_bbox_some (fw : Framework) (i : Instance) (n : string) :
  get_pin_bbox fw i n <> None ->
  exists b, get_pin_bbox fw i n = Some b /\ inst_pin_bbox fw i n = ([], inr b).
Proof.
  intros H. unfold inst_pin_bbox.
  destruct (get_pin_bbox fw i n) as [b |]; [now exists b | congruence].
Qed.

Lemma inst_pin_warr_some (fw : Framework) (i : Instance) (n : string)
    (layer : option Z) :
  get_pin_warr fw i n layer <> None ->
  exists w, get_pin_warr fw i n layer = Some w
            /\ inst_pin_warr fw i n layer = ([], inr w).
Proof.
  intros H. unfold inst_pin_warr.
  destruct (get_pin_warr fw i n layer) as [w |]; [now exists w | congruence].
Qed.

#[local] Arguments bit_name : simpl never.

Section Signals.
Variable fw : Framework.
Variable p : Params.
Hypothesis Hv : valid_signals fw p.

Lemma dec0_in_decs : In (placed_dec0 fw p) (placed_decs fw p).
Proof. unfold placed_decs. apply in_or_app. right. now left. Qed.

Lemma dec1_in_decs : num_dec p = 2 -> In (placed_dec1 fw) (placed_decs fw p).
Proof. intros H. unfold placed_decs. rewrite H. now left. Qed.

Lemma export_sel_ok :
  outcome (export_sel fw p (placed fw p)) = inr tt
  /\ pin_names (trace (export_sel fw p (placed fw p))) =
     if num_dec p =? 2
     then flat_map (fun idx => [bit_name "sel0" idx; bit_name "sel1" idx])
            (range (num_sel p))
     else flat_map (fun idx => [bit_name "sel" idx]) (range (num_sel p)).
Proof.
  unfold export_sel. cbn [dec0_inst dec1_inst placed].
  destruct (inst_pin_bbox_some fw _ _ (v_sel0 fw p Hv)) as (b & _ & ->).
  rewrite outcome_bind, trace_bind. cbn [outcome trace fst snd app].
  fold (num_sel p).
  destruct (v_num_dec fw p Hv) as [Hn | Hn].
  - rewrite Hn. cbn [Z.eqb Pos.eqb].
    apply (for_ok_sel pin_names pin_names_app eq_refl).
    intros idx Hi. apply in_range in Hi.
    destruct (inst_pin_bbox_some fw _ _ (v_sel fw p Hv _ idx dec0_in_decs Hi))
      as (b0 & _ & ->).
    split; reflexivity.
  - pose proof (dec1_in_decs Hn) as H1. rewrite Hn in *. cbn [Z.eqb Pos.eqb].
    apply (for_ok_sel pin_names pin_names_app eq_refl).
    intros idx Hi. apply in_range in Hi.
    destruct (inst_pin_bbox_some fw _ _ (v_sel fw p Hv _ idx dec0_in_decs Hi))
      as (b0 & _ & ->).
    destruct (inst_pin_bbox_some fw _ _ (v_sel fw p Hv _ idx H1 Hi))
      as (b1 & G1 & _).
    cbn. unfold inst_pin_bbox. rewrite G1. split; reflexivity.
Qed.

Lemma export_out_ok :
  outcome (export_out fw p (placed fw p)) = inr tt
  /\ pin_names (trace (export_out fw p (placed fw p))) =
     if num_dec p =? 2 then ["out0"; "out1"] else ["out"].
Proof.
  unfold export_out. cbn [dec0_inst dec1_inst placed].
  destruct (inst_pin_bbox_some fw _ _ (v_out fw p Hv _ dec0_in_decs))
    as (b & _ & ->).
  destruct (v_num_dec fw p Hv) as [Hn | Hn].
  - rewrite Hn. split; reflexivity.
  - pose proof (dec1_in_decs Hn) as H1. rewrite Hn in *. cbn [Z.eqb Pos.eqb].
    destruct (inst_pin_bbox_some fw _ _ (v_out fw p Hv _ H1)) as (b1 & G1 & _).
    cbn. unfold inst_pin_bbox. rewrite G1. split; reflexivity.
Qed.

(** One tap: the calls made for index [idx]. *)
Lemma connect_tap_ok (vm_lp : string * string) (idx : Z) :
  0 <= idx < 2 ^ num_sel p ->
  exists b0 r,
    get_pin_bbox fw (placed_dec0 fw p) (bit_name "in" idx) = Some b0
    /\ get_pin_warr fw (placed_res fw p) (bit_name "out" idx) None = Some r
    /\ outcome (connect_tap fw p (placed fw p) vm_lp idx) = inr tt
    /\ ((num_dec p = 1
         /\ trace (connect_tap fw p (placed fw p) vm_lp idx) =
              [ConnectBBoxToTrackWires Direction.LOWER vm_lp b0 r])
        \/ (num_dec p = 2
            /\ exists b1,
                 get_pin_bbox fw (placed_dec1 fw) (bit_name "in" idx) = Some b1
                 /\ trace (connect_tap fw p (placed fw p) vm_lp idx) =
                      [ConnectBBoxToTrackWires Direction.LOWER vm_lp b0 r;
                       ConnectBBoxToTrackWires Direction.LOWER vm_lp b1 r])).
Proof.
  intros Hi. unfold connect_tap. cbn [dec0_inst dec1_inst res_inst placed].
  destruct (inst_pin_bbox_some fw _ _ (v_in fw p Hv _ idx dec0_in_decs Hi))
    as (b0 & G0 & E0).
  destruct (inst_pin_warr_some fw _ _ _ (v_res_out fw p Hv idx Hi))
    as (r & Gr & Er).
  exists b0, r. split; [assumption |]. split; [assumption |].
  rewrite E0, Er.
  destruct (v_num_dec fw p Hv) as [Hn | Hn].
  - rewrite Hn in *. split; [reflexivity |]. left. split; reflexivity.
  - pose proof (dec1_in_decs Hn) as H1. rewrite Hn in *.
    destruct (inst_pin_bbox_some fw _ _ (v_in fw p Hv _ idx H1 Hi))
      as (b1 & G1 & E1).
    cbn [Z.eqb Pos.eqb the_inst]. rewrite bind_ret_l, E1.
    split; [reflexivity |]. right. split; [reflexivity |].
    exists b1. split; [assumption | reflexivity].
Qed.

Lemma connect_ladder_ok (vm_lp : string * string) :
  connect_ladder fw p (placed fw p) vm_lp (2 ^ num_sel p) =
  (flat_map (fun idx => trace (connect_tap fw p (placed fw p) vm_lp idx))
     (range (2 ^ num_sel p)), inr tt).
Proof.
  unfold connect_ladder. apply for_ok. intros idx Hi. apply in_range in Hi.
  destruct (connect_tap_ok vm_lp idx Hi) as (b0 & r & _ & _ & Ho & _).
  exact Ho.
Qed.

(** The trace of the routing, when the signals are valid. *)
Lemma routing_signals (vm_lp : string * string) :
  trace (routing fw p (placed fw p) vm_lp (2 ^ num_sel p)) =
    trace (export_sel fw p (placed fw p))
    ++ trace (export_out fw p (placed fw p))
    ++ trace (connect_ladder fw p (placed fw p) vm_lp (2 ^ num_sel p))
    ++ trace (route_supplies fw (placed fw p) ;;
              emit (SetSchParams (num_dec p)))%py
  /\ outcome (routing fw p (placed fw p) vm_lp (2 ^ num_sel p)) =
     outcome (route_supplies fw (placed fw p) ;;
              emit (SetSchParams (num_dec p)))%py.
Proof.
  unfold routing.
  rewrite trace_bind, outcome_bind, (proj1 export_sel_ok).
  rewrite trace_bind, outcome_bind, (proj1 export_out_ok).
  rewrite trace_bind, outcome_bind, (connect_ladder_ok vm_lp).
  split; reflexivity.
Qed.
End Signals.

Lemma filter_nil (q : Call -> bool) (t : list Call) :
  Forall (fun c => q c = false) t -> filter q t = [].
Proof.
  induction 1 as [| c t Hc _ IH]; [reflexivity |]. cbn. now rewrite Hc.
Qed.

Lemma filter_all (q : Call -> bool) (t : list Call) :
  Forall (fun c => q c = true) t -> filter q t = t.
Proof.
  induction 1 as [| c t Hc _ IH]; [reflexivity |]. cbn. now rewrite Hc, IH.
Qed.

Lemma length_flat_map_const {A B} (f : A -> list B) (k : nat) (xs : list A) :
  (forall x, In x xs -> List.length (f x) = k) ->
  List.length (flat_map f xs) = (k * List.length xs)%nat.
Proof.
  induction xs as [| x xs IH]; intros H; [cbn; lia |].
  cbn [flat_map]. rewrite length_app, (H x (or_introl eq_refl)).
  rewrite IH by (intros y Hy; apply H; now right). cbn [List.length]. lia.
Qed.

(** C4. On a parameter set with valid signals, for every index [idx]
    below [2^(num_sel_col+num_sel_row)], [draw_layout] connects the
    ladder pin [out<idx>] to the pin [in<idx>] of the first decoder and,
    when [num_dec=2], to the pin [in<idx>] of the second decoder as well;
    and these are all the connections of a box to track wires it makes:
    [num_dec] times [2^num_sel] of them. *)
Theorem every_tap_reaches_every_decoder (fw : Framework) (p : Params) :
  valid_signals fw p ->
  exists vm_lp,
    hd_error (get_lay_purp_list fw (vm_layer fw)) = Some vm_lp
    /\ (forall idx, 0 <= idx < 2 ^ (num_sel_col p + num_sel_row p) ->
        exists b0 r,
          get_pin_bbox fw (placed_dec0 fw p) (bit_name "in" idx) = Some b0
          /\ get_pin_warr fw (placed_res fw p) (bit_name "out" idx) None = Some r
          /\ In (ConnectBBoxToTrackWires Direction.LOWER vm_lp b0 r)
                (trace (draw_layout fw p))
          /\ (num_dec p = 2 ->
              exists b1,
                get_pin_bbox fw (placed_dec1 fw) (bit_name "in" idx) = Some b1
                /\ In (ConnectBBoxToTrackWires Direction.LOWER vm_lp b1 r)
                      (trace (draw_layout fw p))))
    /\ List.length (filter is_connect_bbox (trace (draw_layout fw p))) =
       Z.to_nat (num_dec p * 2 ^ (num_sel_col p + num_sel_row p)).
Proof.
  intros Hv.
  destruct (draw_layout_placed fw p (v_num_sel fw p Hv) (v_lay_purp fw p Hv)
              (v_coord fw p Hv) (v_num_dec fw p Hv)) as (vm_lp & Hlp & Ht & _).
  destruct (routing_signals fw p Hv vm_lp) as [Hr _].
  rewrite Hr, (connect_ladder_ok fw p Hv vm_lp) in Ht. cbn [trace fst] in Ht.
  exists vm_lp. split; [assumption |]. fold (num_sel p). split.
  - intros idx Hi.
    destruct (connect_tap_ok fw p Hv vm_lp idx Hi)
      as (b0 & r & G0 & Gr & _ & Hcase).
    exists b0, r. split; [assumption |]. split; [assumption |].
    assert (Hin : forall c,
              In c (trace (connect_tap fw p (placed fw p) vm_lp idx)) ->
              In c (trace (draw_layout fw p))).
    { intros c Hc. rewrite Ht. apply in_or_app. right.
      apply in_or_app. right. apply in_or_app. right.
      apply in_or_app. left. apply in_flat_map. exists idx.
      split; [now apply in_range | assumption]. }
    destruct Hcase as [[Hn E] | [Hn (b1 & G1 & E)]].
    + split; [apply Hin; rewrite E; now left |]. intros H2. lia.
    + split; [apply Hin; rewrite E; now left |]. intros _.
      exists b1. split; [assumption |]. apply Hin. rewrite E. right. now left.
  - rewrite Ht, !filter_app.
    rewrite (filter_nil _ (placement_calls fw p))
      by (unfold placement_calls; destruct (num_dec p =? 2);
          repeat constructor).
    rewrite (filter_nil _ (trace (export_sel _ _ _)))
      by (apply export_sel_forall; reflexivity).
    rewrite (filter_nil _ (trace (export_out _ _ _)))
      by (apply export_out_forall; reflexivity).
    rewrite (filter_nil _ (trace (bind _ _))).
    2:{ apply bind_trace_forall; [| intros _; repeat constructor].
        apply route_supplies_forall; reflexivity. }
    cbn [app]. rewrite app_nil_r.
    rewrite filter_all.
    2:{ assert (Hl : trace (connect_ladder fw p (placed fw p) vm_lp
                                (2 ^ num_sel p)) =
                     flat_map (fun idx =>
                                 trace (connect_tap fw p (placed fw p) vm_lp idx))
                       (range (2 ^ num_sel p)))
          by (rewrite (connect_ladder_ok fw p Hv vm_lp); reflexivity).
        rewrite <- Hl. apply connect_ladder_forall. reflexivity. }
    rewrite (length_flat_map_const _ (Z.to_nat (num_dec p))).
    + rewrite length_range. pose proof (v_num_sel fw p Hv).
      assert (0 <= 2 ^ num_sel p) by (apply Z.pow_nonneg; lia).
      destruct (v_num_dec fw p Hv) as [-> | ->]; lia.
    + intros idx Hi. apply in_range in Hi.
      destruct (connect_tap_ok fw p Hv vm_lp idx Hi)
        as (b0 & r & _ & _ & _ & [[-> ->] | [-> (b1 & _ & ->)]]); reflexivity.
Qed.

(** *** Supplies *)

Lemma res_sup_to_xxm_ok (fw : Framework) (w_sup_xxm : Z) (tid : TrackID)
    (sup_xm : list WireArray) :
  res_sup_to_xxm fw w_sup_xxm tid sup_xm =
    (trace (res_sup_to_xxm fw w_sup_xxm tid sup_xm),
     inr (map (sup_xxm_warr fw w_sup_xxm tid)
            (flat_map (warr_iter fw) sup_xm))).
Proof.
  unfold res_sup_to_xxm at 1.
  erewrite collect_ok by (intros; reflexivity).
  unfold res_sup_to_xxm.
  erewrite collect_ok by (intros; reflexivity). reflexivity.
Qed.

Section Supplies.
Variable fw : Framework.
Variable p : Params.
Hypothesis Hv : valid_supplies fw p.

Lemma spread_index (layer : Z) (types : list string) (lo hi : Z)
    (sp : string * string) (i : nat) :
  (i < List.length types)%nat ->
  index (spread_wires fw layer types lo hi sp) i =
  inr (nth i (spread_wires fw layer types lo hi sp) 0).
Proof. intros H. apply index_nth. now rewrite (v_spread fw p Hv). Qed.

Lemma res_supplies_ok :
  exists t vdd0 vss0 al ar,
    res_supplies fw (placed fw p) = (t, inr (vdd0, vss0, al, ar))
    /\ ladder_supply fw p "VDD" t vdd0
    /\ ladder_supply fw p "VSS" t vss0.
Proof.
  pose proof (v_res_vdd fw p Hv) as Hne.
  assert (Hpins : get_all_port_pins fw (placed_res fw p) "VDD" <> [])
    by (intros E; rewrite E in Hne; now apply Hne).
  destruct (index_0_ok _ Hpins) as [v0 Hv0].
  unfold res_supplies. cbn [res_inst bound_box placed].
  rewrite Hv0.
  destruct (flat_map (warr_iter fw)
              (get_all_port_pins fw (placed_res fw p) "VDD"))
    as [| ws0 wss] eqn:Eflat; [congruence |].
  do 5 eexists. split.
  - eapply bind_ok; [reflexivity | cbv beta].
    eapply bind_ok; [reflexivity | cbv beta].
    eapply bind_ok; [apply res_sup_to_xxm_ok | cbv beta].
    eapply bind_ok; [apply res_sup_to_xxm_ok | cbv beta].
    rewrite Eflat. cbn [map index nth_error].
    eapply bind_ok; [reflexivity | cbv beta].
    eapply bind_ok; [reflexivity | cbv beta].
    eapply bind_ok; [reflexivity | cbv beta].
    rewrite spread_index by (cbn; lia).
    eapply bind_ok; [reflexivity | cbv beta].
    eapply bind_ok; [reflexivity | cbv beta].
    reflexivity.
  - split.
    + unfold ladder_supply. eexists _, _. split; [reflexivity |].
      split; [rewrite !in_app_iff; cbn [In]; tauto |].
      rewrite Eflat. cbn [List.length]. now rewrite length_map.
    + unfold ladder_supply. eexists _, _. split; [reflexivity |].
      split; [rewrite !in_app_iff; cbn [In]; tauto |].
      now rewrite length_map.
Qed.


Lemma decoder_supply_mono (name : string) (t t' : list Call) (d : Instance)
    (v : WireArray) :
  decoder_supply fw p name t d v -> incl t t' ->
  decoder_supply fw p name t' d v.
Proof.
  intros (pin & tid & Hp & Hw & Hin) Hi. exists pin, tid. auto.
Qed.

Lemma ladder_supply_mono (name : string) (t t' : list Call) (v : WireArray) :
  ladder_supply fw p name t v -> incl t t' -> ladder_supply fw p name t' v.
Proof.
  intros (srcs & tid & Hw & Hin & Hl) Hi. exists srcs, tid. auto.
Qed.

Lemma dec_supplies_ok (al ar : Z) (d : Instance) :
  In d (placed_decs fw p) ->
  exists t y,
    dec_supplies fw (placed fw p) al ar d = (t, inr y)
    /\ (decoder_supply fw p "VDD" t d (fst y)
        /\ decoder_supply fw p "VSS" t d (snd y)).
Proof.
  intros Hd. destruct (v_sup fw p Hv d Hd) as [Hdd Hss].
  destruct (inst_pin_warr_some fw _ _ _ Hdd) as (pd & Gd & Ed).
  destruct (inst_pin_warr_some fw _ _ _ Hss) as (ps & Gs & Es).
  unfold dec_supplies. cbn [res_inst bound_box placed].
  rewrite Ed, Es.
  destruct (_ >? _);
    rewrite !spread_index by (cbn; lia);
    (eexists _, (_, _); split;
     [ eapply bind_ok; [reflexivity | cbv beta iota];
       rewrite !spread_index by (cbn; lia); reflexivity
     | split; eexists _, _; (split; [eassumption |]); split;
       try reflexivity; cbn; tauto ]).
Qed.

Lemma res_supplies_connects (pl : Placed) :
  Forall (fun c => is_connect_to_tracks c = true) (trace (res_supplies fw pl)).
Proof. unfold res_supplies, res_sup_to_xxm. walk; reflexivity. Qed.

Lemma dec_supplies_connects (pl : Placed) (al ar : Z) (d : Instance) :
  Forall (fun c => is_connect_to_tracks c = true)
    (trace (dec_supplies fw pl al ar d)).
Proof. unfold dec_supplies. walk; reflexivity. Qed.

Lemma Forall2_map_r {A B C} (P : A -> C -> Prop) (f : B -> C)
    (xs : list A) (ys : list B) :
  Forall2 (fun x y => P x (f y)) xs ys -> Forall2 P xs (map f ys).
Proof. induction 1; constructor; assumption. Qed.

(** The supplies: connections only, then the two pins, each made of the
    ladder's wire followed by one wire for each decoder. *)
Lemma route_supplies_ok :
  exists t vdd0 vdds vss0 vsss,
    route_supplies fw (placed fw p) =
      (t ++ [AddPin "VDD" (vdd0 :: vdds) None true;
             AddPin "VSS" (vss0 :: vsss) None true], inr tt)
    /\ Forall (fun c => is_connect_to_tracks c = true) t
    /\ ladder_supply fw p "VDD" t vdd0
    /\ ladder_supply fw p "VSS" t vss0
    /\ Forall2 (decoder_supply fw p "VDD" t) (placed_decs fw p) vdds
    /\ Forall2 (decoder_supply fw p "VSS" t) (placed_decs fw p) vsss.
Proof.
  destruct res_supplies_ok as (t1 & vdd0 & vss0 & al & ar & E1 & L1 & L2).
  destruct (collect_ok_rel
              (fun d y t => decoder_supply fw p "VDD" t d (fst y)
                            /\ decoder_supply fw p "VSS" t d (snd y))
              (placed_decs fw p) (dec_supplies fw (placed fw p) al ar))
    as (t2 & ys & E2 & F2 & Hin).
  { intros d y t t' [H1 H2] Hi.
    split; eapply decoder_supply_mono; eassumption. }
  { intros d Hd. apply dec_supplies_ok. assumption. }
  exists (t1 ++ t2), vdd0, (map fst ys), vss0, (map snd ys).
  split; [| split; [| split; [| split; [| split]]]].
  - unfold route_supplies.
    erewrite bind_ok; [| exact E1 | cbv beta iota].
    2:{ erewrite bind_ok; [reflexivity | exact E2 | reflexivity]. }
    now rewrite <- app_assoc.
  - apply Forall_app. split.
    + pose proof (res_supplies_connects (placed fw p)) as H.
      rewrite E1 in H. exact H.
    + apply Forall_forall. intros c Hc.
      destruct (Hin c Hc) as (d & _ & Hd).
      pose proof (dec_supplies_connects (placed fw p) al ar d) as H.
      rewrite Forall_forall in H. now apply H.
  - eapply ladder_supply_mono; [exact L1 | apply incl_appl, incl_refl].
  - eapply ladder_supply_mono; [exact L2 | apply incl_appl, incl_refl].
  - apply Forall2_map_r. eapply Forall2_impl; [| exact F2].
    intros d y [H _]. eapply decoder_supply_mono;
      [exact H | apply incl_appr, incl_refl].
  - apply Forall2_map_r. eapply Forall2_impl; [| exact F2].
    intros d y [_ H]. eapply decoder_supply_mono;
      [exact H | apply incl_appr, incl_refl].
Qed.
End Supplies.

(** *** The whole run *)

(** On a valid parameter set [draw_layout] runs to its end, and its calls
    are those of the placement, of the three signal phases, the supply
    connections, the two supply pins and the schematic parameters. *)
Lemma draw_layout_trace (fw : Framework) (p : Params) :
  valid_params fw p ->
  exists vm_lp t vdd0 vdds vss0 vsss,
    draw_layout fw p =
      (placement_calls fw p
       ++ trace (export_sel fw p (placed fw p))
       ++ trace (export_out fw p (placed fw p))
       ++ trace (connect_ladder fw p (placed fw p) vm_lp (2 ^ num_sel p))
       ++ t
       ++ [AddPin "VDD" (vdd0 :: vdds) None true;
           AddPin "VSS" (vss0 :: vsss) None true;
           SetSchParams (num_dec p)],
       inr tt)
    /\ Forall (fun c => is_connect_to_tracks c = true) t
    /\ ladder_supply fw p "VDD" t vdd0
    /\ ladder_supply fw p "VSS" t vss0
    /\ Forall2 (decoder_supply fw p "VDD" t) (placed_decs fw p) vdds
    /\ Forall2 (decoder_supply fw p "VSS" t) (placed_decs fw p) vsss.
Proof.
  intros [Hs Hp].
  destruct (draw_layout_placed fw p (v_num_sel fw p Hs) (v_lay_purp fw p Hs)
              (v_coord fw p Hs) (v_num_dec fw p Hs)) as (vm_lp & _ & Ht & Ho).
  destruct (routing_signals fw p Hs vm_lp) as [Hrt Hro].
  destruct (route_supplies_ok fw p Hp)
    as (t & vdd0 & vdds & vss0 & vsss & E & HF & L1 & L2 & F1 & F2).
  exists vm_lp, t, vdd0, vdds, vss0, vsss.
  split; [| auto].
  assert (Hlast : (route_supplies fw (placed fw p) ;;
                   emit (SetSchParams (num_dec p)))%py =
                  (t ++ [AddPin "VDD" (vdd0 :: vdds) None true;
                         AddPin "VSS" (vss0 :: vsss) None true;
                         SetSchParams (num_dec p)], inr tt)).
  { erewrite bind_ok; [| exact E | reflexivity].
    rewrite <- app_assoc. reflexivity. }
  rewrite Hlast in Hrt, Hro. rewrite Hrt in Ht. rewrite Hro in Ho.
  cbn [trace outcome fst snd] in Ht, Ho.
  destruct (draw_layout fw p) as [tr o]. cbn [trace outcome fst snd] in Ht, Ho.
  now rewrite Ht, Ho.
Qed.

Lemma pins_named_app (name : string) (t1 t2 : list Call) :
  pins_named name (t1 ++ t2) = pins_named name t1 ++ pins_named name t2.
Proof. unfold pins_named. apply filter_app. Qed.

Lemma pins_named_absent (name : string) (t : list Call) :
  ~ In name (pin_names t) -> pins_named name t = [].
Proof.
  induction t as [| c t IH]; intros H; [reflexivity |].
  unfold pins_named, pin_names in *. cbn in *.
  destruct c; try (apply IH; exact H).
  cbn in H. destruct (String.eqb_spec net_name name) as [-> | Hne].
  - exfalso. apply H. now left.
  - apply IH. intros Hin. apply H. now right.
Qed.

Lemma bit_name_not_supply (pfx : string) (idx : Z) (name : string) :
  In pfx ["sel"; "sel0"; "sel1"] -> In name ["VDD"; "VSS"] ->
  bit_name pfx idx <> name.
Proof.
  intros [<- | [<- | [<- | []]]] [<- | [<- | []]]; discriminate.
Qed.

Lemma flat_map_singleton {A B} (f : A -> B) (xs : list A) :
  flat_map (fun x => [f x]) xs = map f xs.
Proof. induction xs as [| x xs IH]; [reflexivity |]. cbn. now rewrite IH. Qed.

(** C1. On every valid parameter set [draw_layout] runs to its end and

    - places as many decoders as [num_dec] says: one, or two;
    - with [num_dec=1], adds the pins [sel<i>] for [i] from [0] to
      [num_sel-1], then [out], then [VDD] and [VSS], and no other pin;
    - with [num_dec=2], adds the pins [sel0<i>] and [sel1<i>] for every
      [i], then [out0] and [out1], then [VDD] and [VSS], and no other;
    - adds [VDD] and [VSS] once each, with connection by name, each made
      of the wire that connects the ladder's wires of that supply and of
      one wire for each decoder, connecting that decoder's supply pin. *)
Theorem layout_has_decoders_signals_and_merged_supplies
    (fw : Framework) (p : Params) :
  valid_params fw p ->
  outcome (draw_layout fw p) = inr tt
  /\ filter is_decoder (instances (trace (draw_layout fw p))) = placed_decs fw p
  /\ List.length (placed_decs fw p) = Z.to_nat (num_dec p)
  /\ (num_dec p = 1 ->
      pin_names (trace (draw_layout fw p)) =
        map (bit_name "sel") (range (num_sel p)) ++ ["out"; "VDD"; "VSS"])
  /\ (num_dec p = 2 ->
      pin_names (trace (draw_layout fw p)) =
        flat_map (fun idx => [bit_name "sel0" idx; bit_name "sel1" idx])
          (range (num_sel p))
        ++ ["out0"; "out1"; "VDD"; "VSS"])
  /\ exists vdd0 vdds vss0 vsss,
       pins_named "VDD" (trace (draw_layout fw p)) =
         [AddPin "VDD" (vdd0 :: vdds) None true]
       /\ pins_named "VSS" (trace (draw_layout fw p)) =
         [AddPin "VSS" (vss0 :: vsss) None true]
       /\ ladder_supply fw p "VDD" (trace (draw_layout fw p)) vdd0
       /\ ladder_supply fw p "VSS" (trace (draw_layout fw p)) vss0
       /\ Forall2 (decoder_supply fw p "VDD" (trace (draw_layout fw p)))
            (placed_decs fw p) vdds
       /\ Forall2 (decoder_supply fw p "VSS" (trace (draw_layout fw p)))
            (placed_decs fw p) vsss.
Proof.
  intros Hv. pose proof Hv as [Hs Hp].
  destruct (draw_layout_trace fw p Hv)
    as (vm_lp & t & vdd0 & vdds & vss0 & vsss & E & HF & L1 & L2 & F1 & F2).
  destruct (export_sel_ok fw p Hs) as [_ Hsel].
  destruct (export_out_ok fw p Hs) as [_ Hout].
  set (tsel := trace (export_sel fw p (placed fw p))) in *.
  set (tout := trace (export_out fw p (placed fw p))) in *.
  set (tlad := trace (connect_ladder fw p (placed fw p) vm_lp (2 ^ num_sel p))) in *.
  assert (Hplace : pin_names (placement_calls fw p) = [])
    by (unfold placement_calls; destruct (num_dec p =? 2); reflexivity).
  assert (Hlad : pin_names tlad = [])
    by (apply pin_names_nil, connect_ladder_forall; reflexivity).
  assert (Ht : pin_names t = []).
  { apply pin_names_nil. eapply Forall_impl; [| exact HF].
    intros c Hc. destruct c; try discriminate; reflexivity. }
  assert (Hnames : pin_names (trace (draw_layout fw p)) =
                   pin_names tsel ++ pin_names tout ++ ["VDD"; "VSS"]).
  { rewrite E. cbn [trace fst]. rewrite !pin_names_app, Hplace, Hlad, Ht.
    reflexivity. }
  assert (Hincl : incl t (trace (draw_layout fw p))).
  { rewrite E. cbn [trace fst]. intros c Hc.
    do 4 (apply in_or_app; right). apply in_or_app. now left. }
  assert (Hsup : forall name, In name ["VDD"; "VSS"] ->
            pins_named name (trace (draw_layout fw p)) =
            pins_named name [AddPin "VDD" (vdd0 :: vdds) None true;
                             AddPin "VSS" (vss0 :: vsss) None true]).
  { intros name Hname. rewrite E. cbn [trace fst]. rewrite !pins_named_app.
    rewrite (pins_named_absent name (placement_calls fw p))
      by (rewrite Hplace; intros []).
    rewrite (pins_named_absent name tlad) by (rewrite Hlad; intros []).
    rewrite (pins_named_absent name t) by (rewrite Ht; intros []).
    rewrite (pins_named_absent name tsel).
    2:{ rewrite Hsel. intros Hin. destruct (num_dec p =? 2);
        apply in_flat_map in Hin; destruct Hin as (idx & _ & Hin);
        cbn [In] in Hin;
        repeat match type of Hin with
               | _ \/ _ => destruct Hin as [Hin | Hin]
               | False => exact Hin
               end;
        revert Hin; apply bit_name_not_supply; cbn; tauto. }
    rewrite (pins_named_absent name tout).
    2:{ rewrite Hout. destruct Hname as [<- | [<- | []]];
        destruct (num_dec p =? 2); cbn; intuition discriminate. }
    destruct Hname as [<- | [<- | []]]; reflexivity. }
  split; [rewrite E; reflexivity |].
  split.
  { rewrite (draw_layout_instances fw p (v_num_sel fw p Hs) (v_lay_purp fw p Hs)
               (v_coord fw p Hs) (v_num_dec fw p Hs)).
    rewrite filter_app. unfold placed_decs.
    destruct (num_dec p =? 2); reflexivity. }
  split.
  { unfold placed_decs. destruct (v_num_dec fw p Hs) as [-> | ->]; reflexivity. }
  split.
  { intros Hn. rewrite Hnames, Hsel, Hout, Hn. cbn [Z.eqb Pos.eqb].
    rewrite flat_map_singleton. reflexivity. }
  split.
  { intros Hn. rewrite Hnames, Hsel, Hout, Hn. reflexivity. }
  exists vdd0, vdds, vss0, vsss.
  split; [rewrite Hsup by (cbn; tauto); reflexivity |].
  split; [rewrite Hsup by (cbn; tauto); reflexivity |].
  split; [eapply ladder_supply_mono; eassumption |].
  split; [eapply ladder_supply_mono; eassumption |].
  split; (eapply Forall2_impl; [| eassumption]);
    intros d v H; eapply decoder_supply_mono; eassumption.
Qed.

(** *** The example layout is valid *)

Lemma valid_signals_example (n : Z) :
  n = 1 \/ n = 2 -> valid_signals (fw_example 10 31) (params_example n).
Proof.
  intros Hn. constructor.
  - cbv. discriminate.
  - discriminate.
  - reflexivity.
  - exact Hn.
  - discriminate.
  - intros; discriminate.
  - intros; discriminate.
  - intros; discriminate.
  - intros; discriminate.
Defined.

Lemma valid_supplies_example (n : Z) :
  valid_supplies (fw_example 10 31) (params_example n).
Proof.
  constructor.
  - discriminate.
  - intros. cbn. now rewrite length_map, length_seq.
  - intros; split; discriminate.
Defined.

(** C1, for two decoders and two select bits on the example layout. *)
Lemma layout_has_decoders_signals_and_merged_supplies_witness :
  valid_params (fw_example 10 31) (params_example 2)
  /\ outcome (draw_layout (fw_example 10 31) (params_example 2)) = inr tt
  /\ pin_names (trace (draw_layout (fw_example 10 31) (params_example 2))) =
       ["sel0<0>"; "sel1<0>"; "sel0<1>"; "sel1<1>";
        "out0"; "out1"; "VDD"; "VSS"].
Proof.
  assert (Hv : valid_params (fw_example 10 31) (params_example 2)).
  { split; [apply valid_signals_example; now right
           | apply valid_supplies_example]. }
  pose proof (layout_has_decoders_signals_and_merged_supplies
                (fw_example 10 31) (params_example 2) Hv) as H.
  split; [exact Hv |]. split; [exact (proj1 H) |].
  exact (proj1 (proj2 (proj2 (proj2 (proj2 H)))) eq_refl).
Defined.

(** C4, for two decoders and two select bits on the example layout:
    eight connections, four taps to each of the two decoders. *)
Lemma every_tap_reaches_every_decoder_witness :
  valid_signals (fw_example 10 31) (params_example 2)
  /\ List.length
       (filter is_connect_bbox
          (trace (draw_layout (fw_example 10 31) (params_example 2)))) = 8%nat.
Proof.
  assert (Hv : valid_signals (fw_example 10 31) (params_example 2))
    by (apply valid_signals_example; now right).
  split; [exact Hv |].
  destruct (every_tap_reaches_every_decoder (fw_example 10 31)
              (params_example 2) Hv) as (vm_lp & _ & _ & H).
  exact H.
Defined.

End RDACFacts.

(* ===================================================================== *)
(** ** High-pass filter: further properties *)
(* ===================================================================== *)

Module HPDMoreFacts.
Import Py HPD HPDViews PyFacts HPDFacts.
Local Open Scope py_scope.

(** *** When [design] ends normally *)



(** *** What [extracted] switches off *)

(** X2. With [extracted=True], [cap_val] is not looked at: any two
    values, well formed or not, and any two renderings of numbers give the
    same calls and the same outcome. *)
Theorem extracted_ignores_cap_val
    (f2s f2s' : pynum -> string) (p : Params) (cv cv' : cap_val_t) :
  extracted p = true ->
  design f2s (with_cap_val p cv) = design f2s' (with_cap_val p cv').
Proof.
  intros Hx. unfold design.
  assert (Hc : forall g v bp bn,
            design_cap g (with_cap_val p v) bp bn =
            ([RemoveInstance "XCAPP"; RemoveInstance "XCAPN"], inr tt)).
  { intros. apply design_cap_extracted. exact Hx. }
  change (design_bias (with_cap_val p cv')) with (design_bias (with_cap_val p cv)).
  destruct (design_bias (with_cap_val p cv)) as [t [e | [bp bn]]];
    [reflexivity |].
  cbn [bind fst snd]. rewrite !Hc. reflexivity.
Qed.

(** X2, for a malformed and a well-formed [cap_val]. *)
Lemma extracted_ignores_cap_val_witness :
  extracted extracted_example = true
  /\ design f2s_example (with_cap_val extracted_example (CapTuple [])) =
     design f2s_example
       (with_cap_val extracted_example (CapFloat {| mant := 1; expo := -9 |})).
Proof.
  split; [reflexivity |].
  exact (extracted_ignores_cap_val f2s_example f2s_example extracted_example
           (CapTuple []) (CapFloat {| mant := 1; expo := -9 |}) eq_refl).
Defined.

(** *** The instances each part of [design] works on *)

Lemma design_res_footprint (p : Params) (bp bn : string) :
  Forall (fun c => in_footprint res_names c = true) (trace (design_res p bp bn)).
Proof. forall_cbn. Qed.

Lemma design_dum_footprint (p : Params) (bp bn : string) :
  Forall (fun c => in_footprint dum_names c = true) (trace (design_dum p bp bn)).
Proof. apply design_dum_forall; reflexivity. Qed.

Lemma design_mres_footprint (p : Params) :
  Forall (fun c => in_footprint mres_names c = true) (trace (design_mres p)).
Proof.
  unfold design_mres.
  destruct (res_in_info p) as [[[? ?] ?] |], (res_out_info p) as [[[? ?] ?] |];
    forall_cbn.
Qed.

Lemma design_cap_footprint f2s (p : Params) (bp bn : string) :
  Forall (fun c => in_footprint cap_names c = true)
    (trace (design_cap f2s p bp bn)).
Proof.
  unfold design_cap. destruct (extracted p); [forall_cbn |].
  destruct (cap_val_items (cap_val p)) as [e | items]; [forall_cbn |].
  cbn [lift bind fst snd app].
  destruct (unpack4 (map f2s items)) as [e | [[[cc cpb] cpi] cpo]]; forall_cbn.
Qed.

(** From a footprint to a selector: a call on one of [names] is not
    selected by [q] when [q] rejects every call on each of them. *)
Lemma filter_off_footprint (q : Call -> bool) (names : list string)
    (t : list Call) :
  (forall c n, In n names -> call_inst c = Some n -> q c = false) ->
  Forall (fun c => in_footprint names c = true) t ->
  filter q t = [].
Proof.
  intros Hq Ht. apply filter_nil_forall. eapply Forall_impl; [| exact Ht].
  intros c Hc. unfold in_footprint in Hc.
  destruct (call_inst c) as [i |] eqn:Ei; [| discriminate].
  apply existsb_exists in Hc. destruct Hc as (n & Hn & He).
  apply String.eqb_eq in He. subst i. eapply Hq; eassumption.
Qed.

(** Strings. *)
Lemma append_assoc (a b c : string) : (a +s b) +s c = a +s (b +s c).
Proof. induction a as [| x a IH]; [reflexivity |]. cbn. now rewrite IH. Qed.

Lemma append_inj_l (s a b : string) : s +s a = s +s b -> a = b.
Proof.
  induction s as [| x s IH]; [auto |]. cbn. intros H. injection H as H. auto.
Qed.

(** A selector of calls on instances, through the parts of [design]. *)
Lemma design_filter (q : Call -> bool) f2s (p : Params) :
  ndum_ok p = true ->
  (forall c, call_inst c = None -> q c = false) ->
  let bp := if bias_diff p then "biasp" else "bias" in
  let bn := if bias_diff p then "biasn" else "bias" in
  filter q (trace (design f2s p)) =
    filter q (trace (design_res p bp bn))
    ++ filter q (trace (design_dum p bp bn))
    ++ filter q (trace (design_mres p))
    ++ filter q (trace (design_cap f2s p bp bn)).
Proof.
  intros Hn Hq bp bn.
  destruct (design_trace f2s p Hn) as [Ht _]. fold bp bn in Ht.
  rewrite Ht, !filter_app.
  rewrite (filter_nil_forall q (trace (design_bias p)))
    by (apply design_bias_forall; apply Hq; reflexivity).
  replace (filter q match outcome (design_cap f2s p bp bn) with
                    | inl _ => []
                    | inr _ => [RenamePin "BULK" (sub_name p)]
                    end) with (@nil Call).
  - now rewrite app_nil_r.
  - destruct (outcome (design_cap f2s p bp bn)); [reflexivity |].
    cbn. now rewrite Hq.
Qed.

Ltac off_footprint :=
  let c := fresh "c" in
  let n := fresh "n" in
  let Hn := fresh "Hn" in
  let Hc := fresh "Hc" in
  intros c n Hn Hc; destruct c; cbn in Hc; try discriminate;
  injection Hc as ->; cbn in Hn;
  repeat (destruct Hn as [<- | Hn]; [reflexivity |]); contradiction.

Ltac pin_calls_off :=
  let c := fresh "c" in
  let Hc := fresh "Hc" in
  intros c Hc; destruct c; cbn in Hc; try discriminate; reflexivity.

(** *** Dummy resistors *)

(** X3. With a well-formed [ndum], the only calls on the dummy resistors
    are one [design_resistor] each, with the unit parameters of the
    series resistors and the substrate as bulk.  Each dummy has both
    terminals on one net: the substrate when [connect_dum_to_sub] is set,
    its own bias net otherwise.  The two dummies never share a mid net.
    Of a pair [(a, b)] for [ndum], [a] is the number in parallel and [b]
    the number in series. *)
Theorem dummies_are_shorted_and_keep_apart
    (f2s : pynum -> string) (p : Params) :
  ndum_ok p = true ->
  exists nser npar cm c1 c2 m1 m2,
    filter is_dummy_call (trace (design f2s p)) =
      [ DesignResistor "XRESPD"
          {| u_l := l p; u_w := w p; u_intent := intent p |}
          nser npar c1 c1 m1 (sub_name p) cm;
        DesignResistor "XRESND"
          {| u_l := l p; u_w := w p; u_intent := intent p |}
          nser npar c2 c2 m2 (sub_name p) cm ]
    /\ m1 <> m2
    /\ (connect_dum_to_sub p = true -> c1 = sub_name p /\ c2 = sub_name p)
    /\ (connect_dum_to_sub p = false ->
        c1 = (if bias_diff p then "biasp" else "bias")
        /\ c2 = (if bias_diff p then "biasn" else "bias"))
    /\ (forall a b, ndum p = NdumTuple [a; b] -> npar = a /\ nser = b)
    /\ (forall n, ndum p = NdumInt n -> npar = PInt n /\ nser = PInt 1).
Proof.
  intros Hn.
  rewrite (design_filter is_dummy_call f2s p Hn) by pin_calls_off.
  rewrite (filter_off_footprint is_dummy_call res_names _
             ltac:(off_footprint) (design_res_footprint p _ _)).
  rewrite (filter_off_footprint is_dummy_call mres_names _
             ltac:(off_footprint) (design_mres_footprint p)).
  rewrite (filter_off_footprint is_dummy_call cap_names _
             ltac:(off_footprint) (design_cap_footprint f2s p _ _)).
  cbn [app]. rewrite app_nil_r.
  assert (Hsub : (sub_name p +s "_p") +s "_dum_x" <> (sub_name p +s "_n") +s "_dum_x").
  { rewrite !append_assoc. intros H. apply append_inj_l in H. discriminate. }
  unfold ndum_ok in Hn. unfold design_dum.
  destruct (ndum p) as [n | [| a [| b [| c [| d t]]]]]; try discriminate;
    destruct (connect_dum_to_sub p), (bias_diff p);
    rewrite ?String.eqb_refl; cbn;
    do 7 eexists; (split; [reflexivity |]);
    (split; [first [exact Hsub | discriminate] |]);
    repeat split; intros; try discriminate; congruence.
Qed.

(** X3, with dummies tied to the substrate and two by three of them. *)
Lemma dummies_are_shorted_and_keep_apart_witness :
  ndum_ok differential_example = true
  /\ exists nser npar cm c1 c2 m1 m2,
       filter is_dummy_call (trace (design f2s_example differential_example)) =
         [ DesignResistor "XRESPD"
             {| u_l := 10; u_w := 2; u_intent := "standard" |}
             nser npar c1 c1 m1 "VSS" cm;
           DesignResistor "XRESND"
             {| u_l := 10; u_w := 2; u_intent := "standard" |}
             nser npar c2 c2 m2 "VSS" cm ]
       /\ m1 <> m2.
Proof.
  split; [reflexivity |].
  destruct (dummies_are_shorted_and_keep_apart f2s_example differential_example
              eq_refl) as (nser & npar & cm & c1 & c2 & m1 & m2 & H1 & H2 & _).
  exists nser, npar, cm, c1, c2, m1, m2. split; assumption.
Defined.

(** *** Metal resistors *)

(** X4. With a well-formed [ndum], the calls on the metal resistors are:
    for the input side, [design] on [XMRESP1] and on [XMRESN1] with the
    layer, width and length of [res_in_info], or the removal of both when
    it is [None]; then the same for the output side, [XMRESP2] and
    [XMRESN2], from [res_out_info].  The two instances of a side are never
    treated differently. *)
Theorem metal_resistors_are_designed_or_removed_in_pairs
    (f2s : pynum -> string) (p : Params) :
  ndum_ok p = true ->
  filter is_mres_call (trace (design f2s p)) =
    match res_in_info p with
    | Some (lay, wd, len) =>
        [InstDesign "XMRESP1" lay wd len; InstDesign "XMRESN1" lay wd len]
    | None => [RemoveInstance "XMRESP1"; RemoveInstance "XMRESN1"]
    end
    ++ match res_out_info p with
       | Some (lay, wd, len) =>
           [InstDesign "XMRESP2" lay wd len; InstDesign "XMRESN2" lay wd len]
       | None => [RemoveInstance "XMRESP2"; RemoveInstance "XMRESN2"]
       end.
Proof.
  intros Hn.
  rewrite (design_filter is_mres_call f2s p Hn) by pin_calls_off.
  rewrite (filter_off_footprint is_mres_call res_names _
             ltac:(off_footprint) (design_res_footprint p _ _)).
  rewrite (filter_off_footprint is_mres_call dum_names _
             ltac:(off_footprint) (design_dum_footprint p _ _)).
  rewrite (filter_off_footprint is_mres_call cap_names _
             ltac:(off_footprint) (design_cap_footprint f2s p _ _)).
  cbn [app]. rewrite app_nil_r. unfold design_mres.
  destruct (res_in_info p) as [[[? ?] ?] |], (res_out_info p) as [[[? ?] ?] |];
    reflexivity.
Qed.

(** X4, with an output metal resistor only. *)
Lemma metal_resistors_are_designed_or_removed_in_pairs_witness :
  ndum_ok differential_example = true
  /\ filter is_mres_call (trace (design f2s_example differential_example)) =
     [ RemoveInstance "XMRESP1"; RemoveInstance "XMRESN1";
       InstDesign "XMRESP2" 3 1 2; InstDesign "XMRESN2" 3 1 2 ].
Proof.
  split; [reflexivity |].
  exact (metal_resistors_are_designed_or_removed_in_pairs f2s_example
           differential_example eq_refl).
Defined.

(** *** Series resistors *)

(** X5. Whatever the parameters, [design] calls [design_resistor] once on
    [XRESP] and once on [XRESN], with [nser] units in series, one in
    parallel, and the mid net named after the output net.  The output net
    carries the prefix [nc_] exactly when [connect_res_to_cap_res_metal]
    is set and an output metal resistor is given. *)
Theorem series_resistors_drive_nc_nets_iff_flag_and_res_out
    (f2s : pynum -> string) (p : Params) :
  filter (is_design_resistor_of "XRESP") (trace (design f2s p)) =
    [ DesignResistor "XRESP" {| u_l := l p; u_w := w p; u_intent := intent p |}
        (PInt (nser p)) (PInt 1) (res_out_conn_pfx p +s "outp")
        (if bias_diff p then "biasp" else "bias")
        ((res_out_conn_pfx p +s "outp") +s "_x") (sub_name p) None ]
  /\ filter (is_design_resistor_of "XRESN") (trace (design f2s p)) =
    [ DesignResistor "XRESN" {| u_l := l p; u_w := w p; u_intent := intent p |}
        (PInt (nser p)) (PInt 1) (res_out_conn_pfx p +s "outn")
        (if bias_diff p then "biasn" else "bias")
        ((res_out_conn_pfx p +s "outn") +s "_x") (sub_name p) None ]
  /\ (res_out_conn_pfx p = "nc_" <->
      connect_res_to_cap_res_metal p = true /\ res_out_info p <> None)
  /\ (res_out_conn_pfx p = "" <->
      connect_res_to_cap_res_metal p = false \/ res_out_info p = None).
Proof.
  pose proof (design_head f2s p) as Hh. cbv zeta in Hh. rewrite Hh. clear Hh.
  assert (Htail : forall n, n = "XRESP" \/ n = "XRESN" ->
            filter (is_design_resistor_of n)
              (trace (design_dum p (if bias_diff p then "biasp" else "bias")
                        (if bias_diff p then "biasn" else "bias") ;;
                      design_mres p ;;
                      design_cap f2s p (if bias_diff p then "biasp" else "bias")
                        (if bias_diff p then "biasn" else "bias") ;;
                      rename_pin "BULK" (sub_name p))%py) = []).
  { intros n Hn. apply filter_nil_forall. apply design_tail_forall.
    - apply design_dum_forall; intros; destruct Hn as [-> | ->]; reflexivity.
    - apply design_mres_forall; intros; reflexivity.
    - apply design_cap_forall; intros; repeat split; intros; reflexivity.
    - reflexivity. }
  rewrite !filter_app, !Htail by tauto.
  split; [| split; [| split]].
  - unfold design_res, design_bias. destruct (bias_diff p); reflexivity.
  - unfold design_res, design_bias. destruct (bias_diff p); reflexivity.
  - unfold res_out_conn_pfx.
    destruct (connect_res_to_cap_res_metal p), (res_out_info p); cbn;
      split; intros H; try discriminate; try reflexivity;
      try (split; [reflexivity | discriminate]); destruct H; congruence.
  - unfold res_out_conn_pfx.
    destruct (connect_res_to_cap_res_metal p), (res_out_info p); cbn;
      split; intros H; try discriminate; try reflexivity; auto;
      destruct H; discriminate.
Qed.

(** *** Differential bias *)

(** X6. With [bias_diff=True], no call touches a pin except the final
    renaming of [BULK]: the series resistors are designed first, [XRESP]
    on net [biasp] and [XRESN] on net [biasn], and when the substrate net
    is called neither [biasp] nor [biasn], the schematic keeps as many
    pins of each of these two names as the cell view has. *)
Theorem differential_bias_keeps_both_pins
    (f2s : pynum -> string) (p : Params) :
  bias_diff p = true ->
  (exists rest,
     trace (design f2s p) =
       DesignResistor "XRESP"
         {| u_l := l p; u_w := w p; u_intent := intent p |}
         (PInt (nser p)) (PInt 1) (res_out_conn_pfx p +s "outp") "biasp"
         ((res_out_conn_pfx p +s "outp") +s "_x") (sub_name p) None
       :: DesignResistor "XRESN"
            {| u_l := l p; u_w := w p; u_intent := intent p |}
            (PInt (nser p)) (PInt 1) (res_out_conn_pfx p +s "outn") "biasn"
            ((res_out_conn_pfx p +s "outn") +s "_x") (sub_name p) None
       :: rest
     /\ Forall (fun c => is_pin_call c = true ->
                         c = RenamePin "BULK" (sub_name p)) rest)
  /\ forall tmpl : Schematic,
       sub_name p <> "biasp" -> sub_name p <> "biasn" ->
       count "biasp" (sch_pins (designed f2s tmpl p)) =
         count "biasp" (sch_pins tmpl)
       /\ count "biasn" (sch_pins (designed f2s tmpl p)) =
         count "biasn" (sch_pins tmpl).
Proof.
  intros Hb.
  pose proof (design_head f2s p) as Hh. cbv zeta in Hh. rewrite Hb in Hh.
  pose proof (tail_pin_calls f2s p "biasp" "biasn") as Ht.
  set (rest := trace (design_dum p "biasp" "biasn" ;; design_mres p ;;
                      design_cap f2s p "biasp" "biasn" ;;
                      rename_pin "BULK" (sub_name p))%py) in Hh, Ht.
  unfold design_bias in Hh. rewrite Hb in Hh. cbn in Hh.
  split; [exists rest; split; assumption |].
  intros tmpl Hs1 Hs2. unfold designed.
  assert (Hall : Forall (fun c => is_pin_call c = true ->
                                  c = RenamePin "BULK" (sub_name p))
                   (trace (design f2s p))).
  { rewrite Hh. constructor; [discriminate |]. constructor; [discriminate |].
    exact Ht. }
  split; apply (count_keeps _ (sub_name p)); try assumption; congruence.
Qed.

(** X6, on the example cell view. *)
Lemma differential_bias_keeps_both_pins_witness :
  bias_diff differential_example = true
  /\ sub_name differential_example <> "biasp"
  /\ sub_name differential_example <> "biasn"
  /\ count "biasp"
       (sch_pins (designed f2s_example template_example differential_example))
     = 1%nat
  /\ count "biasn"
       (sch_pins (designed f2s_example template_example differential_example))
     = 1%nat.
Proof.
  assert (H1 : sub_name differential_example <> "biasp") by discriminate.
  assert (H2 : sub_name differential_example <> "biasn") by discriminate.
  split; [reflexivity |]. do 2 (split; [assumption |]).
  exact (proj2 (differential_bias_keeps_both_pins f2s_example
                  differential_example eq_refl) template_example H1 H2).
Defined.

(** *** Capacitors without [extracted] *)



(** *** Instances are used while they exist *)

(** X8. Whatever the parameters, and whether it ends normally or not,
    [design] never works on an instance after having removed it or
    replaced it by copies, and it sets values and reconnects terminals
    only on copies that an earlier [array_instance] has made. *)
Theorem design_uses_only_live_instances (f2s : pynum -> string) (p : Params) :
  no_use_after_retire (trace (design f2s p)) = true
  /\ edits_on_copies [] (trace (design f2s p)) = true.
Proof.
  destruct p as [l w intent nser nd ri ro sub bd cr cd cv ex].
  unfold design, design_bias, design_res, design_dum, design_mres, design_cap.
  cbn [HPD.l HPD.w HPD.intent HPD.nser ndum res_in_info res_out_info sub_name
       bias_diff connect_res_to_cap_res_metal connect_dum_to_sub cap_val
       extracted].
  destruct nd as [n | [| a [| b [| c [| d t]]]]];
    destruct ri as [[[? ?] ?] |], ro as [[[? ?] ?] |], bd, cd, ex;
    rewrite ?String.eqb_refl;
    try (destruct cv as [c0 | n0 | [| c0 [| c1 [| c2 [| c3 [| c4 t']]]]]]);
    split; reflexivity.
Qed.

End HPDMoreFacts.

(* ===================================================================== *)
(** ** RDAC: further properties *)
(* ===================================================================== *)

Module RDACMoreFacts.
Import Py RDAC RDACViews PyFacts RDACFacts.
Local Open Scope py_scope.

(** *** How far a run gets *)

(** A run either stops before the placement has placed anything, or has
    passed the tests of lines 61-89 and goes on to the routing. *)
Lemma draw_layout_cases (fw : Framework) (p : Params) :
  (trace (draw_layout fw p) = []
   /\ exists e, outcome (draw_layout fw p) = inl e)
  \/ (0 <= num_sel p
      /\ get_lay_purp_list fw (vm_layer fw) <> []
      /\ core_coord0 (res_master fw) < pg_coord0 (dec_master fw)
      /\ (num_dec p = 1 \/ num_dec p = 2)).
Proof.
  destruct (Z.lt_ge_cases (num_sel p) 0) as [Hs | Hs].
  { left. unfold draw_layout, lshift1. unfold num_sel in Hs.
    destruct (Z.ltb_spec (num_sel_col p + num_sel_row p) 0); [| lia].
    split; [reflexivity | eexists; reflexivity]. }
  destruct (get_lay_purp_list fw (vm_layer fw)) as [| lp lps] eqn:El.
  { left. unfold draw_layout. unfold num_sel in Hs.
    rewrite (lshift1_ok _ Hs), El. split; [reflexivity | eexists; reflexivity]. }
  assert (Hl : get_lay_purp_list fw (vm_layer fw) <> []) by (rewrite El; discriminate).
  rewrite <- El.
  destruct (Z.lt_ge_cases (core_coord0 (res_master fw))
              (pg_coord0 (dec_master fw))) as [Hc | Hc].
  - destruct (Z.eq_dec (num_dec p) 1) as [H1 | H1]; [right; auto |].
    destruct (Z.eq_dec (num_dec p) 2) as [H2 | H2]; [right; auto |].
    left. eapply draw_layout_stops. now apply placement_unsupported.
  - left. eapply draw_layout_stops. apply placement_assert. lia.
Qed.

(** X9. [draw_layout] changes the layout exactly when the four tests
    of lines 61-89 pass: the select-bit count is not negative, the layer
    of the select wires has a layer-purpose pair, the decoder's reference
    coordinate is above the ladder's, and [num_dec] is 1 or 2.  The first
    two tests come first: a negative count raises [ValueError] at the
    shift of line 61 and an empty layer-purpose list raises [IndexError]
    at line 68, whatever the reference coordinates and [num_dec] are. *)
Theorem layout_changes_iff_early_tests_pass (fw : Framework) (p : Params) :
  (trace (draw_layout fw p) <> [] <->
   0 <= num_sel p
   /\ get_lay_purp_list fw (vm_layer fw) <> []
   /\ core_coord0 (res_master fw) < pg_coord0 (dec_master fw)
   /\ (num_dec p = 1 \/ num_dec p = 2))
  /\ (num_sel_col p + num_sel_row p < 0 ->
      draw_layout fw p = ([], inl (ValueError "negative shift count")))
  /\ (0 <= num_sel_col p + num_sel_row p ->
      get_lay_purp_list fw (vm_layer fw) = [] ->
      draw_layout fw p = ([], inl (IndexError "list index out of range"))).
Proof.
  split; [| split].
  - split.
    + intros Ht. destruct (draw_layout_cases fw p) as [[H _] | H];
        [contradiction | exact H].
    + intros (Hs & Hl & Hc & Hn).
      destruct (draw_layout_placed fw p Hs Hl Hc Hn) as (vm_lp & _ & Ht & _).
      rewrite Ht. unfold placement_calls.
      destruct (num_dec p =? 2); discriminate.
  - intros H. unfold draw_layout, lshift1.
    destruct (Z.ltb_spec (num_sel_col p + num_sel_row p) 0); [reflexivity | lia].
  - intros Hs Hl. unfold draw_layout. rewrite (lshift1_ok _ Hs), Hl. reflexivity.
Qed.

(** X9, with the assertion failing and [num_dec] unsupported as well. *)
Lemma layout_changes_iff_early_tests_pass_witness :
  num_sel_col {| num_dec := 3; num_sel_row := -1; num_sel_col := 0 |}
  + num_sel_row {| num_dec := 3; num_sel_row := -1; num_sel_col := 0 |} < 0
  /\ draw_layout (fw_example 31 31)
       {| num_dec := 3; num_sel_row := -1; num_sel_col := 0 |} =
     ([], inl (ValueError "negative shift count")).
Proof.
  split; [reflexivity |].
  exact (proj1 (proj2 (layout_changes_iff_early_tests_pass (fw_example 31 31)
           {| num_dec := 3; num_sel_row := -1; num_sel_col := 0 |})) eq_refl).
Defined.

(** X10. When the first decoder has no pin [sel<0>], [draw_layout] fails
    at line 101 with the instances placed and the size set, but without
    any wire, pin or connection; this is so even with no select bit at
    all ([num_sel = 0]), since [sel<0>] is looked up before the loop. *)
Theorem missing_first_select_pin_stops_after_placement
    (fw : Framework) (p : Params) :
  0 <= num_sel p ->
  get_lay_purp_list fw (vm_layer fw) <> [] ->
  core_coord0 (res_master fw) < pg_coord0 (dec_master fw) ->
  num_dec p = 1 \/ num_dec p = 2 ->
  get_pin_bbox fw (placed_dec0 fw p) "sel<0>" = None ->
  draw_layout fw p = (placement_calls fw p, inl (FrameworkError "sel<0>")).
Proof.
  intros Hs Hl Hc Hn Hpin. unfold draw_layout. unfold num_sel in Hs.
  rewrite (lshift1_ok _ Hs).
  destruct (index_0_ok _ Hl) as [vm_lp ->].
  cbn [lift bind fst snd app]. rewrite (placement_ok fw p Hc Hn).
  cbn [bind fst snd]. unfold routing, export_sel, inst_pin_bbox.
  cbn [dec0_inst placed]. rewrite Hpin. cbn. now rewrite app_nil_r.
Qed.

(** X10, with no select bit. *)
Lemma missing_first_select_pin_stops_after_placement_witness :
  0 <= num_sel {| num_dec := 1; num_sel_row := 0; num_sel_col := 0 |}
  /\ get_pin_bbox (fw_no_sel 10 31)
       (placed_dec0 (fw_no_sel 10 31)
          {| num_dec := 1; num_sel_row := 0; num_sel_col := 0 |}) "sel<0>" = None
  /\ draw_layout (fw_no_sel 10 31)
       {| num_dec := 1; num_sel_row := 0; num_sel_col := 0 |} =
     ([ AddInstance RDACDecoder {| dx := 100; dy := 0; mode := Orientation.R0 |};
        AddInstance ResLadder {| dx := 0; dy := 17; mode := Orientation.R0 |};
        SetSizeFromBoundBox 7 {| xl := 0; yl := 0; xh := 160; yh := 120 |} true ],
      inl (FrameworkError "sel<0>")).
Proof.
  assert (Hs : 0 <= num_sel {| num_dec := 1; num_sel_row := 0; num_sel_col := 0 |})
    by (cbv; discriminate).
  assert (Hl : get_lay_purp_list (fw_no_sel 10 31)
                 (vm_layer (fw_no_sel 10 31)) <> []) by discriminate.
  assert (Hc : core_coord0 (res_master (fw_no_sel 10 31))
               < pg_coord0 (dec_master (fw_no_sel 10 31))) by reflexivity.
  split; [assumption |]. split; [reflexivity |].
  exact (missing_first_select_pin_stops_after_placement (fw_no_sel 10 31)
           {| num_dec := 1; num_sel_row := 0; num_sel_col := 0 |}
           Hs Hl Hc (or_introl eq_refl) eq_refl).
Defined.

(** *** The bounding box *)

Lemma draw_layout_set_size (fw : Framework) (p : Params) :
  0 <= num_sel p ->
  get_lay_purp_list fw (vm_layer fw) <> [] ->
  core_coord0 (res_master fw) < pg_coord0 (dec_master fw) ->
  num_dec p = 1 \/ num_dec p = 2 ->
  filter is_set_size (trace (draw_layout fw p)) =
    [SetSizeFromBoundBox (yym_layer fw)
       {| xl := 0; yl := 0; xh := tot_w fw p; yh := tot_h fw |} true].
Proof.
  intros Hs Hl Hc Hn.
  destruct (draw_layout_placed fw p Hs Hl Hc Hn) as (vm_lp & _ & Ht & _).
  rewrite Ht, filter_app.
  rewrite (filter_nil is_set_size (trace (routing _ _ _ _ _)))
    by (apply routing_forall; reflexivity).
  rewrite app_nil_r. unfold placement_calls.
  destruct (num_dec p =? 2); reflexivity.
Qed.

(** X11. When the placement is reached and passes its tests, the size of
    the layout is set once: on the layer above the decoder's top layer,
    rounding up, from the box with corner at the origin, width
    [res_w + num_dec * dec_w] and height [max(dec_h, res_h + off_y)].
    With the master boxes at the origin, every placed instance lies
    between the left and right edge of this box and below its top edge,
    the rightmost decoder ends on its right edge, and the lower edge of
    the ladder is at [off_y]: all instances lie inside the box when
    [off_y] is not negative, that is when the reference coordinates
    differ by at least one pitch. *)
Theorem size_box_covers_the_instances (fw : Framework) (p : Params) :
  0 <= num_sel p ->
  get_lay_purp_list fw (vm_layer fw) <> [] ->
  core_coord0 (res_master fw) < pg_coord0 (dec_master fw) ->
  num_dec p = 1 \/ num_dec p = 2 ->
  filter is_set_size (trace (draw_layout fw p)) =
    [SetSizeFromBoundBox (top_layer (dec_master fw) + 1)
       {| xl := 0; yl := 0;
          xh := res_w fw + num_dec p * dec_w fw;
          yh := Z.max (dec_h fw) (res_h fw + off_y fw) |} true]
  /\ (at_origin (res_bound_box (res_master fw)) ->
      at_origin (dec_bound_box (dec_master fw)) ->
      (forall i, In i (instances (trace (draw_layout fw p))) ->
         0 <= xl (inst_bound_box fw i)
         /\ xh (inst_bound_box fw i) <= tot_w fw p
         /\ yh (inst_bound_box fw i) <= tot_h fw
         /\ (0 <= off_y fw -> 0 <= yl (inst_bound_box fw i)))
      /\ xh (inst_bound_box fw (placed_dec0 fw p)) = tot_w fw p
      /\ yl (inst_bound_box fw (placed_res fw p)) = off_y fw
      /\ (0 <= off_y fw <->
          core_coord0 (res_master fw) + h_pitch fw <= pg_coord0 (dec_master fw))).
Proof.
  intros Hs Hl Hc Hn.
  split; [exact (draw_layout_set_size fw p Hs Hl Hc Hn) |].
  intros (Hrx & Hry & Hrw & Hrh) (Hdx & Hdy & Hdw & Hdh).
  rewrite (draw_layout_instances fw p Hs Hl Hc Hn).
  assert (Hbox : forall i, In i (placed_decs fw p ++ [placed_res fw p]) ->
            i = placed_dec1 fw /\ num_dec p = 2
            \/ i = placed_dec0 fw p \/ i = placed_res fw p).
  { intros i Hi. apply in_app_or in Hi. unfold placed_decs in Hi.
    destruct Hi as [Hi | [<- | []]]; [| auto].
    apply in_app_or in Hi. destruct Hi as [Hi | [<- | []]]; [| auto].
    destruct (Z.eqb_spec (num_dec p) 2); [| destruct Hi].
    destruct Hi as [<- | []]. auto. }
  unfold inst_bound_box, transform_bbox, placed_res, placed_dec0, placed_dec1,
    tot_w, tot_h, start_x, res_w, res_h, dec_w, dec_h, bbox_w, bbox_h, h_pitch.
  split; [| split; [| split]].
  - intros i Hi. destruct (Hbox i Hi) as [[-> H2] | [-> | ->]];
      unfold placed_res, placed_dec0, placed_dec1, start_x, res_w, dec_w, bbox_w;
      cbn [inst_xform inst_master mode dx dy orient_pt xl xh yl yh];
      rewrite ?Hrx, ?Hdx, ?Hry, ?Hdy;
      destruct Hn as [Hn | Hn]; rewrite Hn in *; cbn [Z.eqb Pos.eqb];
      try discriminate; repeat split; intros; lia.
  - cbn [inst_xform inst_master mode dx dy orient_pt xl xh yl yh].
    rewrite ?Hrx, ?Hdx. destruct Hn as [-> | ->]; cbn [Z.eqb Pos.eqb]; lia.
  - cbn [inst_xform inst_master mode dx dy orient_pt xl xh yl yh].
    rewrite ?Hry. lia.
  - unfold off_y. lia.
Qed.

(** X11, for two decoders on the example layout. *)
Lemma size_box_covers_the_instances_witness :
  0 <= num_sel (params_example 2)
  /\ get_lay_purp_list (fw_example 10 31) (vm_layer (fw_example 10 31)) <> []
  /\ core_coord0 (res_master (fw_example 10 31))
     < pg_coord0 (dec_master (fw_example 10 31))
  /\ (num_dec (params_example 2) = 1 \/ num_dec (params_example 2) = 2)
  /\ filter is_set_size
       (trace (draw_layout (fw_example 10 31) (params_example 2))) =
     [SetSizeFromBoundBox 7 {| xl := 0; yl := 0; xh := 220; yh := 120 |} true].
Proof.
  assert (Hs : 0 <= num_sel (params_example 2)) by (cbv; discriminate).
  assert (Hl : get_lay_purp_list (fw_example 10 31)
                 (vm_layer (fw_example 10 31)) <> []) by discriminate.
  assert (Hc : core_coord0 (res_master (fw_example 10 31))
               < pg_coord0 (dec_master (fw_example 10 31))) by reflexivity.
  assert (Hn : num_dec (params_example 2) = 1 \/ num_dec (params_example 2) = 2)
    by (right; reflexivity).
  do 4 (split; [assumption |]).
  exact (proj1 (size_box_covers_the_instances (fw_example 10 31)
                  (params_example 2) Hs Hl Hc Hn)).
Defined.

(** *** Wires of the signals *)

Lemma vm_layer_eq (fw : Framework) : vm_layer fw = top_layer (dec_master fw) - 3.
Proof. unfold vm_layer, xm_layer, ym_layer, xxm_layer. lia. Qed.

Lemma ym_layer_eq (fw : Framework) : ym_layer fw = top_layer (dec_master fw) - 1.
Proof. unfold ym_layer, xxm_layer. lia. Qed.

Lemma wires_pair_up_app (t1 t2 : list Call) :
  wires_pair_up t1 -> wires_pair_up t2 -> wires_pair_up (t1 ++ t2).
Proof.
  unfold wires_pair_up, added_wires, signal_pin_wires.
  intros H1 H2. now rewrite !flat_map_app, H1, H2.
Qed.

Lemma wires_pair_up_none (t : list Call) :
  Forall no_wire_no_signal_pin t -> wires_pair_up t.
Proof.
  unfold wires_pair_up, added_wires, signal_pin_wires.
  induction 1 as [| c t Hc _ IH]; [reflexivity |].
  cbn [flat_map]. rewrite IH.
  destruct c as [| | | n ws [m |] cn | | |]; try reflexivity; destruct Hc.
Qed.

Lemma wires_pair_up_bind {A B} (m : M Call A) (f : A -> M Call B) :
  wires_pair_up (trace m) -> (forall a, wires_pair_up (trace (f a))) ->
  wires_pair_up (trace (bind m f)).
Proof.
  intros Hm Hf. rewrite trace_bind. apply wires_pair_up_app; [assumption |].
  destruct (outcome m); [reflexivity | apply Hf].
Qed.

Lemma wires_pair_up_for {A} (xs : list A) (body : A -> M Call unit) :
  (forall x, wires_pair_up (trace (body x))) ->
  wires_pair_up (trace (for_ xs body)).
Proof.
  intros Hb. induction xs as [| x xs IH]; [reflexivity |].
  cbn [for_]. apply wires_pair_up_bind; [apply Hb | intros _; exact IH].
Qed.

Lemma export_sel_pairs (fw : Framework) (p : Params) (pl : Placed) :
  wires_pair_up (trace (export_sel fw p pl)).
Proof.
  unfold export_sel.
  apply wires_pair_up_bind;
    [unfold inst_pin_bbox; destruct (get_pin_bbox _ _ _); reflexivity |].
  intros b. apply wires_pair_up_for. intros idx.
  unfold inst_pin_bbox, the_inst.
  destruct (get_pin_bbox fw (dec0_inst pl) _); [| reflexivity].
  destruct (num_dec p =? 2); [| reflexivity].
  destruct (dec1_inst pl) as [d1 |]; [| reflexivity].
  cbn. destruct (get_pin_bbox fw d1 _); reflexivity.
Qed.

Lemma export_out_pairs (fw : Framework) (p : Params) (pl : Placed) :
  wires_pair_up (trace (export_out fw p pl)).
Proof.
  unfold export_out, inst_pin_bbox, the_inst.
  destruct (get_pin_bbox fw (dec0_inst pl) _); [| reflexivity].
  destruct (num_dec p =? 2); [| reflexivity].
  destruct (dec1_inst pl) as [d1 |]; [| reflexivity].
  cbn. destruct (get_pin_bbox fw d1 _); reflexivity.
Qed.

Lemma routing_pairs (fw : Framework) (p : Params) (pl : Placed)
    (vm_lp : string * string) (num_in : Z) :
  wires_pair_up (trace (routing fw p pl vm_lp num_in)).
Proof.
  unfold routing.
  apply wires_pair_up_bind; [apply export_sel_pairs | intros _].
  apply wires_pair_up_bind; [apply export_out_pairs | intros _].
  apply wires_pair_up_bind;
    [apply wires_pair_up_none, connect_ladder_forall; intros; exact I | intros _].
  apply wires_pair_up_bind;
    [apply wires_pair_up_none, route_supplies_forall; intros; exact I | intros _].
  reflexivity.
Qed.

Lemma routing_wires_in_place (fw : Framework) (p : Params)
    (vm_lp : string * string) (num_in : Z) :
  Forall (wire_in_place fw p) (trace (routing fw p (placed fw p) vm_lp num_in)).
Proof.
  unfold routing.
  apply bind_trace_forall; [| intros _].
  { unfold export_sel. walk; cbn; try exact I;
      left; (split; [apply vm_layer_eq | reflexivity]). }
  apply bind_trace_forall; [| intros _].
  { unfold export_out. walk; cbn; try exact I;
      right; (split; [apply ym_layer_eq | reflexivity]). }
  apply bind_trace_forall; [apply connect_ladder_forall; intros; exact I | intros _].
  apply bind_trace_forall; [apply route_supplies_forall; intros; exact I | intros _].
  repeat constructor.
Qed.

(** X12. In every run of [draw_layout], whether it ends normally or not,
    each wire added is either on the layer three below the decoder's top
    layer and starts at coordinate zero (a select wire), or on the layer
    one below it and ends at the top edge of the layout (an output wire);
    and the wires added are, in the same order, exactly the wires of the
    signal pins: no wire is left without a pin, and no signal pin is made
    of anything else. *)
Theorem signal_wires_are_in_place_and_all_exported
    (fw : Framework) (p : Params) :
  Forall (wire_in_place fw p) (trace (draw_layout fw p))
  /\ added_wires (trace (draw_layout fw p)) =
     signal_pin_wires (trace (draw_layout fw p)).
Proof.
  destruct (draw_layout_cases fw p) as [[Ht _] | (Hs & Hl & Hc & Hn)].
  - rewrite Ht. split; [constructor | reflexivity].
  - destruct (draw_layout_placed fw p Hs Hl Hc Hn) as (vm_lp & _ & Ht & _).
    rewrite Ht. split.
    + apply Forall_app. split; [| apply routing_wires_in_place].
      unfold placement_calls. destruct (num_dec p =? 2); repeat constructor.
    + apply wires_pair_up_app; [| apply routing_pairs].
      unfold placement_calls. destruct (num_dec p =? 2); reflexivity.
Qed.

(** *** Supply pins and schematic parameters come last, or not at all *)

Lemma existsb_false_app (q : Call -> bool) (t1 t2 : list Call) :
  existsb q t1 = false -> existsb q t2 = false -> existsb q (t1 ++ t2) = false.
Proof. intros H1 H2. now rewrite existsb_app, H1, H2. Qed.

Lemma existsb_false_of_forall (q : Call -> bool) (t : list Call) :
  Forall (fun c => q c = false) t -> existsb q t = false.
Proof.
  induction 1 as [| c t Hc _ IH]; [reflexivity |]. cbn. now rewrite Hc.
Qed.

Lemma all_or_nothing_after (n : Z) (t : list Call) (x : M Call unit) :
  existsb is_final_call t = false ->
  all_or_nothing n x ->
  all_or_nothing n (t ++ trace x, outcome x).
Proof.
  intros Ht [Hok Hbad]. split; cbn [trace outcome fst snd].
  - intros Ho. destruct (Hok Ho) as (pre & vdd & vss & E & Hpre).
    exists (t ++ pre), vdd, vss. rewrite E, app_assoc.
    split; [reflexivity | now apply existsb_false_app].
  - intros e He. apply existsb_false_app; [assumption | now apply (Hbad e)].
Qed.

Lemma all_or_nothing_bind (n : Z) (m : M Call unit) (k : M Call unit) :
  Forall (fun c => is_final_call c = false) (trace m) ->
  all_or_nothing n k ->
  all_or_nothing n (bind m (fun _ => k)).
Proof.
  intros Hm Hk. apply existsb_false_of_forall in Hm.
  destruct m as [t [e | []]].
  - split; cbn; [discriminate | intros; exact Hm].
  - exact (all_or_nothing_after n t k Hm Hk).
Qed.

Lemma signal_phases_not_final (fw : Framework) (p : Params) (pl : Placed)
    (vm_lp : string * string) (num_in : Z) :
  Forall (fun c => is_final_call c = false) (trace (export_sel fw p pl))
  /\ Forall (fun c => is_final_call c = false) (trace (export_out fw p pl))
  /\ Forall (fun c => is_final_call c = false)
       (trace (connect_ladder fw p pl vm_lp num_in)).
Proof.
  split; [| split].
  - unfold export_sel. walk; reflexivity.
  - unfold export_out. walk; reflexivity.
  - apply connect_ladder_forall. reflexivity.
Qed.

Lemma route_supplies_all_or_nothing (fw : Framework) (n : Z) (pl : Placed) :
  all_or_nothing n (route_supplies fw pl ;; emit (SetSchParams n))%py.
Proof.
  assert (Hq : forall t, Forall (fun c => is_connect_to_tracks c = true) t ->
                         existsb is_final_call t = false).
  { intros t Ht. apply existsb_false_of_forall.
    eapply Forall_impl; [| exact Ht].
    intros c Hc. destruct c; try discriminate; reflexivity. }
  unfold route_supplies.
  pose proof (res_supplies_connects fw pl) as H1.
  destruct (res_supplies fw pl) as [t1 [e | [[[vdd0 vss0] al] ar]]];
    cbn [trace fst] in H1.
  { split; cbn; [discriminate | intros; now apply Hq]. }
  cbn [bind fst snd].
  assert (H2 : Forall (fun c => is_connect_to_tracks c = true)
                 (trace (collect (dec_list pl) (dec_supplies fw pl al ar)))).
  { apply collect_trace_forall. intros d _. apply dec_supplies_connects. }
  destruct (collect (dec_list pl) (dec_supplies fw pl al ar)) as [t2 [e | decs]];
    cbn [trace fst] in H2.
  { split; cbn; [discriminate |].
    intros. rewrite ?app_nil_r. apply existsb_false_app; now apply Hq. }
  split; cbn.
  - intros _. exists (t1 ++ t2), (vdd0 :: map fst decs), (vss0 :: map snd decs).
    rewrite <- !app_assoc. split; [reflexivity |].
    apply existsb_false_app; now apply Hq.
  - discriminate.
Qed.

(** X13. The two supply pins and the schematic parameters are all or
    nothing.  A run of [draw_layout] that ends normally has made exactly
    three such calls, its last three: [VDD], [VSS], both connected by
    name, and the schematic parameters with [num_dec].  A run that raises,
    wherever it does, has added no supply pin and has set no schematic
    parameters. *)
Theorem supply_pins_and_sch_params_are_all_or_nothing
    (fw : Framework) (p : Params) :
  all_or_nothing (num_dec p) (draw_layout fw p).
Proof.
  destruct (draw_layout_cases fw p) as [[Ht [e He]] | (Hs & Hl & Hc & Hn)].
  - split.
    + rewrite He. discriminate.
    + intros e' _. rewrite Ht. reflexivity.
  - destruct (draw_layout_placed fw p Hs Hl Hc Hn) as (vm_lp & _ & Ht & Ho).
    destruct (signal_phases_not_final fw p (placed fw p) vm_lp (2 ^ num_sel p))
      as (H1 & H2 & H3).
    assert (Hr : all_or_nothing (num_dec p)
                   (routing fw p (placed fw p) vm_lp (2 ^ num_sel p))).
    { unfold routing.
      apply all_or_nothing_bind; [exact H1 |].
      apply all_or_nothing_bind; [exact H2 |].
      apply all_or_nothing_bind; [exact H3 |].
      apply route_supplies_all_or_nothing. }
    assert (Hp : existsb is_final_call (placement_calls fw p) = false)
      by (unfold placement_calls; destruct (num_dec p =? 2); reflexivity).
    pose proof (all_or_nothing_after _ _ _ Hp Hr) as H.
    rewrite <- Ht, <- Ho in H.
    destruct (draw_layout fw p) as [t o]. exact H.
Qed.

(** *** Pin names *)

Lemma length_append (a b : string) :
  String.length (a +s b) = (String.length a + String.length b)%nat.
Proof. induction a as [| x a IH]; [reflexivity |]. cbn. now rewrite IH. Qed.

Lemma append_inj_r (a b t : string) : a +s t = b +s t -> a = b.
Proof.
  revert b. induction a as [| x a IH]; intros [| y b] H.
  - reflexivity.
  - apply (f_equal String.length) in H. cbn in H. rewrite length_append in H. lia.
  - apply (f_equal String.length) in H. cbn in H. rewrite length_append in H. lia.
  - cbn in H. injection H as -> H. f_equal. now apply IH.
Qed.

Lemma str_of_Z_inj (a b : Z) : str_of_Z a = str_of_Z b -> a = b.
Proof.
  unfold str_of_Z. intros H.
  assert (Hn : forall z, Z.to_int z <> Decimal.Pos Decimal.Nil
                         /\ Z.to_int z <> Decimal.Neg Decimal.Nil).
  { intros [| q | q]; cbn; split; try discriminate;
      intros E; injection E as E;
      exact (DecimalPos.Unsigned.to_uint_nonnil q E). }
  apply (f_equal NilZero.int_of_string) in H.
  rewrite !NilZero.isi in H by apply Hn.
  injection H as H. now apply DecimalZ.to_int_inj.
Qed.

Lemma bit_name_inj (pfx : string) (i j : Z) :
  bit_name pfx i = bit_name pfx j -> i = j.
Proof.
  unfold bit_name. intros H.
  apply HPDMoreFacts.append_inj_l in H.
  apply (HPDMoreFacts.append_inj_l "<") in H.
  apply append_inj_r in H. now apply str_of_Z_inj.
Qed.

Lemma NoDup_range (n : Z) : NoDup (range n).
Proof.
  unfold range. apply NoDup_map_NoDup_ForallPairs; [| apply seq_NoDup].
  intros x y _ _ H. lia.
Qed.

Lemma NoDup_flat_map_pair {A} (f g : A -> string) (xs : list A) :
  (forall i j, f i = f j -> i = j) ->
  (forall i j, g i = g j -> i = j) ->
  (forall i j, f i <> g j) ->
  NoDup xs -> NoDup (flat_map (fun i => [f i; g i]) xs).
Proof.
  intros Hf Hg Hfg. induction 1 as [| x xs Hx _ IH]; [constructor |].
  cbn [flat_map app]. constructor; [| constructor; [| exact IH]].
  - intros [E | Hin]; [exact (Hfg x x (eq_sym E)) |].
    apply in_flat_map in Hin. destruct Hin as (j & Hj & [E | [E | []]]).
    + apply Hf in E. subst j. contradiction.
    + exact (Hfg x j (eq_sym E)).
  - intros Hin. apply in_flat_map in Hin.
    destruct Hin as (j & Hj & [E | [E | []]]).
    + exact (Hfg j x E).
    + apply Hg in E. subst j. contradiction.
Qed.

Lemma NoDup_flat_map_single {A} (f : A -> string) (xs : list A) :
  (forall i j, f i = f j -> i = j) ->
  NoDup xs -> NoDup (flat_map (fun i => [f i]) xs).
Proof.
  intros Hf. induction 1 as [| x xs Hx _ IH]; [constructor |].
  cbn [flat_map app]. constructor; [| exact IH].
  intros Hin. apply in_flat_map in Hin. destruct Hin as (j & Hj & [E | []]).
  apply Hf in E. subst j. contradiction.
Qed.

(** The names of the pins of a valid run. *)
Lemma draw_layout_pin_names (fw : Framework) (p : Params) :
  valid_params fw p ->
  pin_names (trace (draw_layout fw p)) =
    (if num_dec p =? 2
     then flat_map (fun idx => [bit_name "sel0" idx; bit_name "sel1" idx])
            (range (num_sel p))
     else flat_map (fun idx => [bit_name "sel" idx]) (range (num_sel p)))
    ++ (if num_dec p =? 2 then ["out0"; "out1"] else ["out"])
    ++ ["VDD"; "VSS"].
Proof.
  intros Hv. pose proof Hv as [Hs Hp].
  destruct (draw_layout_trace fw p Hv)
    as (vm_lp & t & vdd0 & vdds & vss0 & vsss & E & HF & _).
  destruct (export_sel_ok fw p Hs) as [_ Hsel].
  destruct (export_out_ok fw p Hs) as [_ Hout].
  rewrite E. cbn [trace fst]. rewrite !pin_names_app, Hsel, Hout.
  rewrite (pin_names_nil (placement_calls fw p))
    by (unfold placement_calls; destruct (num_dec p =? 2); repeat constructor).
  rewrite (pin_names_nil (trace (connect_ladder _ _ _ _ _)))
    by (apply connect_ladder_forall; reflexivity).
  rewrite (pin_names_nil t).
  2:{ eapply Forall_impl; [| exact HF].
      intros c Hc. destruct c; try discriminate; reflexivity. }
  reflexivity.
Qed.

(** X14. On every valid parameter set the pins that [draw_layout] adds
    have pairwise different names: no two [add_pin] calls fall on one
    name. *)
Theorem pin_names_are_distinct (fw : Framework) (p : Params) :
  valid_params fw p ->
  NoDup (pin_names (trace (draw_layout fw p))).
Proof.
  intros Hv. rewrite (draw_layout_pin_names fw p Hv).
  assert (Hsel : forall pfx i (s : string),
            In pfx ["sel"; "sel0"; "sel1"] ->
            In s ["out"; "out0"; "out1"; "VDD"; "VSS"] ->
            bit_name pfx i <> s).
  { intros pfx i s Hp Hs. cbn in Hp, Hs.
    repeat (destruct Hp as [<- | Hp]; [| try contradiction]);
      repeat (destruct Hs as [<- | Hs]; [| try contradiction]);
      discriminate. }
  destruct (num_dec p =? 2).
  - apply NoDup_app.
    + apply NoDup_flat_map_pair; try apply bit_name_inj; [| apply NoDup_range].
      intros i j. discriminate.
    + repeat constructor; cbn; intuition discriminate.
    + intros a Ha Hb. apply in_flat_map in Ha.
      destruct Ha as (i & _ & [<- | [<- | []]]);
        revert Hb; cbn [app In]; intros Hb;
        repeat (destruct Hb as [Hb | Hb]; [revert Hb; apply not_eq_sym, Hsel; cbn; tauto |]);
        exact Hb.
  - apply NoDup_app.
    + apply NoDup_flat_map_single; [apply bit_name_inj | apply NoDup_range].
    + repeat constructor; cbn; intuition discriminate.
    + intros a Ha Hb. apply in_flat_map in Ha.
      destruct Ha as (i & _ & [<- | []]);
        revert Hb; cbn [app In]; intros Hb;
        repeat (destruct Hb as [Hb | Hb]; [revert Hb; apply not_eq_sym, Hsel; cbn; tauto |]);
        exact Hb.
Qed.

(** X14, for two decoders and two select bits on the example layout. *)
Lemma pin_names_are_distinct_witness :
  valid_params (fw_example 10 31) (params_example 2)
  /\ NoDup (pin_names (trace (draw_layout (fw_example 10 31) (params_example 2)))).
Proof.
  assert (Hv : valid_params (fw_example 10 31) (params_example 2)).
  { split; [apply valid_signals_example; now right
           | apply valid_supplies_example]. }
  split; [exact Hv |].
  exact (pin_names_are_distinct (fw_example 10 31) (params_example 2) Hv).
Defined.

(** *** The side of a decoder decides its supply tracks *)

Lemma decoder_sides (fw : Framework) (p : Params) :
  at_origin (res_bound_box (res_master fw)) ->
  at_origin (dec_bound_box (dec_master fw)) ->
  2 <= res_w fw + dec_w fw ->
  num_dec p = 1 \/ num_dec p = 2 ->
  (bbox_xm (inst_bound_box fw (placed_dec0 fw p))
   >? bbox_xm (inst_bound_box fw (placed_res fw p))) = true
  /\ (num_dec p = 2 ->
      (bbox_xm (inst_bound_box fw (placed_dec1 fw))
       >? bbox_xm (inst_bound_box fw (placed_res fw p))) = false)
  /\ xh (inst_bound_box fw (placed_dec0 fw p)) = tot_w fw p
  /\ (num_dec p = 2 -> xl (inst_bound_box fw (placed_dec1 fw)) = 0).
Proof.
  intros (Hrx & Hry & Hrw & Hrh) (Hdx & Hdy & Hdw & Hdh) Hw Hn.
  unfold inst_bound_box, transform_bbox, placed_res, placed_dec0, placed_dec1,
    tot_w, start_x, res_w, dec_w, bbox_w, bbox_xm in *.
  cbn [inst_xform inst_master mode dx dy orient_pt xl xh yl yh].
  rewrite Hrx, Hdx in *.
  set (r := xh (res_bound_box (res_master fw))) in *.
  set (d := xh (dec_bound_box (dec_master fw))) in *.
  assert (Hs : 0 <= (if num_dec p =? 2 then d - 0 else 0))
    by (destruct (num_dec p =? 2); lia).
  repeat split.
  - apply Z.gtb_lt.
    set (s := if num_dec p =? 2 then d - 0 else 0) in *.
    rewrite ?Z.min_l, ?Z.max_r by lia.
    Z.div_mod_to_equations. lia.
  - intros E. rewrite E. cbn [Z.eqb Pos.eqb].
    rewrite Z.gtb_ltb. apply Z.ltb_ge.
    rewrite ?Z.min_l, ?Z.max_r by lia.
    Z.div_mod_to_equations. lia.
  - destruct Hn as [E | E]; rewrite E; cbn [Z.eqb Pos.eqb]; lia.
  - intros _. lia.
Qed.

(** X15. With [num_dec] 1 or 2, the masters' boxes at the origin, the
    two blocks together at least two units wide and the supplies
    routable, the first decoder is right of the ladder and a second one
    left of it.  So the first decoder's supplies go on the tracks spread
    from the ladder's free track [avail_ridx] to the track below the
    right edge of the layout, [VSS] on the first of them and [VDD] on the
    second; those of a second decoder go on the tracks spread from the
    track above x = 0 to [avail_lidx], [VDD] first and [VSS] second.
    Nothing else is drawn for a decoder's supplies, and the step ends
    normally. *)
Theorem decoders_take_the_tracks_of_their_side
    (fw : Framework) (p : Params) (al ar : Z) :
  at_origin (res_bound_box (res_master fw)) ->
  at_origin (dec_bound_box (dec_master fw)) ->
  2 <= res_w fw + dec_w fw ->
  num_dec p = 1 \/ num_dec p = 2 ->
  valid_supplies fw p ->
  (exists vdd_pin vss_pin,
     get_pin_warr fw (placed_dec0 fw p) "VDD" (Some (xxm_layer fw))
       = Some vdd_pin
     /\ get_pin_warr fw (placed_dec0 fw p) "VSS" (Some (xxm_layer fw))
        = Some vss_pin
     /\ (let locs := locs_right fw ar (tot_w fw p) in
         trace (dec_supplies fw (placed fw p) al ar (placed_dec0 fw p)) =
           supply_connections fw p locs (nth 1 locs 0) (nth 0 locs 0)
             vdd_pin vss_pin)
     /\ exists y,
          outcome (dec_supplies fw (placed fw p) al ar (placed_dec0 fw p))
          = inr y)
  /\ (num_dec p = 2 ->
      exists vdd_pin vss_pin,
        get_pin_warr fw (placed_dec1 fw) "VDD" (Some (xxm_layer fw))
          = Some vdd_pin
        /\ get_pin_warr fw (placed_dec1 fw) "VSS" (Some (xxm_layer fw))
           = Some vss_pin
        /\ (let locs := locs_left fw al 0 in
            trace (dec_supplies fw (placed fw p) al ar (placed_dec1 fw)) =
              supply_connections fw p locs (nth 0 locs 0) (nth 1 locs 0)
                vdd_pin vss_pin)
        /\ exists y,
             outcome (dec_supplies fw (placed fw p) al ar (placed_dec1 fw))
             = inr y).
Proof.
  intros Hr Hd Hw Hn Hv.
  destruct (decoder_sides fw p Hr Hd Hw Hn) as (S0 & S1 & X0 & X1).
  split.
  - assert (Hin : In (placed_dec0 fw p) (placed_decs fw p))
      by (unfold placed_decs; apply in_or_app; right; left; reflexivity).
    destruct (v_sup fw p Hv _ Hin) as [Hdd Hss].
    destruct (inst_pin_warr_some fw _ _ _ Hdd) as (pd & Gd & Ed).
    destruct (inst_pin_warr_some fw _ _ _ Hss) as (ps & Gs & Es).
    exists pd, ps. split; [exact Gd |]. split; [exact Gs |].
    unfold dec_supplies. cbn [res_inst bound_box placed].
    rewrite S0, Ed, Es, X0.
    unfold supply_connections, locs_right, locs_left, connect_to_tracks.
    repeat (rewrite !(spread_index fw p Hv) by (cbn; lia);
            cbn [bind lift ret emit trace outcome fst snd app]).
    split; [reflexivity | eexists; reflexivity].
  - intros E.
    assert (Hin : In (placed_dec1 fw) (placed_decs fw p))
      by (unfold placed_decs; rewrite E; left; reflexivity).
    destruct (v_sup fw p Hv _ Hin) as [Hdd Hss].
    destruct (inst_pin_warr_some fw _ _ _ Hdd) as (pd & Gd & Ed).
    destruct (inst_pin_warr_some fw _ _ _ Hss) as (ps & Gs & Es).
    exists pd, ps. split; [exact Gd |]. split; [exact Gs |].
    unfold dec_supplies. cbn [res_inst bound_box placed].
    rewrite (S1 E), Ed, Es, (X1 E).
    unfold supply_connections, locs_right, locs_left, connect_to_tracks.
    repeat (rewrite !(spread_index fw p Hv) by (cbn; lia);
            cbn [bind lift ret emit trace outcome fst snd app]).
    split; [reflexivity | eexists; reflexivity].
Qed.

(** X15, for two decoders on the example layout, with the free tracks
    20 and 90. *)
Lemma decoders_take_the_tracks_of_their_side_witness :
  let fw := fw_example 10 31 in
  let p := params_example 2 in
  at_origin (res_bound_box (res_master fw))
  /\ at_origin (dec_bound_box (dec_master fw))
  /\ 2 <= res_w fw + dec_w fw
  /\ (num_dec p = 1 \/ num_dec p = 2)
  /\ valid_supplies fw p
  /\ (exists vdd_pin vss_pin,
        get_pin_warr fw (placed_dec0 fw p) "VDD" (Some (xxm_layer fw))
          = Some vdd_pin
        /\ get_pin_warr fw (placed_dec0 fw p) "VSS" (Some (xxm_layer fw))
           = Some vss_pin
        /\ (let locs := locs_right fw 90 (tot_w fw p) in
            trace (dec_supplies fw (placed fw p) 20 90 (placed_dec0 fw p)) =
              supply_connections fw p locs (nth 1 locs 0) (nth 0 locs 0)
                vdd_pin vss_pin)
        /\ exists y,
             outcome (dec_supplies fw (placed fw p) 20 90 (placed_dec0 fw p))
             = inr y)
  /\ (num_dec p = 2 ->
      exists vdd_pin vss_pin,
        get_pin_warr fw (placed_dec1 fw) "VDD" (Some (xxm_layer fw))
          = Some vdd_pin
        /\ get_pin_warr fw (placed_dec1 fw) "VSS" (Some (xxm_layer fw))
           = Some vss_pin
        /\ (let locs := locs_left fw 20 0 in
            trace (dec_supplies fw (placed fw p) 20 90 (placed_dec1 fw)) =
              supply_connections fw p locs (nth 0 locs 0) (nth 1 locs 0)
                vdd_pin vss_pin)
        /\ exists y,
             outcome (dec_supplies fw (placed fw p) 20 90 (placed_dec1 fw))
             = inr y).
Proof.
  intros fw p.
  assert (Hr : at_origin (res_bound_box (res_master fw)))
    by (unfold at_origin; cbn; lia).
  assert (Hd : at_origin (dec_bound_box (dec_master fw)))
    by (unfold at_origin; cbn; lia).
  assert (Hw : 2 <= res_w fw + dec_w fw) by (vm_compute; discriminate).
  assert (Hn : num_dec p = 1 \/ num_dec p = 2) by (right; reflexivity).
  assert (Hv : valid_supplies fw p) by apply valid_supplies_example.
  do 5 (split; [assumption |]).
  exact (decoders_take_the_tracks_of_their_side fw p 20 90 Hr Hd Hw Hn Hv).
Defined.

End RDACMoreFacts.
